(** * dnpLab: the labelled n-dimensional array core

    A shallow embedding of [dnpLab/dnpData.py] (classes [dnpData] and
    [dnpdata_collection]) and of [dnpLab/nddata_axis.py] (class
    [nddata_axis]), with the properties of the data model stated and
    proved over it.

    Layout: the host-language layer ([Py]: exceptions, list indexing, slices,
    stable sorting), the array layer ([Np]: shape plus row-major buffer), the
    three classes, and then the lemmas and theorems. *)

From Stdlib Require Import ZArith QArith Qround Qabs String List Lia.
From Stdlib Require Import Sorting.Sorted Sorting.Permutation.
From stdpp Require Import base option list gmap strings.

Local Open Scope Z_scope.
Local Open Scope string_scope.
Local Open Scope list_scope.
Local Open Scope nat_scope.

(* ===================================================================== *)
(** * Host language: exceptions, results, lists, slices                   *)
(* ===================================================================== *)

Module Py.

(** Exception classes raised by the modelled code and by the NumPy calls it
    makes.  [AxisError] is [numpy.AxisError]; [ReferenceError] marks a
    reference to an object that is not on the heap. *)
Inductive exn_class :=
| ValueError | TypeError | KeyError | IndexError | AttributeError
| ZeroDivisionError | OverflowError | AxisError | ReferenceError.

Record exn := Exn { exn_cls : exn_class; exn_msg : string }.

Inductive result (A : Type) :=
| Ok (a : A)
| Raise (e : exn).
Arguments Ok {A} a.
Arguments Raise {A} e.

Definition raise {A} (c : exn_class) (msg : string) : result A :=
  Raise (Exn c msg).

Definition rbind {A B} (r : result A) (k : A -> result B) : result B :=
  match r with
  | Ok a => k a
  | Raise e => Raise e
  end.

(** [raises c r]: the computation [r] ended with an exception of class [c]. *)
Definition raises {A} (c : exn_class) (r : result A) : Prop :=
  exists msg, r = Raise (Exn c msg).

(** Decidable equality of exception classes. *)
Definition exn_class_eqb (a b : exn_class) : bool :=
  match a, b with
  | ValueError, ValueError | TypeError, TypeError | KeyError, KeyError
  | IndexError, IndexError | AttributeError, AttributeError
  | ZeroDivisionError, ZeroDivisionError | OverflowError, OverflowError
  | AxisError, AxisError | ReferenceError, ReferenceError => true
  | _, _ => false
  end.

(** [l[i]] for a non-negative index: [IndexError] out of range. *)
Definition getitem {A} (l : list A) (i : nat) : result A :=
  match l !! i with
  | Some x => Ok x
  | None => raise IndexError "list index out of range"
  end.

(** [[f(x) for x in l]]: the first exception aborts the comprehension. *)
Fixpoint comprehension {A B} (f : A -> result B) (l : list A)
  : result (list B) :=
  match l with
  | [] => Ok []
  | x :: l' =>
      rbind (f x) (fun y =>
      rbind (comprehension f l') (fun ys => Ok (y :: ys)))
  end.

(** [l.index(x)]: position of the first element equal to [x];
    [ValueError] when there is none, with the message
    [repr(x) is not in list]. *)
Fixpoint find_index (x : string) (l : list string) : option nat :=
  match l with
  | [] => None
  | y :: l' => if String.eqb y x then Some 0
               else option_map S (find_index x l')
  end.

(** [repr(s)] of a string: in single quotes, or in double quotes when the
    string holds a single quote and no double quote; a backslash, the quote
    in use, newline, carriage return and tab are written with a backslash,
    the other control characters as [\xNN].  Bytes above 127 are taken to
    spell printable characters and are kept as they are. *)
Definition hex_digit (n : nat) : Ascii.ascii :=
  nth n (list_ascii_of_string "0123456789abcdef") (Ascii.ascii_of_nat 48).

Definition repr_char (quote c : Ascii.ascii) : string :=
  let n := Ascii.nat_of_ascii c in
  let backslash := Ascii.ascii_of_nat 92 in
  if n =? 92 then String backslash (String backslash EmptyString)
  else if Ascii.eqb c quote then String backslash (String c EmptyString)
  else if n =? 10 then String backslash "n"
  else if n =? 13 then String backslash "r"
  else if n =? 9 then String backslash "t"
  else if (n <? 32) || (n =? 127) then
    String backslash
      (String (Ascii.ascii_of_nat 120)
         (String (hex_digit (n / 16))
            (String (hex_digit (n mod 16)) EmptyString)))
  else String c EmptyString.

Definition repr (s : string) : string :=
  let single := Ascii.ascii_of_nat 39 in
  let double := Ascii.ascii_of_nat 34 in
  let chars := list_ascii_of_string s in
  let quote := if existsb (Ascii.eqb single) chars
                  && negb (existsb (Ascii.eqb double) chars)
               then double else single in
  String quote
    (String.concat EmptyString (map (repr_char quote) chars)
     ++ String quote EmptyString).
Definition index (l : list string) (x : string) : result nat :=
  match find_index x l with
  | Some i => Ok i
  | None => raise ValueError (repr x ++ " is not in list")
  end.

(** [x in l] *)
Definition contains (x : string) (l : list string) : bool :=
  existsb (String.eqb x) l.

(** [l.pop(i)] for a non-negative index, giving the removed element and
    the list left; [IndexError] out of range. *)
Definition pop {A} (l : list A) (i : nat) : result (A * list A) :=
  match l !! i with
  | Some x => Ok (x, delete i l)
  | None => raise IndexError "pop index out of range"
  end.

(** [l[i] = x]: [IndexError] out of range. *)
Definition setitem {A} (l : list A) (i : nat) (x : A) : result (list A) :=
  if decide (i < length l) then Ok (<[i := x]> l)
  else raise IndexError "list assignment index out of range".

(** [sorted(l, key=...)] on pairs (key, value): a stable sort, here by
    insertion.  Python compares [str] keys by code point with [<]; an
    element is placed before the first one that is not smaller. *)
Fixpoint insert_by_key {A} (x : string * A) (l : list (string * A))
  : list (string * A) :=
  match l with
  | [] => [x]
  | y :: l' => if String.ltb (fst y) (fst x) then y :: insert_by_key x l'
               else x :: y :: l'
  end.

Definition sorted_by_key {A} (l : list (string * A)) : list (string * A) :=
  foldr insert_by_key [] l.

(** [sorted(l)] on a list of strings. *)
Definition sorted (l : list string) : list string :=
  map fst (sorted_by_key (map (fun s => (s, tt)) l)).

(** [sorted(range(len(keys)), key = lambda k: keys[k])] *)
Definition argsort (keys : list string) : list nat :=
  map snd (sorted_by_key (zip keys (seq 0 (length keys)))).

(** ** Slices *)

Record slice := Slice {
  slice_start : option Z;
  slice_stop : option Z;
  slice_step : option Z
}.

(** One bound of a slice brought into range for a sequence of length [n],
    as [slice.indices] does. *)
Definition clamp_bound (v n step : Z) : Z :=
  if (v <? 0)%Z then
    let v' := (v + n)%Z in
    if (v' <? 0)%Z then (if (step <? 0)%Z then (-1)%Z else 0%Z) else v'
  else if (n <=? v)%Z then (if (step <? 0)%Z then (n - 1)%Z else n)
  else v.

Definition range_length (start stop step : Z) : nat :=
  if (0 <? step)%Z then
    if (start <? stop)%Z then Z.to_nat ((stop - start - 1) / step + 1) else 0
  else
    if (stop <? start)%Z then Z.to_nat ((start - stop - 1) / (- step) + 1)
    else 0.

(** The positions selected by [seq[s]] in a sequence of length [n];
    [ValueError] for a zero step. *)
Definition slice_indices (s : slice) (n : nat) : result (list nat) :=
  let step := default 1%Z (slice_step s) in
  if (step =? 0)%Z then raise ValueError "slice step cannot be zero"
  else
    let len := Z.of_nat n in
    let start := match slice_start s with
                 | None => if (step <? 0)%Z then (len - 1)%Z else 0%Z
                 | Some v => clamp_bound v len step
                 end in
    let stop := match slice_stop s with
                | None => if (step <? 0)%Z then (-1)%Z else len
                | Some v => clamp_bound v len step
                end in
    Ok (map (fun i => Z.to_nat (start + Z.of_nat i * step))
            (seq 0 (range_length start stop step))).

(** [seq[s]] on a list (and on a one-dimensional array). *)
Definition getslice {A} (l : list A) (s : slice) : result (list A) :=
  rbind (slice_indices s (length l)) (fun ixs =>
  Ok (omap (fun i => l !! i) ixs)).

(** ** Computations over a mutable world

    A computation may update the world and then either return or raise;
    updates made before an exception stay. *)
Definition M (W A : Type) : Type := W -> result A * W.

Definition ret {W A} (a : A) : M W A := fun w => (Ok a, w).

Definition bind {W A B} (m : M W A) (k : A -> M W B) : M W B :=
  fun w => match m w with
           | (Ok a, w') => k a w'
           | (Raise e, w') => (Raise e, w')
           end.

Definition lift {W A} (r : result A) : M W A := fun w => (r, w).

Declare Scope py_scope.
Delimit Scope py_scope with py.
Notation "'let*' x ':=' m 'in' k" := (bind m (fun x => k))
  (at level 10, x pattern, m at level 100, k at level 200) : py_scope.
Notation "m ';;' k" := (bind m (fun _ => k))
  (at level 100, k at level 200, right associativity, only parsing) : py_scope.

End Py.


(* ===================================================================== *)
(** * NumPy arrays: a shape and a row-major buffer                        *)
(* ===================================================================== *)

(** The element operations the modelled code applies to array entries.
    The classes are generic in the element type (int, float or complex
    entries in the source).  The instance for [Z] stands for a buffer of
    64-bit integers as long as no entry leaves their range; wrap-around is
    not modelled, and the statements on integer buffers that compute
    entries bound them. *)
Class Numeric (T : Type) := {
  num_zero : T;
  num_add : T -> T -> T;
  num_sub : T -> T -> T;
  num_mul : T -> T -> T;
  num_pow : T -> T -> T;
  num_max : T -> T -> T
}.

#[export] Instance Numeric_Z : Numeric Z := {|
  num_zero := 0%Z;
  num_add := Z.add;
  num_sub := Z.sub;
  num_mul := Z.mul;
  num_pow := Z.pow;
  num_max := Z.max
|}.

Module Np.
Import Py.

Section ndarray.
Context {T : Type} `{Numeric T}.

Record ndarray := Array { shape : list nat; data : list T }.

Definition ndim (a : ndarray) : nat := length (shape a).

(** Number of entries of an array of shape [s]. *)
Definition size_of (s : list nat) : nat := foldr Nat.mul 1 s.

(** A one-dimensional array. *)
Definition vector (l : list T) : ndarray := Array [length l] l.

(** The [i]-th block of [k] consecutive entries. *)
Definition chunk (k i : nat) (l : list T) : list T := take k (drop (i * k) l).

(** Multi-index of a buffer offset, and back. *)
Fixpoint unravel (s : list nat) (off : nat) : list nat :=
  match s with
  | [] => []
  | _ :: s' => (off / size_of s') :: unravel s' (off mod size_of s')
  end.

Fixpoint ravel (s : list nat) (idx : list nat) : nat :=
  match s, idx with
  | _ :: s', i :: idx' => i * size_of s' + ravel s' idx'
  | _, _ => 0
  end.

Definition entry (a : ndarray) (idx : list nat) : T :=
  nth (ravel (shape a) idx) (data a) num_zero.

(** Position of the first occurrence of [m] in [l] ([length l] if none). *)
Fixpoint position (m : nat) (l : list nat) : nat :=
  match l with
  | [] => 0
  | x :: l' => if Nat.eqb x m then 0 else S (position m l')
  end.

Fixpoint nodupb (l : list nat) : bool :=
  match l with
  | [] => true
  | x :: l' => negb (existsb (Nat.eqb x) l') && nodupb l'
  end.

(** [np.transpose(a, axes)]: [axes] must be a permutation of
    [range(a.ndim)]. *)
Definition check_axes (n : nat) (axes : list nat) : result unit :=
  if negb (length axes =? n) then raise ValueError "axes don't match array"
  else if negb (forallb (fun ax => ax <? n) axes) then
    raise AxisError "axis is out of bounds"
  else if negb (nodupb axes) then raise ValueError "repeated axis in transpose"
  else Ok tt.

Definition transpose (a : ndarray) (axes : list nat) : result ndarray :=
  rbind (check_axes (ndim a) axes) (fun _ =>
  let s' := map (fun ax => nth ax (shape a) 0) axes in
  let source j := map (fun m => nth (position m axes) j 0) (seq 0 (ndim a)) in
  Ok (Array s' (map (fun off => entry a (source (unravel s' off)))
                    (seq 0 (size_of s'))))).

(** Reduction of the buffer along one axis. *)
Fixpoint reduce_data (f : list (list T) -> list T)
    (s : list nat) (axis : nat) (d : list T) : list T :=
  match s with
  | [] => d
  | n :: s' =>
      let k := size_of s' in
      match axis with
      | 0 => f (map (fun i => chunk k i d) (seq 0 n))
      | S ax => flat_map (fun i => reduce_data f s' ax (chunk k i d)) (seq 0 n)
      end
  end.

(** [np.sum(a, axis)] *)
Definition sum (a : ndarray) (axis : nat) : result ndarray :=
  if axis <? ndim a then
    let k := size_of (drop (S axis) (shape a)) in
    Ok (Array (delete axis (shape a))
              (reduce_data (foldl (zip_with num_add) (replicate k num_zero))
                           (shape a) axis (data a)))
  else raise AxisError "axis is out of bounds".

(** [np.amax(a, axis)]: a zero-length axis has no maximum. *)
Definition amax (a : ndarray) (axis : nat) : result ndarray :=
  match shape a !! axis with
  | None => raise AxisError "axis is out of bounds"
  | Some 0 => raise ValueError "zero-size array to reduction operation maximum which has no identity"
  | Some (S _) =>
      Ok (Array (delete axis (shape a))
                (reduce_data (fun blocks => match blocks with
                                            | [] => []
                                            | b :: bs => foldl (zip_with num_max) b bs
                                            end)
                             (shape a) axis (data a)))
  end.

(** [np.concatenate((a, b), axis)] *)
Fixpoint concat_data (s1 s2 : list nat) (axis : nat) (d1 d2 : list T)
  : list T :=
  match axis, s1, s2 with
  | S ax, n :: s1', _ :: s2' =>
      flat_map (fun i => concat_data s1' s2' ax
                           (chunk (size_of s1') i d1) (chunk (size_of s2') i d2))
               (seq 0 n)
  | _, _, _ => d1 ++ d2
  end.

Definition concatenate (a b : ndarray) (axis : nat) : result ndarray :=
  if (ndim a =? 0) || (ndim b =? 0) then
    raise ValueError "zero-dimensional arrays cannot be concatenated"
  else if negb (axis <? ndim a) then raise AxisError "axis is out of bounds"
  else if negb (ndim b =? ndim a) then
    raise ValueError "all the input arrays must have same number of dimensions"
  else if negb (bool_decide (delete axis (shape a) = delete axis (shape b))) then
    raise ValueError "all the input array dimensions except for the concatenation axis must match exactly"
  else
    Ok (Array (alter (fun n => n + nth axis (shape b) 0) axis (shape a))
              (concat_data (shape a) (shape b) axis (data a) (data b))).

(** [a[sel_0, sel_1, ...]] with one list of positions per leading axis. *)
Fixpoint select (s : list nat) (sel : list (list nat)) (d : list T) : list T :=
  match s, sel with
  | _ :: s', ixs :: sel' =>
      flat_map (fun i => select s' sel' (chunk (size_of s') i d)) ixs
  | _, _ => d
  end.

(** [a[indices]] for a tuple of slices: one slice per leading axis, the
    axes left over are kept whole. *)
Definition getitem_slices (a : ndarray) (indices : list slice)
  : result ndarray :=
  if ndim a <? length indices then
    raise IndexError "too many indices for array"
  else
    rbind (comprehension (fun '(sl, n) => slice_indices sl n)
                         (zip indices (shape a))) (fun sel =>
    Ok (Array (map length sel ++ drop (length sel) (shape a))
              (select (shape a) sel (data a)))).

(** Broadcasting of two shapes, aligned on their last axes; the shapes are
    given reversed. *)
Fixpoint broadcast_rev (r1 r2 : list nat) : option (list nat) :=
  match r1, r2 with
  | [], r => Some r
  | r, [] => Some r
  | n1 :: r1', n2 :: r2' =>
      if n1 =? n2 then cons n1 <$> broadcast_rev r1' r2'
      else if n1 =? 1 then cons n2 <$> broadcast_rev r1' r2'
      else if n2 =? 1 then cons n1 <$> broadcast_rev r1' r2'
      else None
  end.

Definition broadcast_entry (a : ndarray) (out : list nat) (j : list nat) : T :=
  entry a (zip_with (fun n i => if n =? 1 then 0 else i) (shape a)
                    (drop (length out - ndim a) j)).

(** [a op b] entry by entry, with broadcasting. *)
Definition binop (f : T -> T -> T) (a b : ndarray) : result ndarray :=
  match broadcast_rev (rev (shape a)) (rev (shape b)) with
  | None => raise ValueError "operands could not be broadcast together"
  | Some r =>
      let s := rev r in
      Ok (Array s (map (fun off => let j := unravel s off in
                                   f (broadcast_entry a s j) (broadcast_entry b s j))
                       (seq 0 (size_of s))))
  end.

(** [a op x] for a scalar [x]. *)
Definition scalar_op (f : T -> T -> T) (a : ndarray) (x : T) : ndarray :=
  Array (shape a) (map (fun v => f v x) (data a)).

(** [x op a] for a scalar [x]. *)
Definition scalar_rop (f : T -> T -> T) (x : T) (a : ndarray) : ndarray :=
  Array (shape a) (map (fun v => f x v) (data a)).

(** [np.squeeze(a)]: the axes of length 1 are dropped. *)
Definition squeeze (a : ndarray) : ndarray :=
  Array (List.filter (fun n => negb (n =? 1)) (shape a)) (data a).

(** [np.expand_dims(a, -1)]: a new last axis of length 1. *)
Definition expand_dims_last (a : ndarray) : ndarray :=
  Array (shape a ++ [1]) (data a).

End ndarray.
Arguments ndarray T : clear implicits.
End Np.


(* ===================================================================== *)
(** * class dnpData                                                       *)
(* ===================================================================== *)

Module dnpData.
Import Py.

(** Entries of the free-form parameter dictionaries. *)
Inductive attr_value :=
| AttrNum (z : Z)
| AttrStr (s : string).

Local Open Scope py_scope.

Section methods.
Context {T : Type} `{Numeric T}.

(** The instance attributes [__init__] creates.  [coords] holds one
    one-dimensional array per axis.  Every object owns its [dims] and
    [coords] lists (as after [deepcopy], [sort] or [reorder], which build
    new lists); list objects shared between two instances are not
    modelled.  The methods that change these lists in place ([sum],
    [rename], [squeeze], [addAxes]) are therefore described by what they do
    to the receiver: an instance that shares a list object with it sees the
    change of that list as well. *)
Record t := Obj {
  version : string;
  values : Np.ndarray T;
  coords : list (list T);
  dims : list string;
  attrs : gmap string attr_value;
  proc_attrs : list (string * gmap string attr_value)
}.

Definition with_values (v : Np.ndarray T) (o : t) : t :=
  Obj (version o) v (coords o) (dims o) (attrs o) (proc_attrs o).
Definition with_coords (c : list (list T)) (o : t) : t :=
  Obj (version o) (values o) c (dims o) (attrs o) (proc_attrs o).
Definition with_dims (d : list string) (o : t) : t :=
  Obj (version o) (values o) (coords o) d (attrs o) (proc_attrs o).

(** ** Objects on the heap, standard output, exceptions *)

Definition loc := nat.

Record world := World {
  heap : gmap loc t;
  stdout : list string
}.

Definition print (line : string) : M world unit :=
  fun w => (Ok tt, World (heap w) (stdout w ++ [line])).

Definition read (self : loc) : M world t :=
  fun w => match heap w !! self with
           | Some o => (Ok o, w)
           | None => (raise ReferenceError "no such object", w)
           end.

Definition write (self : loc) (o : t) : M world unit :=
  fun w => (Ok tt, World (<[self := o]> (heap w)) (stdout w)).

(** [self.<field>] and [self.<field> = v] *)
Definition get {A} (self : loc) (field : t -> A) : M world A :=
  let* o := read self in ret (field o).

Definition set_values (self : loc) (v : Np.ndarray T) : M world unit :=
  let* o := read self in write self (with_values v o).
Definition set_coords (self : loc) (c : list (list T)) : M world unit :=
  let* o := read self in write self (with_coords c o).
Definition set_dims (self : loc) (d : list string) : M world unit :=
  let* o := read self in write self (with_dims d o).

(** [deepcopy(self)]: a fresh object with the same contents, held by the
    caller and not yet reachable from anywhere else. *)
Definition deepcopy (self : loc) : M world t := read self.

(** The names an instance answers to: the attributes set by [__init__] and
    the methods of the class. *)
Inductive member :=
| MVersion (s : string)
| MValues (a : Np.ndarray T)
| MCoords (c : list (list T))
| MDims (d : list string)
| MAttrs (a : gmap string attr_value)
| MProcAttrs (p : list (string * gmap string attr_value))
| MMethod (name : string).

Definition method_names : list string :=
  ["abs"; "add_proc_attrs"; "addAxes"; "autophase"; "concatenateAlong";
   "copy"; "getAxes"; "imag"; "index"; "len"; "max"; "amax"; "phase";
   "range"; "real"; "reorder"; "rename"; "sort"; "squeeze"; "sum"].

Definition getattr (o : t) (name : string) : result member :=
  if String.eqb name "version" then Ok (MVersion (version o))
  else if String.eqb name "values" then Ok (MValues (values o))
  else if String.eqb name "coords" then Ok (MCoords (coords o))
  else if String.eqb name "dims" then Ok (MDims (dims o))
  else if String.eqb name "attrs" then Ok (MAttrs (attrs o))
  else if String.eqb name "proc_attrs" then Ok (MProcAttrs (proc_attrs o))
  else if contains name method_names then Ok (MMethod name)
  else raise AttributeError
         ("'dnpData' object has no attribute '" ++ name ++ "'").

(** ** Construction *)

(** [__init__(self, values, coords, dims, attrs, procList)] *)
Definition __init__ (values : Np.ndarray T) (coords : list (list T))
    (dims : list string) (attrs : gmap string attr_value)
    (procList : list (string * gmap string attr_value)) : result t :=
  Ok {| version := "1.0";
        values := values;
        coords := coords;
        dims := dims;
        attrs := attrs;
        proc_attrs := [] |}.

(** The core invariant of the data model:
    [len(dims) == len(coords) == values.ndim] and
    [len(coords[i]) == values.shape[i]] for every axis. *)
Definition core_invariant (values : Np.ndarray T) (coords : list (list T))
    (dims : list string) : bool :=
  (length dims =? length coords) && (length coords =? Np.ndim values)
  && bool_decide (map length coords = Np.shape values).

Definition consistent (o : t) : bool :=
  core_invariant (values o) (coords o) (dims o).

(** ** Arithmetic *)

(** The right operand of a binary operator. *)
Inductive operand :=
| Scalar (x : T)               (* int, float or complex, and not bool *)
| Boolean (b : bool)
| Buffer (a : Np.ndarray T)    (* np.ndarray *)
| Labeled (d : loc)            (* dnpData *)
| Other (type_name : string).  (* an object of any other class *)

Definition type_repr (data : operand) : string :=
  match data with
  | Scalar _ => "<class 'number'>"
  | Boolean _ => "<class 'bool'>"
  | Buffer _ => "<class 'numpy.ndarray'>"
  | Labeled _ => "<class 'dnpLab.dnpData.dnpData'>"
  | Other n => "<class '" ++ n ++ "'>"
  end.

Definition not_supported (data : operand) : M world (option t) :=
  print "Cannot add, type not supported:";;
  print (type_repr data);;
  ret None.

Definition __add__ (self : loc) (data : operand) : M world (option t) :=
  let* newData := deepcopy self in
  match data with
  | Scalar x =>
      ret (Some (with_values (Np.scalar_op num_add (values newData) x) newData))
  | Buffer a =>
      let* v := lift (Np.binop num_add (values newData) a) in
      ret (Some (with_values v newData))
  | Labeled d =>
      let* dv := get d values in
      let* v := lift (Np.binop num_add (values newData) dv) in
      ret (Some (with_values v newData))
  | _ => not_supported data
  end.

Definition __mul__ (self : loc) (data : operand) : M world (option t) :=
  let* newData := deepcopy self in
  match data with
  | Scalar x =>
      ret (Some (with_values (Np.scalar_op num_mul (values newData) x) newData))
  | Buffer a =>
      let* v := lift (Np.binop num_mul (values newData) a) in
      ret (Some (with_values v newData))
  | Labeled d =>
      let* dv := get d values in
      let* v := lift (Np.binop num_mul (values newData) dv) in
      ret (Some (with_values v newData))
  | _ => not_supported data
  end.

Definition __pow__ (self : loc) (data : operand) : M world (option t) :=
  let* newData := deepcopy self in
  match data with
  | Scalar x =>
      ret (Some (with_values (Np.scalar_op num_pow (values newData) x) newData))
  | Buffer a =>
      let* v := lift (Np.binop num_pow (values newData) a) in
      ret (Some (with_values v newData))
  | Labeled d =>
      let* dv := get d values in
      let* v := lift (Np.binop num_pow (values newData) dv) in
      ret (Some (with_values v newData))
  | _ => not_supported data
  end.

Definition __sub__ (self : loc) (data : operand) : M world (option t) :=
  let* newData := deepcopy self in
  match data with
  | Scalar x =>
      ret (Some (with_values (Np.scalar_op num_sub (values newData) x) newData))
  | Buffer a =>
      let* v := lift (Np.binop num_sub (values newData) a) in
      ret (Some (with_values v newData))
  | Labeled d =>
      let* dv := get d values in
      let* v := lift (Np.binop num_sub (values newData) dv) in
      ret (Some (with_values v newData))
  | _ => not_supported data
  end.

Definition __radd__ (self : loc) (data : operand) : M world (option t) :=
  __add__ self data.

Definition __rmul__ (self : loc) (data : operand) : M world (option t) :=
  __mul__ self data.

(** [__rsub__]: the scalar branch reads [newData.data]. *)
Definition __rsub__ (self : loc) (data : operand) : M world (option t) :=
  let* newData := deepcopy self in
  match data with
  | Scalar x =>
      let* d := lift (getattr newData "data") in
      match d with
      | MValues a =>
          ret (Some (with_values (Np.scalar_rop num_sub x a) newData))
      | _ => lift (raise TypeError "unsupported operand type(s) for -")
      end
  | Buffer a =>
      let* v := lift (Np.binop num_sub a (values newData)) in
      ret (Some (with_values v newData))
  | Labeled d =>
      let* dv := get d values in
      let* v := lift (Np.binop num_sub dv (values newData)) in
      ret (Some (with_values v newData))
  | _ => not_supported data
  end.


(** ** Indexing *)

(** One token of the tuple handed to [__getitem__]: a dimension label, an
    integer or a slice object. *)
Inductive token :=
| Label (s : string)
| Int (k : Z)
| Range (s : slice).

(** [index[0::2]] and [index[1::2]] *)
Fixpoint evens {A} (l : list A) : list A :=
  match l with
  | x :: _ :: l' => x :: evens l'
  | [x] => [x]
  | [] => []
  end.

Fixpoint odds {A} (l : list A) : list A :=
  match l with
  | _ :: y :: l' => y :: odds l'
  | _ => []
  end.

(** [axes_label in indexing_labels] and [indexing_labels.index(axes_label)]
    on the tuple of tokens: only a label token can equal a label. *)
Definition token_is (axes_label : string) (tk : token) : bool :=
  match tk with
  | Label s => String.eqb s axes_label
  | _ => false
  end.

Fixpoint token_index (axes_label : string) (l : list token) : option nat :=
  match l with
  | [] => None
  | tk :: l' => if token_is axes_label tk then Some 0
                else option_map S (token_index axes_label l')
  end.

(** An entry of [indices]: a slice, or a selector stored as it came. *)
Inductive selector :=
| Sel (s : slice)
| Passed (s : string).

Definition resolve (tk : token) : selector :=
  match tk with
  | Int k => if (k =? -1)%Z then Sel (Slice (Some k) None None)
             else Sel (Slice (Some k) (Some (k + 1)%Z) None)
  | Range s => Sel s
  | Label s => Passed s
  end.

(** The loop over [enumerate(self.dims)] that builds [indices]. *)
Fixpoint build_indices (indexing_labels indexing_list : list token)
    (coords : list (list T)) (axes_ix : nat) (dims : list string)
  : result (list selector) :=
  match dims with
  | [] => Ok []
  | axes_label :: dims' =>
      rbind (match token_index axes_label indexing_labels with
             | Some ix =>
                 rbind (getitem indexing_list ix) (fun tk => Ok (resolve tk))
             | None =>
                 rbind (getitem coords axes_ix) (fun c =>
                 Ok (Sel (Slice (Some 0%Z) (Some (Z.of_nat (length c))) None)))
             end) (fun sl =>
      rbind (build_indices indexing_labels indexing_list coords
                           (S axes_ix) dims') (fun rest =>
      Ok (sl :: rest)))
  end.

(** A selector used as an index: NumPy and lists refuse a string. *)
Definition as_slice (sl : selector) : result slice :=
  match sl with
  | Sel s => Ok s
  | Passed _ =>
      raise IndexError "only integers, slices (`:`), ellipsis (`...`), numpy.newaxis (`None`) and integer or boolean arrays are valid indices"
  end.

(** [out.values[indices]] *)
Definition values_getitem (v : Np.ndarray T) (indices : list selector)
  : result (Np.ndarray T) :=
  rbind (comprehension as_slice indices) (Np.getitem_slices v).

(** The loop [for ix in range(len(out.coords))] that re-slices the
    coordinate vectors in place. *)
Fixpoint slice_coords (indices : list selector) (ixs : list nat)
    (coords : list (list T)) : result (list (list T)) :=
  match ixs with
  | [] => Ok coords
  | ix :: ixs' =>
      rbind (getitem coords ix) (fun c =>
      rbind (getitem indices ix) (fun sl =>
      rbind (as_slice sl) (fun s =>
      rbind (getslice c s) (fun c' =>
      rbind (setitem coords ix c') (fun coords' =>
      slice_coords indices ixs' coords')))))
  end.

Definition __getitem__ (self : loc) (index : list token)
  : M world (option t) :=
  if length index mod 2 =? 1 then
    print "invalid indexing";;
    ret None
  else
    let indexing_labels := evens index in
    let indexing_list := odds index in
    let* self_dims := get self dims in
    let* self_coords := get self coords in
    let* indices := lift (build_indices indexing_labels indexing_list
                                        self_coords 0 self_dims) in
    let* out := deepcopy self in
    let* v := lift (values_getitem (values out) indices) in
    let out := with_values v out in
    let* c := lift (slice_coords indices (seq 0 (length (coords out)))
                                 (coords out)) in
    ret (Some (with_coords c out)).

(** ** Axis queries *)

Definition copy (self : loc) : M world t := deepcopy self.

Definition getAxes (self : loc) (axesLabel : string) : M world (list T) :=
  let* self_dims := get self dims in
  let* index := lift (Py.index self_dims axesLabel) in
  let* self_coords := get self coords in
  lift (getitem self_coords index).

Definition index (self : loc) (axesLabel : string) : M world nat :=
  let* self_dims := get self dims in
  lift (Py.index self_dims axesLabel).

Definition len (self : loc) (axesLabel : string) : M world nat :=
  let* self_dims := get self dims in
  let* index := lift (Py.index self_dims axesLabel) in
  let* self_values := get self values in
  lift (getitem (Np.shape self_values) index).

(** ** Reordering *)

(** [sort]: axes in the order of their sorted labels. *)
Definition sort (self : loc) : M world unit :=
  let* self_dims := get self dims in
  let ix_sort := argsort self_dims in
  let* self_coords := get self coords in
  let* c := lift (comprehension (getitem self_coords) ix_sort) in
  set_coords self c;;
  let* self_dims := get self dims in
  let* d := lift (comprehension (getitem self_dims) ix_sort) in
  set_dims self d;;
  let* self_values := get self values in
  let* v := lift (Np.transpose self_values ix_sort) in
  set_values self v.

(** The argument of [reorder]. *)
Inductive labels_arg :=
| LStr (s : string)
| LTuple (l : list string)
| LList (l : list string)
| LOther.

(** [for label in dims: if label not in self.dims: ...]: the first label
    that is not an axis. *)
Definition first_missing (dims self_dims : list string) : option string :=
  List.find (fun label => negb (contains label self_dims)) dims.

(** [for label in self.dims: if label not in dims: dims.append(label)] *)
Definition append_missing (dims self_dims : list string) : list string :=
  foldl (fun dims label => if contains label dims then dims
                           else dims ++ [label]) dims self_dims.

Definition reorder_list (self : loc) (labels : list string)
  : M world unit :=
  let* self_dims := get self dims in
  let* checked :=
    (if bool_decide (sorted labels <> sorted self_dims) then
       match first_missing labels self_dims with
       | Some label =>
           print ("'" ++ label ++ "' not in axes labels");;
           ret None
       | None => ret (Some (append_missing labels self_dims))
       end
     else ret (Some labels)) in
  match checked with
  | None => ret tt
  | Some labels =>
      let* self_dims := get self dims in
      let* ix_reorder := lift (comprehension (Py.index self_dims) labels) in
      let* self_coords := get self coords in
      let* c := lift (comprehension (getitem self_coords) ix_reorder) in
      set_coords self c;;
      let* self_dims := get self dims in
      let* d := lift (comprehension (getitem self_dims) ix_reorder) in
      set_dims self d;;
      let* self_values := get self values in
      let* v := lift (Np.transpose self_values ix_reorder) in
      set_values self v
  end.

Definition reorder (self : loc) (arg : labels_arg) : M world unit :=
  match arg with
  | LStr s => reorder_list self [s]
  | LTuple l => reorder_list self l
  | LList l => reorder_list self l
  | LOther => print "dims must be a list"
  end.

(** ** Reductions *)

(** [sum]: in place. *)
Definition sum (self : loc) (axesLabel : string) : M world unit :=
  let* self_dims := get self dims in
  let* index := lift (Py.index self_dims axesLabel) in
  let* self_values := get self values in
  let* v := lift (Np.sum self_values index) in
  set_values self v;;
  let* self_dims := get self dims in
  let* (removedAxesLabel, dims') := lift (pop self_dims index) in
  set_dims self dims';;
  let* self_coords := get self coords in
  let* (removedAxes, coords') := lift (pop self_coords index) in
  set_coords self coords'.

(** [amax]: on a copy, which is returned. *)
Definition amax (self : loc) (dim : string) : M world t :=
  let* a := copy self in
  let* index := lift (Py.index (dims a) dim) in
  let* (_, dims') := lift (pop (dims a) index) in
  let a := with_dims dims' a in
  let* (_, coords') := lift (pop (coords a) index) in
  let a := with_coords coords' a in
  let* v := lift (Np.amax (values a) index) in
  ret (with_values v a).

(** ** Concatenation *)

Definition concatenateAlong (self newData : loc) (axesLabel : string)
  : M world unit :=
  let* reorderLabels := get self dims in
  sort self;;
  sort newData;;
  let* self_dims := get self dims in
  let* new_dims := get newData dims in
  if bool_decide (self_dims <> new_dims) then
    lift (raise ValueError "dims do not match")
  else
    let* self_dims := get self dims in
    let* index := lift (Py.index self_dims axesLabel) in
    let* self_values := get self values in
    let* new_values := get newData values in
    let* v := lift (Np.concatenate self_values new_values index) in
    set_values self v;;
    let* self_coords := get self coords in
    let* c1 := lift (getitem self_coords index) in
    let* new_coords := get newData coords in
    let* c2 := lift (getitem new_coords index) in
    let* self_coords := get self coords in
    let* c := lift (setitem self_coords index (c1 ++ c2)) in
    set_coords self c;;
    reorder self (LList reorderLabels).

(** ** Renaming, adding and dropping axes *)

(** [rename]: the name at the position of [oldLabel] is overwritten. *)
Definition rename (self : loc) (oldLabel newLabel : string) : M world unit :=
  let* self_dims := get self dims in
  let* index := lift (Py.index self_dims oldLabel) in
  let* self_dims := get self dims in
  let* d := lift (setitem self_dims index newLabel) in
  set_dims self d.

(** The first argument of [addAxes]: a string, or an object of another
    type. *)
Inductive label_arg :=
| LabelStr (s : string)
| LabelOther.

(** The second argument of [addAxes] as [np.r_] reads it: one number, or
    a sequence of numbers. *)
Inductive axes_value :=
| Single (x : T)
| Several (l : list T).

Definition r_ (axesValue : axes_value) : list T :=
  match axesValue with
  | Single x => [x]
  | Several l => l
  end.

Definition addAxes (self : loc) (axesLabel : label_arg)
    (axesValue : axes_value) : M world unit :=
  let* self_dims := get self dims in
  match axesLabel with
  | LabelStr s =>
      if contains s self_dims then
        let* index := lift (Py.index self_dims s) in
        print ("Axes " ++ s ++ " already exists")
      else
        let* self_dims := get self dims in
        set_dims self (self_dims ++ [s]);;
        let* self_coords := get self coords in
        set_coords self (self_coords ++ [r_ axesValue]);;
        let* self_values := get self values in
        set_values self (Np.expand_dims_last self_values)
  | LabelOther => print "Axes label must be a string"
  end.

(** [squeeze]: the positions of the coordinate vectors of length 1, and
    the loop that pops them from the last one down. *)
Fixpoint remove_axes_from (axes_ix : nat) (coords : list (list T))
  : list nat :=
  match coords with
  | [] => []
  | axes_value :: rest =>
      if length axes_value =? 1 then
        axes_ix :: remove_axes_from (S axes_ix) rest
      else remove_axes_from (S axes_ix) rest
  end.

Fixpoint squeeze_loop (self : loc) (reverse_remove_axes : list nat)
  : M world unit :=
  match reverse_remove_axes with
  | [] => ret tt
  | index_value :: rest =>
      let* self_coords := get self coords in
      let* (_, coords') := lift (pop self_coords index_value) in
      set_coords self coords';;
      let* self_dims := get self dims in
      let* (_, dims') := lift (pop self_dims index_value) in
      set_dims self dims';;
      let* self_values := get self values in
      set_values self (Np.squeeze self_values);;
      squeeze_loop self rest
  end.

Definition squeeze (self : loc) : M world unit :=
  let* self_coords := get self coords in
  let remove_axes := remove_axes_from 0 self_coords in
  let reverse_remove_axes := rev remove_axes in
  squeeze_loop self reverse_remove_axes.

End methods.
Arguments t T : clear implicits.
Arguments world T : clear implicits.
Arguments operand T : clear implicits.
Arguments member T : clear implicits.
Arguments axes_value T : clear implicits.
End dnpData.

(* ===================================================================== *)
(** * class dnpdata_collection                                            *)
(* ===================================================================== *)

Module dnpdata_collection.
Import Py.

(** Dictionary keys and the objects a caller may hand to the constructor. *)
Inductive key :=
| KStr (s : string)
| KNum (z : Z).

#[local] Set Warnings "-register-all".
Inductive object :=
| DnpData (d : dnpData.loc)
| Dict (items : list (key * object))
| Str (s : string)
| Num (z : Z)
| NoneObject.

#[global] Instance key_eq_dec : EqDecision key.
Proof. solve_decision. Defined.

Definition key_eqb (a b : key) : bool :=
  match a, b with
  | KStr s1, KStr s2 => String.eqb s1 s2
  | KNum z1, KNum z2 => (z1 =? z2)%Z
  | _, _ => false
  end.

(** A [dict] in insertion order. *)
Definition dict := list (key * object).

Definition key_repr (k : key) : string :=
  match k with
  | KStr s => "'" ++ s ++ "'"
  | KNum _ => "<int>"
  end.

(** [d[k]] *)
Fixpoint dict_getitem (d : dict) (k : key) : result object :=
  match d with
  | [] => raise KeyError (key_repr k)
  | (k', v) :: d' => if key_eqb k' k then Ok v else dict_getitem d' k
  end.

(** [d[k] = v] *)
Fixpoint dict_setitem (d : dict) (k : key) (v : object) : dict :=
  match d with
  | [] => [(k, v)]
  | (k', v') :: d' => if key_eqb k' k then (k', v) :: d'
                      else (k', v') :: dict_setitem d' k v
  end.

Record t := Collection {
  _processing_buffer : string;
  __data_dict : dict
}.

(** [isinstance(x, (dnpData, dict))] *)
Definition is_dnpData_or_dict (x : object) : bool :=
  match x with
  | DnpData _ | Dict _ => true
  | _ => false
  end.

(** The loop [for key in data_dict] of the one-argument dictionary form. *)
Fixpoint copy_items (data_dict : dict) (keys : list key) (own : dict)
  : result dict :=
  match keys with
  | [] => Ok own
  | k :: keys' =>
      rbind (dict_getitem data_dict k) (fun v =>
      if is_dnpData_or_dict v then
        copy_items data_dict keys' (dict_setitem own k v)
      else raise TypeError "Each type in dict must be dnpData or dict")
  end.

(** [__init__(self, *args, **kwargs)] *)
Definition __init__ (args : list object) : result t :=
  let _processing_buffer := "proc" in
  let data_dict : dict := [] in
  match args with
  | [] => Ok (Collection _processing_buffer data_dict)
  | [arg] =>
      match arg with
      | DnpData _ =>
          (* self.__data_dict['raw'] == dnpData *)
          rbind (dict_getitem data_dict (KStr "raw")) (fun _ =>
          Ok (Collection _processing_buffer data_dict))
      | Dict items =>
          rbind (copy_items items (map fst items) data_dict) (fun own =>
          Ok (Collection _processing_buffer own))
      | _ => raise TypeError "Argument must be type dnpData"
      end
  | [arg0; arg1] =>
      match arg0 with
      | Str name =>
          if is_dnpData_or_dict arg1 then
            Ok (Collection _processing_buffer
                           (dict_setitem data_dict (KStr name) arg1))
          else raise TypeError "If two arguments, first argument must be str and 2nd argument must be dnpData or dict"
      | _ => raise TypeError "If two arguments, first argument must be str and 2nd argument must be dnpData or dict"
      end
  | _ => raise TypeError "Arguments not understood"
  end.

Definition __getitem__ (self : t) (k : key) : result object :=
  dict_getitem (__data_dict self) k.

Definition __len__ (self : t) : nat := length (__data_dict self).

(** [create_workspace]: the arguments are handed on as they are. *)
Definition create_workspace (args : list object) : result t := __init__ args.

(** ** Updates of a workspace *)

Local Open Scope py_scope.

(** [d.pop(k)]: the value and the dictionary left. *)
Fixpoint dict_pop (d : dict) (k : key) : result (object * dict) :=
  match d with
  | [] => raise KeyError (key_repr k)
  | (k', v) :: d' =>
      if key_eqb k' k then Ok (v, d')
      else rbind (dict_pop d' k) (fun r => Ok (fst r, (k', v) :: snd r))
  end.

Definition get_data_dict : M t dict :=
  fun self => (Ok (__data_dict self), self).

Definition set_data_dict (d : dict) : M t unit :=
  fun self => (Ok tt, Collection (_processing_buffer self) d).

(** [isinstance(x, str)], with the string. *)
Definition as_str (x : object) : option string :=
  match x with
  | Str s => Some s
  | _ => None
  end.

Definition __setitem__ (key value : object) : M t unit :=
  match as_str key with
  | Some name =>
      if negb (is_dnpData_or_dict value) then
        lift (raise TypeError
                "Key must be string and value must be dnpdata or dict")
      else
        let* d := get_data_dict in
        set_data_dict (dict_setitem d (KStr name) value)
  | None =>
      lift (raise TypeError
              "Key must be string and value must be dnpdata or dict")
  end.

Definition __delitem__ (k : key) : M t unit :=
  let* d := get_data_dict in
  let* r := lift (dict_pop d k) in
  set_data_dict (snd r).

Definition pop (b : key) : M t object :=
  let* d := get_data_dict in
  let* r := lift (dict_pop d b) in
  set_data_dict (snd r);;
  ret (fst r).

(** [move]: the right-hand side [self.pop(a)] runs before the store. *)
Definition move (a : key) (b : object) : M t unit :=
  let* v := pop a in
  __setitem__ b v.

(** [get = __getitem__] *)
Definition get (self : t) (k : key) : result object := __getitem__ self k.

Definition clear : M t unit := set_data_dict [].

Definition keys (self : t) : list key := map fst (__data_dict self).

Definition add (name data : object) : M t unit :=
  match as_str name with
  | Some s =>
      if negb (is_dnpData_or_dict data) then
        lift (raise TypeError
                "add takes two arguments, a string and dnpLab.odnpData type")
      else
        let* d := get_data_dict in
        set_data_dict (dict_setitem d (KStr s) data)
  | None =>
      lift (raise TypeError
              "add takes two arguments, a string and dnpLab.odnpData type")
  end.

Definition processing_buffer (self : t) : string := _processing_buffer self.

(** [str(type(x))] *)
Definition type_repr (x : object) : string :=
  match x with
  | DnpData _ => "<class 'dnpLab.dnpData.dnpData'>"
  | Dict _ => "<class 'dict'>"
  | Str _ => "<class 'str'>"
  | Num _ => "<class 'int'>"
  | NoneObject => "<class 'NoneType'>"
  end.

Definition set_processing_buffer (new_processing_buffer : object)
  : M t unit :=
  match as_str new_processing_buffer with
  | Some s => fun self => (Ok tt, Collection s (__data_dict self))
  | None =>
      lift (raise TypeError
              ("Processing buffer must be type str, not "
               ++ type_repr new_processing_buffer))
  end.

End dnpdata_collection.

(* ===================================================================== *)
(** * class nddata_axis                                                   *)
(* ===================================================================== *)

Module nddata_axis.
Import Py.

Inductive dtype := int64 | float64.

(** The values an axis handles.  Numbers are exact rationals: a Python
    [int], a Python [float], a NumPy scalar with its dtype, and a
    one-dimensional [numpy.ndarray] with its dtype.  The arithmetic of the
    model is exact; it is the arithmetic of Python and NumPy on whole
    numbers of moderate size, where 64-bit floats do not round and 64-bit
    integers do not wrap.  Rounding and wrap-around are not modelled, and
    the statements about computed samples are about such numbers. *)
Inductive value :=
| VNone
| VInt (z : Z)
| VFloat (q : Q)
| VNp (dt : dtype) (q : Q)
| VArray (dt : dtype) (elems : list Q)
| VSlice (start stop step : value)
| VStr (s : string)
| VOther.

(** The instance dictionary: attribute name to value.  A name with two
    leading underscores is stored with the class prefix. *)
Abbreviation t := (gmap string value).

Definition hasattr (self : t) (name : string) : bool :=
  bool_decide (is_Some (self !! name)).

Definition getattr (name : string) : M t value :=
  fun self => match self !! name with
              | Some v => (Ok v, self)
              | None => (raise AttributeError
                           ("'nddata_axis' object has no attribute '" ++ name ++ "'"),
                         self)
              end.

Definition setattr (name : string) (v : value) : M t unit :=
  fun self => (Ok tt, <[name := v]> self).

Definition delattr (name : string) : M t unit :=
  fun self => match self !! name with
              | Some _ => (Ok tt, delete name self)
              | None => (raise AttributeError name, self)
              end.

(** [isinstance(b, (int, float))]: [numpy.float64] is a subclass of
    [float], [numpy.int64] is not a subclass of [int]. *)
Definition is_int_or_float (b : value) : bool :=
  match b with
  | VInt _ | VFloat _ | VNp float64 _ => true
  | _ => false
  end.

(** ** Properties *)

Definition get_dim : M t value := getattr "_nddata_axis__dim".

Definition set_dim (dim : value) : M t unit :=
  match dim with
  | VStr _ => setattr "_nddata_axis__dim" dim
  | _ => lift (raise TypeError "dim must be type str")
  end.

Definition get_start : M t value := getattr "_nddata_axis__start".
Definition get_stop : M t value := getattr "_nddata_axis__stop".
Definition get_step : M t value := getattr "_nddata_axis__step".

Definition set_start (b : value) : M t unit :=
  if is_int_or_float b then setattr "_nddata_axis__start" b else ret tt.
Definition set_stop (b : value) : M t unit :=
  if is_int_or_float b then setattr "_nddata_axis__stop" b else ret tt.
Definition set_step (b : value) : M t unit :=
  if is_int_or_float b then setattr "_nddata_axis__step" b else ret tt.

(** ** The NumPy calls *)

(** A number with its kind: (is a float, is a NumPy scalar, value). *)
Definition as_number (v : value) : option (bool * bool * Q) :=
  match v with
  | VInt z => Some (false, false, inject_Z z)
  | VFloat q => Some (true, false, q)
  | VNp int64 q => Some (false, true, q)
  | VNp float64 q => Some (true, true, q)
  | _ => None
  end.

(** The arithmetic progression [start + i * step], [i < n]. *)
Definition progression (start step : Q) (n : nat) : list Q :=
  map (fun i => (start + inject_Z (Z.of_nat i) * step)%Q) (seq 0 n).

(** [np.r_[slice(start, stop, step)]]: a missing start is 0 and a missing
    step is 1; then [np.arange(start, stop, step)], which reads a missing
    stop as [arange(start)]; the length is
    [ceil((stop - start) / step)], computed exactly here.  A zero step
    divides by zero: Python numbers raise, NumPy scalars give an infinite
    or undefined length. *)
Definition r_slice (start stop step : value) : result value :=
  let start := match start with VNone => VInt 0 | _ => start end in
  let step := match step with VNone => VInt 1 | _ => step end in
  let '(start, stop) := match stop with
                        | VNone => (VInt 0, start)
                        | _ => (start, stop)
                        end in
  match as_number start, as_number stop, as_number step with
  | Some (f1, n1, a), Some (f2, n2, b), Some (f3, n3, c) =>
      if Qeq_bool c 0 then
        if negb (n1 || n2 || n3) then
          raise ZeroDivisionError "division by zero"
        else if Qeq_bool (b - a) 0 then
          raise ValueError "arange: cannot compute length"
        else raise OverflowError "arange: overflow while computing length"
      else
        Ok (VArray (if f1 || f2 || f3 then float64 else int64)
                   (progression a c (Z.to_nat (Qceiling ((b - a) / c)))))
  | _, _, _ => raise TypeError "unsupported operand type(s)"
  end.

(** [np.isclose(a, b)] with the default tolerances:
    [|a - b| <= atol + rtol * |b|]. *)
Definition rtol : Q := 1 # 100000.
Definition atol : Q := 1 # 100000000.

Definition isclose (a b : Q) : bool :=
  Qle_bool (Qabs (a - b)) (atol + rtol * Qabs b).

Fixpoint all_close (a b : list Q) : bool :=
  match a, b with
  | x :: a', y :: b' => isclose x y && all_close a' b'
  | _, _ => true
  end.

(** [np.allclose(a, b)] on one-dimensional arrays: the shapes must be equal
    or one of them of length 1. *)
Definition allclose (a b : list Q) : result bool :=
  if length a =? length b then Ok (all_close a b)
  else match a, b with
       | _, [y] => Ok (forallb (fun x => isclose x y) a)
       | [x], _ => Ok (forallb (fun y => isclose x y) b)
       | _, _ => raise ValueError "operands could not be broadcast together"
       end.

(** [a[i]] for an integer [i], negative from the end. *)
Definition array_item (dt : dtype) (elems : list Q) (i : Z) : result value :=
  let n := Z.of_nat (length elems) in
  let j := if (i <? 0)%Z then (i + n)%Z else i in
  if (j <? 0)%Z || (n <=? j)%Z then
    raise IndexError "index is out of bounds for axis 0"
  else match elems !! Z.to_nat j with
       | Some q => Ok (VNp dt q)
       | None => raise IndexError "index is out of bounds for axis 0"
       end.

(** Subtraction and addition of two NumPy scalars, exact. *)
Definition np_sub (a b : value) : result value :=
  match a, b with
  | VNp d1 x, VNp d2 y =>
      Ok (VNp (match d1, d2 with int64, int64 => int64 | _, _ => float64 end)
              (x - y)%Q)
  | _, _ => raise TypeError "unsupported operand type(s) for -"
  end.

Definition np_add (a b : value) : result value :=
  match a, b with
  | VNp d1 x, VNp d2 y =>
      Ok (VNp (match d1, d2 with int64, int64 => int64 | _, _ => float64 end)
              (x + y)%Q)
  | _, _ => raise TypeError "unsupported operand type(s) for +"
  end.

(** ** Methods *)

Local Open Scope py_scope.

Definition reduce : M t unit :=
  fun self =>
  (if hasattr self "_array" then
     let* arr := getattr "_array" in
     match arr with
     | VArray dt elems =>
         let* start := lift (array_item dt elems 0) in
         let* a1 := lift (array_item dt elems 1) in
         let* a0 := lift (array_item dt elems 0) in
         let* step := lift (np_sub a1 a0) in
         let* last := lift (array_item dt elems (-1)) in
         let* stop := lift (np_add last step) in
         let* rebuilt := lift (r_slice start stop step) in
         match rebuilt with
         | VArray _ relems =>
             let* close := lift (allclose elems relems) in
             if close then
               set_start start;;
               set_stop stop;;
               set_step step
             else
               lift (raise ValueError
                       "Array must have evenly spaced values to be reduced")
         | _ => lift (raise TypeError "not an array")
         end
     | _ => lift (raise TypeError "object is not subscriptable")
     end
   else lift (raise ValueError "No array to reduce")) self.

(** [try: m except: handler]: the handler runs in the state the failed
    body left. *)
Definition try_except (m handler : M t unit) : M t unit :=
  fun self => match m self with
              | (Ok tt, self') => (Ok tt, self')
              | (Raise _, self') => handler self'
              end.

(** [__init__(self, dim, *args)], from the empty instance. *)
Definition init_body (dim : value) (args : list value) : M t unit :=
  set_dim dim;;
  (if length args =? 0 then
     setattr "_nddata_axis__start" VNone;;
     setattr "_nddata_axis__stop" VNone;;
     setattr "_nddata_axis__step" VNone
   else ret tt);;
  (match args with
   | [coord] =>
       match coord with
       | VArray _ _ =>
           setattr "_axis" coord;;
           try_except reduce (setattr "_type" (VStr "ndarray"))
       | VSlice start stop step =>
           setattr "_nddata_axis__start" start;;
           setattr "_nddata_axis__stop" stop;;
           setattr "_nddata_axis__step" step
       | _ =>
           if is_int_or_float coord then
             setattr "_nddata_axis__start" VNone;;
             setattr "_nddata_axis__stop" coord;;
             setattr "_nddata_axis__step" VNone
           else lift (raise ValueError "coord not understood")
       end
   | _ => ret tt
   end);;
  (match args with
   | [start; stop] =>
       if is_int_or_float start && is_int_or_float stop then
         setattr "_nddata_axis__start" start;;
         setattr "_nddata_axis__stop" stop;;
         setattr "_nddata_axis__step" VNone
       else lift (raise TypeError "coord not understood")
   | _ => ret tt
   end);;
  (match args with
   | [start; stop; step] =>
       if is_int_or_float start && is_int_or_float stop
          && is_int_or_float step then
         setattr "_nddata_axis__start" start;;
         setattr "_nddata_axis__stop" stop;;
         setattr "_nddata_axis__step" step
       else lift (raise TypeError "coord not understood")
   | _ => ret tt
   end).

(** The constructor call [nddata_axis(dim, *args)]: the new instance, or
    the exception [__init__] raised. *)
Definition __init__ (dim : value) (args : list value) : result t :=
  match init_body dim args ∅ with
  | (Ok tt, self) => Ok self
  | (Raise e, _) => Raise e
  end.

(** The property [array]: the materialized samples, cached in [_array]. *)
Definition array : M t value :=
  fun self =>
  (if hasattr self "_array" then getattr "_array"
   else
     let* start := get_start in
     let* stop := get_stop in
     let* step := get_step in
     let* a := lift (r_slice start stop step) in
     setattr "_array" a;;
     getattr "_array") self.

(** [array.setter] *)
Definition set_array (b : value) : M t unit :=
  match b with
  | VArray _ _ => setattr "_array" b
  | _ => lift (raise TypeError "array type must be numpy.ndarray")
  end.

(** An index: an integer or a slice. *)
Inductive subscript :=
| At (i : Z)
| Span (s : slice).

Definition __getitem__ (x : subscript) : M t value :=
  let* a := array in
  match a with
  | VArray dt elems =>
      match x with
      | At i => lift (array_item dt elems i)
      | Span s => let* l := lift (getslice elems s) in ret (VArray dt l)
      end
  | _ => lift (raise TypeError "object is not subscriptable")
  end.

Definition __len__ : M t nat :=
  let* a := array in
  match a with
  | VArray _ elems => ret (length elems)
  | _ => lift (raise TypeError "object has no len()")
  end.

(** ** Arithmetic *)

Inductive operator := Add | Sub | Mul | TrueDiv.

Section arithmetic.

(** Python's binary operators on the values of the attributes:
    [binary op a b] is [a op b]. *)
Variable binary : operator -> value -> value -> result value.

(** [if hasattr(self, '_array'): del self.array] *)
Definition drop_array : M t unit :=
  fun self =>
  (if hasattr self "_array" then delattr "_array" else ret tt) self.

Definition __add__ (b : value) : M t t :=
  let* self_start := get_start in
  let* start := lift (binary Add self_start b) in
  let* self_stop := get_stop in
  let* stop := lift (binary Add self_stop b) in
  let* step := get_step in
  drop_array;;
  let* dim := get_dim in
  lift (__init__ dim [VSlice start stop step]).

Definition __radd__ (b : value) : M t t := __add__ b.

Definition __sub__ (b : value) : M t t :=
  let* self_start := get_start in
  let* start := lift (binary Sub self_start b) in
  let* self_stop := get_stop in
  let* stop := lift (binary Sub self_stop b) in
  let* step := get_step in
  drop_array;;
  let* dim := get_dim in
  lift (__init__ dim [VSlice start stop step]).

(** [__rsub__]: start and stop change places. *)
Definition __rsub__ (b : value) : M t t :=
  let* self_stop := get_stop in
  let* start := lift (binary Sub b self_stop) in
  let* self_start := get_start in
  let* stop := lift (binary Sub b self_start) in
  let* step := get_step in
  drop_array;;
  let* dim := get_dim in
  lift (__init__ dim [VSlice start stop step]).

Definition __mul__ (b : value) : M t t :=
  let* self_start := get_start in
  let* start := lift (binary Mul b self_start) in
  let* self_stop := get_stop in
  let* stop := lift (binary Mul b self_stop) in
  let* self_step := get_step in
  let* step := lift (binary Mul b self_step) in
  drop_array;;
  let* dim := get_dim in
  lift (__init__ dim [VSlice start stop step]).

Definition __rmul__ (b : value) : M t t := __mul__ b.

Definition __truediv__ (b : value) : M t t :=
  let* self_start := get_start in
  let* start := lift (binary TrueDiv self_start b) in
  let* self_stop := get_stop in
  let* stop := lift (binary TrueDiv self_stop b) in
  let* self_step := get_step in
  let* step := lift (binary TrueDiv self_step b) in
  drop_array;;
  let* dim := get_dim in
  lift (__init__ dim [VSlice start stop step]).

Definition __rtruediv__ (b : value) : M t t :=
  let* self_start := get_start in
  let* start := lift (binary TrueDiv b self_start) in
  let* self_stop := get_stop in
  let* stop := lift (binary TrueDiv b self_stop) in
  let* self_step := get_step in
  let* step := lift (binary TrueDiv b self_step) in
  drop_array;;
  let* dim := get_dim in
  lift (__init__ dim [VSlice start stop step]).

End arithmetic.

End nddata_axis.

(* ===================================================================== *)
(** * Vocabulary of the statements                                        *)
(* ===================================================================== *)

Module Spec.
Import Py.

(** The order of dimension names: [a] is not after [b]. *)
Definition label_le (a b : string) : Prop := String.leb a b = true.

Section operands.
Context {T : Type} `{Numeric T}.

(** An operand that is neither a scalar, nor a raw buffer, nor a labelled
    array; [bool] is excluded from the scalars by the code. *)
Definition unsupported (data : dnpData.operand T) : Prop :=
  match data with
  | dnpData.Boolean _ | dnpData.Other _ => True
  | _ => False
  end.

(** What the world looks like after the two diagnostic lines. *)
Definition diagnosed (data : dnpData.operand T) (w : dnpData.world T)
  : dnpData.world T :=
  dnpData.World (dnpData.heap w)
    (dnpData.stdout w
     ++ ["Cannot add, type not supported:"; dnpData.type_repr data]).

(** The world after the object at [l] has been replaced by [o]. *)
Definition upd (l : dnpData.loc) (o : dnpData.t T) (w : dnpData.world T)
  : dnpData.world T :=
  dnpData.World (<[l := o]> (dnpData.heap w)) (dnpData.stdout w).

(** The object [o] with the axis at position [i] removed and [v] as its
    buffer. *)
Definition without_axis (i : nat) (v : Np.ndarray T) (o : dnpData.t T)
  : dnpData.t T :=
  dnpData.Obj (dnpData.version o) v (delete i (dnpData.coords o))
              (delete i (dnpData.dims o)) (dnpData.attrs o)
              (dnpData.proc_attrs o).

(** The selector written next to a dimension name in an index tuple of
    (name, selector) pairs; the first pair with that name counts. *)
Fixpoint paired_selector (label : string) (index : list dnpData.token)
  : option dnpData.token :=
  match index with
  | name :: sel :: rest =>
      if dnpData.token_is label name then Some sel
      else paired_selector label rest
  | _ => None
  end.

(** The slice a dimension of length [n] is cut with: an integer [k] stands
    for [[k, k+1)], [-1] for "from the last entry to the end", a slice
    object for itself, and a dimension that is not named keeps its full
    range. *)
Definition axis_slice (index : list dnpData.token) (label : string) (n : nat)
  : slice :=
  match paired_selector label index with
  | Some (dnpData.Int k) =>
      if (k =? -1)%Z then Slice (Some (-1)%Z) None None
      else Slice (Some k) (Some (k + 1)%Z) None
  | Some (dnpData.Range s) => s
  | Some (dnpData.Label _) | None =>
      Slice (Some 0%Z) (Some (Z.of_nat n)) None
  end.

(** Selectors are integers, or slice objects with a step other than 0. *)
Definition valid_selector (tk : dnpData.token) : Prop :=
  match tk with
  | dnpData.Int _ => True
  | dnpData.Range s => slice_step s <> Some 0%Z
  | dnpData.Label _ => False
  end.

(** [o'] is [o] with its axes taken in the order [p]: names, coordinate
    vectors and buffer axes alike. *)
Definition permuted (p : list nat) (o o' : dnpData.t T) : Prop :=
  comprehension (getitem (dnpData.dims o)) p = Ok (dnpData.dims o')
  /\ comprehension (getitem (dnpData.coords o)) p = Ok (dnpData.coords o')
  /\ Np.transpose (dnpData.values o) p = Ok (dnpData.values o')
  /\ dnpData.version o' = dnpData.version o
  /\ dnpData.attrs o' = dnpData.attrs o
  /\ dnpData.proc_attrs o' = dnpData.proc_attrs o.

(** The length and the coordinate vector of the dimension called [k]. *)
Definition axis_len (o : dnpData.t T) (k : string) : option nat :=
  match find_index k (dnpData.dims o) with
  | Some i => Np.shape (dnpData.values o) !! i
  | None => None
  end.

Definition axis_coords (o : dnpData.t T) (k : string) : option (list T) :=
  match find_index k (dnpData.dims o) with
  | Some i => dnpData.coords o !! i
  | None => None
  end.

(** [o'] has the dimensions of [o], each with the length and the
    coordinate vector it has in [o] (the names being distinct). *)
Definition same_axes (o o' : dnpData.t T) : Prop :=
  dnpData.dims o' ≡ₚ dnpData.dims o
  /\ (NoDup (dnpData.dims o) ->
      forall k, axis_len o' k = axis_len o k
                /\ axis_coords o' k = axis_coords o k).

(** The entries of [c] at the positions [ixs]. *)
Definition at_positions {A} (c : list A) (ixs : list nat) : list A :=
  omap (fun i => c !! i) ixs.

(** A buffer that holds one entry per position of its shape. *)
Definition whole (a : Np.ndarray T) : Prop :=
  length (Np.data a) = Np.size_of (Np.shape a).

(** The coordinate vectors of a length other than 1, and the names that go
    with them. *)
Definition kept_coords (cs : list (list T)) : list (list T) :=
  List.filter (fun c => negb (length c =? 1)) cs.

Definition kept_names (ds : list string) (cs : list (list T)) : list string :=
  map fst (List.filter (fun dc => negb (length (snd dc) =? 1)) (zip ds cs)).

(** The array [o] with one more dimension [s], of the coordinates [c], put
    last. *)
Definition with_axis (s : string) (c : list T) (o : dnpData.t T)
  : dnpData.t T :=
  dnpData.Obj (dnpData.version o) (Np.expand_dims_last (dnpData.values o))
              (dnpData.coords o ++ [c]) (dnpData.dims o ++ [s])
              (dnpData.attrs o) (dnpData.proc_attrs o).

(** The array [o] without its dimensions of length 1. *)
Definition squeezed (o : dnpData.t T) : dnpData.t T :=
  dnpData.Obj (dnpData.version o) (Np.squeeze (dnpData.values o))
              (kept_coords (dnpData.coords o))
              (kept_names (dnpData.dims o) (dnpData.coords o))
              (dnpData.attrs o) (dnpData.proc_attrs o).

End operands.

(** The list of names an argument of [reorder] stands for. *)
Definition labels_of (arg : dnpData.labels_arg) : option (list string) :=
  match arg with
  | dnpData.LStr s => Some [s]
  | dnpData.LTuple l | dnpData.LList l => Some l
  | dnpData.LOther => None
  end.


(** A one-dimensional array [x = 0..3] with values 10, 20, 30, 40, alone on
    the heap. *)
Definition sample_1d : dnpData.t Z :=
  dnpData.Obj "1.0" (Np.Array [4] [10; 20; 30; 40]%Z) [[0; 1; 2; 3]%Z] ["x"]
              ∅ [].

Definition sample_world : dnpData.world Z :=
  dnpData.World {[ 0 := sample_1d ]} [].

(** A 3 by 2 array over [x = 0, 1, 2] and [y = 10, 20]. *)
Definition sample_2d : dnpData.t Z :=
  dnpData.Obj "1.0" (Np.Array [3; 2] [1; 2; 3; 4; 5; 6]%Z)
              [[0; 1; 2]%Z; [10; 20]%Z] ["x"; "y"] ∅ [].

Definition sample_world_2d : dnpData.world Z :=
  dnpData.World {[ 0 := sample_2d ]} [].

(** A 1 by 3 array over [y = 5] and [x = 0, 1, 2], with [y] first, and the
    heap holding the 3 by 2 array at 0 and this one at 1. *)
Definition sample_other : dnpData.t Z :=
  dnpData.Obj "1.0" (Np.Array [1; 3] [7; 8; 9]%Z)
              [[5]%Z; [0; 1; 2]%Z] ["y"; "x"] ∅ [].

Definition sample_pair : dnpData.world Z :=
  dnpData.World {[ 0 := sample_2d; 1 := sample_other ]} [].

(** An array over [x] and [z], which does not fit the 3 by 2 array. *)
Definition sample_misfit : dnpData.t Z :=
  dnpData.Obj "1.0" (Np.Array [3; 1] [7; 8; 9]%Z)
              [[0; 1; 2]%Z; [5]%Z] ["x"; "z"] ∅ [].

(** The number of samples from [start] up to [stop] by [step]. *)
Definition sample_count (start stop step : Q) : nat :=
  Z.to_nat (Qceiling ((stop - start) / step)).

(** The instance after [reduce] has stored a new triple: the setters take
    a [numpy.float64] and ignore a [numpy.int64]. *)
Definition with_triple (dt : nddata_axis.dtype) (start stop step : Q)
    (ax : nddata_axis.t) : nddata_axis.t :=
  match dt with
  | nddata_axis.float64 =>
      <["_nddata_axis__step" := nddata_axis.VNp dt step]>
        (<["_nddata_axis__stop" := nddata_axis.VNp dt stop]>
           (<["_nddata_axis__start" := nddata_axis.VNp dt start]> ax))
  | nddata_axis.int64 => ax
  end.

(** The argument lists on which the constructor returns a workspace. *)
Definition accepted_arguments (args : list dnpdata_collection.object) : Prop :=
  args = []
  \/ (exists items, args = [dnpdata_collection.Dict items]
        /\ exists own, dnpdata_collection.copy_items items (map fst items) [] = Ok own)
  \/ (exists name v, args = [dnpdata_collection.Str name; v]
        /\ dnpdata_collection.is_dnpData_or_dict v = true).

(** Keys are distinct and every value is a labelled array or a
    dictionary. *)
Definition workspace_invariant (self : dnpdata_collection.t) : Prop :=
  NoDup (dnpdata_collection.keys self)
  /\ Forall (fun kv => dnpdata_collection.is_dnpData_or_dict (snd kv) = true)
            (dnpdata_collection.__data_dict self).

(** A workspace with the labelled array at 0 under "raw" and an empty
    dictionary under "proc". *)
Definition sample_workspace : dnpdata_collection.t :=
  dnpdata_collection.Collection "proc"
    [(dnpdata_collection.KStr "raw", dnpdata_collection.DnpData 0);
     (dnpdata_collection.KStr "proc", dnpdata_collection.Dict [])].

(** Sums, differences and products of two numbers, exact, with the kind
    Python and NumPy give the result: a NumPy scalar if an operand is one,
    an integer if both are integers, a float otherwise. *)
Definition number_binary (op : nddata_axis.operator)
    (a b : nddata_axis.value) : result nddata_axis.value :=
  match op, a, b with
  | nddata_axis.TrueDiv, _, _ =>
      raise TypeError "unsupported operand type(s)"
  | _, nddata_axis.VInt x, nddata_axis.VInt y =>
      Ok (nddata_axis.VInt (match op with
                            | nddata_axis.Add => x + y
                            | nddata_axis.Sub => x - y
                            | _ => x * y
                            end)%Z)
  | _, _, _ =>
      match nddata_axis.as_number a, nddata_axis.as_number b with
      | Some (f1, n1, x), Some (f2, n2, y) =>
          let q := (match op with
                    | nddata_axis.Add => x + y
                    | nddata_axis.Sub => x - y
                    | _ => x * y
                    end)%Q in
          Ok (if n1 || n2 then
                nddata_axis.VNp (if f1 || f2 then nddata_axis.float64
                                 else nddata_axis.int64) q
              else nddata_axis.VFloat q)
      | _, _ => raise TypeError "unsupported operand type(s)"
      end
  end.

(** An axis named [name] that holds the triple ([start], [stop], [step])
    and nothing else. *)
Definition axis_of_triple (name : string) (start stop step : nddata_axis.value)
  : nddata_axis.t :=
  <["_nddata_axis__step" := step]>
    (<["_nddata_axis__stop" := stop]>
       (<["_nddata_axis__start" := start]>
          (<["_nddata_axis__dim" := nddata_axis.VStr name]> ∅))).

(** The value [v] is a number equal to [q]. *)
Definition number_value (v : nddata_axis.value) (q : Q) : Prop :=
  exists f n q', nddata_axis.as_number v = Some (f, n, q') /\ (q' == q)%Q.

(** A whole number of moderate size: on these the arithmetic of 64-bit
    floats and integers is exact, also for the sums and products of two of
    them. *)
Definition small_integer (q : Q) : Prop :=
  exists k : Z, (q == inject_Z k)%Q /\ (Z.abs k <= 2 ^ 20)%Z.

(** An operator table that gives the sums, differences and products of
    whole numbers of moderate size as Python and NumPy do. *)
Definition numeric_operators
    (binary : nddata_axis.operator -> nddata_axis.value -> nddata_axis.value
              -> result nddata_axis.value) : Prop :=
  forall op a b x y,
    op <> nddata_axis.TrueDiv ->
    number_value a x -> number_value b y ->
    small_integer x -> small_integer y ->
    binary op a b = number_binary op a b.

(** The axis [ax] is named [name] and holds numbers equal to [x], [y] and
    [z] as its start, stop and step. *)
Definition holds_triple (ax : nddata_axis.t) (name : string) (x y z : Q)
  : Prop :=
  ax !! "_nddata_axis__dim" = Some (nddata_axis.VStr name)
  /\ exists a b c,
       ax !! "_nddata_axis__start" = Some a
       /\ ax !! "_nddata_axis__stop" = Some b
       /\ ax !! "_nddata_axis__step" = Some c
       /\ number_value a x /\ number_value b y /\ number_value c z.

(** The samples the triple ([x], [y], [z]) stands for. *)
Definition samples (x y z : Q) : list Q :=
  nddata_axis.progression x z (sample_count x y z).

(** The argument lists the constructor of an axis lets through. *)
Definition accepted_axis_arguments (args : list nddata_axis.value) : Prop :=
  match args with
  | [coord] =>
      (exists dt elems, coord = nddata_axis.VArray dt elems)
      \/ (exists a b c, coord = nddata_axis.VSlice a b c)
      \/ nddata_axis.is_int_or_float coord = true
  | [start; stop] =>
      nddata_axis.is_int_or_float start = true
      /\ nddata_axis.is_int_or_float stop = true
  | [start; stop; step] =>
      nddata_axis.is_int_or_float start = true
      /\ nddata_axis.is_int_or_float stop = true
      /\ nddata_axis.is_int_or_float step = true
  | _ => True
  end.

(** The axis of three samples 0, 1, 2 called [t]. *)
Definition sample_axis : nddata_axis.t :=
  axis_of_triple "t" (nddata_axis.VInt 0) (nddata_axis.VInt 3)
                 (nddata_axis.VInt 1).

(** A 3 by 2 array over [u] and [v], and the heap that holds the array
    over [x] and [y] at 0 and this one at 1. *)
Definition sample_uv : dnpData.t Z :=
  dnpData.Obj "1.0" (Np.Array [3; 2] [10; 20; 30; 40; 50; 60]%Z)
              [[7; 8; 9]%Z; [1; 2]%Z] ["u"; "v"] ∅ [].

Definition sample_unrelated : dnpData.world Z :=
  dnpData.World {[ 0 := sample_2d; 1 := sample_uv ]} [].

End Spec.

(* ===================================================================== *)
(** * Properties                                                          *)
(* ===================================================================== *)

Import Py Spec.

(** ** The model on small inputs *)

Example sorted_ex : sorted ["y"; "x"; "z"; "p"] = ["p"; "x"; "y"; "z"].
Proof. reflexivity. Qed.

Example argsort_ex : argsort ["y"; "x"; "z"; "x"] = [1; 3; 0; 2].
Proof. reflexivity. Qed.

Example getslice_last :
  getslice [10; 20; 30; 40] (Slice (Some (-1)%Z) None None) = Ok [40].
Proof. reflexivity. Qed.

Example getslice_backwards :
  getslice [10; 20; 30; 40] (Slice None None (Some (-2)%Z)) = Ok [40; 20].
Proof. reflexivity. Qed.

Example getslice_clamped :
  getslice [10; 20; 30; 40] (Slice (Some (-3)%Z) (Some 9%Z) None)
  = Ok [20; 30; 40].
Proof. reflexivity. Qed.

Example transpose_2d :
  Np.transpose (Np.Array [2; 3] [1; 2; 3; 4; 5; 6]%Z) [1; 0]
  = Ok (Np.Array [3; 2] [1; 4; 2; 5; 3; 6]%Z).
Proof. reflexivity. Qed.

Example transpose_3d :
  Np.transpose (Np.Array [2; 1; 3] [1; 2; 3; 4; 5; 6]%Z) [2; 0; 1]
  = Ok (Np.Array [3; 2; 1] [1; 4; 2; 5; 3; 6]%Z).
Proof. reflexivity. Qed.

Example sum_axis0 :
  Np.sum (Np.Array [3; 2] [1; 2; 3; 4; 5; 6]%Z) 0 = Ok (Np.Array [2] [9; 12]%Z).
Proof. reflexivity. Qed.

Example sum_axis1 :
  Np.sum (Np.Array [3; 2] [1; 2; 3; 4; 5; 6]%Z) 1
  = Ok (Np.Array [3] [3; 7; 11]%Z).
Proof. reflexivity. Qed.

Example amax_axis1 :
  Np.amax (Np.Array [3; 2] [1; 2; 3; 4; 5; 6]%Z) 1
  = Ok (Np.Array [3] [2; 4; 6]%Z).
Proof. reflexivity. Qed.

Example concatenate_axis1 :
  Np.concatenate (Np.Array [2; 2] [1; 2; 3; 4]%Z) (Np.Array [2; 1] [5; 6]%Z) 1
  = Ok (Np.Array [2; 3] [1; 2; 5; 3; 4; 6]%Z).
Proof. reflexivity. Qed.

Example getitem_slices_2d :
  Np.getitem_slices (Np.Array [3; 2] [1; 2; 3; 4; 5; 6]%Z)
    [Slice (Some 1%Z) None None; Slice (Some 0%Z) (Some 1%Z) None]
  = Ok (Np.Array [2; 1] [3; 5]%Z).
Proof. reflexivity. Qed.

Example binop_broadcast :
  Np.binop Z.add (Np.Array [2; 2] [1; 2; 3; 4]%Z) (Np.Array [2] [10; 20]%Z)
  = Ok (Np.Array [2; 2] [11; 22; 13; 24]%Z).
Proof. reflexivity. Qed.

(** ** Construction (C1) *)

Section construction.
Context {T : Type} `{Numeric T}.

(** C1 (as amended).  [__init__] performs no validation: for all arguments
    it succeeds and stores values, coords, dims and attrs as given, with
    an empty processing log; the object it builds satisfies the core
    invariant exactly when the arguments do. *)
Theorem init_stores_unchecked
    (v : Np.ndarray T) (c : list (list T)) (d : list string)
    (a : gmap string dnpData.attr_value)
    (p : list (string * gmap string dnpData.attr_value)) :
  exists o, dnpData.__init__ v c d a p = Ok o
    /\ dnpData.values o = v /\ dnpData.coords o = c /\ dnpData.dims o = d
    /\ dnpData.attrs o = a /\ dnpData.proc_attrs o = []
    /\ dnpData.consistent o = dnpData.core_invariant v c d.
Proof.
  eexists. split; [reflexivity|]. repeat split; reflexivity.
Qed.

End construction.

(** C1 (counterexample).  A buffer of shape (2,) with two dimension names
    and no coordinate vector violates the core invariant, and the
    constructor returns an object all the same. *)
Lemma init_accepts_inconsistent :
  dnpData.core_invariant (Np.Array [2] [1; 2]%Z) [] ["x"; "y"] = false
  /\ exists o, dnpData.__init__ (Np.Array [2] [1; 2]%Z) [] ["x"; "y"] ∅ [] = Ok o
       /\ dnpData.consistent o = false.
Proof.
  split; [reflexivity|]. eexists. split; reflexivity.
Qed.

(** ** Arithmetic (C7, C8) *)

Section arithmetic.
Context {T : Type} `{Numeric T}.

Lemma not_supported_run (data : dnpData.operand T) (w : dnpData.world T) :
  dnpData.not_supported data w = (Ok None, diagnosed data w).
Proof.
  unfold dnpData.not_supported, bind, dnpData.print, ret, diagnosed. simpl.
  by rewrite <- app_assoc.
Qed.

(** C8.  On an operand of an unsupported type each of [+], [-], [*] and
    [**] returns [None] without raising, after printing the two diagnostic
    lines; the heap, and with it the receiver, is unchanged. *)
Theorem unsupported_operand_soft_failure
    (w : dnpData.world T) (self : dnpData.loc) (o : dnpData.t T)
    (data : dnpData.operand T) :
  dnpData.heap w !! self = Some o ->
  unsupported data ->
  dnpData.__add__ self data w = (Ok None, diagnosed data w)
  /\ dnpData.__sub__ self data w = (Ok None, diagnosed data w)
  /\ dnpData.__mul__ self data w = (Ok None, diagnosed data w)
  /\ dnpData.__pow__ self data w = (Ok None, diagnosed data w)
  /\ dnpData.heap (diagnosed data w) !! self = Some o
  /\ dnpData.heap (diagnosed data w) = dnpData.heap w.
Proof.
  intros Hself Hdata.
  unfold dnpData.__add__, dnpData.__sub__, dnpData.__mul__, dnpData.__pow__,
    dnpData.deepcopy, dnpData.read, bind.
  rewrite Hself.
  destruct data; try contradiction; rewrite !not_supported_run; repeat split; auto.
Qed.

(** C7.  Reflected subtraction with a scalar on the left reads the
    attribute [data], which no instance has: for every receiver and every
    scalar it ends in [AttributeError], with the world as it was. *)
Theorem rsub_scalar_attribute_error
    (w : dnpData.world T) (self : dnpData.loc) (o : dnpData.t T) (s : T) :
  dnpData.heap w !! self = Some o ->
  dnpData.__rsub__ self (dnpData.Scalar s) w
  = (Raise (Exn AttributeError "'dnpData' object has no attribute 'data'"), w).
Proof.
  intros Hself.
  unfold dnpData.__rsub__, dnpData.deepcopy, dnpData.read, bind, lift.
  rewrite Hself. reflexivity.
Qed.

(** The sibling [__sub__] reads [values] and succeeds on every scalar. *)
Lemma sub_scalar_ok
    (w : dnpData.world T) (self : dnpData.loc) (o : dnpData.t T) (s : T) :
  dnpData.heap w !! self = Some o ->
  dnpData.__sub__ self (dnpData.Scalar s) w
  = (Ok (Some (dnpData.with_values
                 (Np.scalar_op num_sub (dnpData.values o) s) o)), w).
Proof.
  intros Hself.
  unfold dnpData.__sub__, dnpData.deepcopy, dnpData.read, bind, ret.
  rewrite Hself. reflexivity.
Qed.

End arithmetic.

Lemma unsupported_operand_soft_failure_witness :
  dnpData.__add__ 0 (dnpData.Other "str") sample_world
  = (Ok None, diagnosed (dnpData.Other "str") sample_world)
  /\ dnpData.stdout (diagnosed (dnpData.Other "str") sample_world)
     = ["Cannot add, type not supported:"; "<class 'str'>"].
Proof.
  split; [|reflexivity].
  apply (unsupported_operand_soft_failure sample_world 0 sample_1d
           (dnpData.Other "str")); [reflexivity | exact I].
Defined.

Lemma rsub_scalar_attribute_error_witness :
  dnpData.__rsub__ 0 (dnpData.Scalar 2%Z) sample_world
  = (Raise (Exn AttributeError "'dnpData' object has no attribute 'data'"),
     sample_world).
Proof.
  apply (rsub_scalar_attribute_error sample_world 0 sample_1d 2%Z).
  reflexivity.
Defined.

(** ** The workspace constructor (C9) *)

(** C9.  The one-argument form with a labelled array always raises
    [KeyError] on ['raw']: the line meant to store the array looks the key
    up in the still empty dictionary.  A workspace is built only from no
    argument, from one dictionary, or from a name and a value. *)
Theorem single_array_constructor_raises :
  (forall d, dnpdata_collection.create_workspace [dnpdata_collection.DnpData d]
             = Raise (Exn KeyError "'raw'"))
  /\ (forall args, (exists ws, dnpdata_collection.create_workspace args = Ok ws)
                   <-> accepted_arguments args).
Proof.
  split; [reflexivity|].
  intros args. unfold accepted_arguments, dnpdata_collection.create_workspace,
    dnpdata_collection.__init__.
  split.
  - intros [ws Hws].
    destruct args as [|a0 [|a1 [|a2 rest]]]; [by left | | | discriminate].
    + destruct a0; try discriminate.
      right; left. exists items. split; [done|].
      destruct (dnpdata_collection.copy_items items (map fst items) []) eqn:E;
        [eauto | discriminate].
    + destruct a0; try discriminate.
      destruct (dnpdata_collection.is_dnpData_or_dict a1) eqn:E;
        [|discriminate].
      right; right. eauto.
  - intros [-> | [(items & -> & own & Hown) | (name & v & -> & Hv)]].
    + eauto.
    + rewrite Hown. simpl. eauto.
    + rewrite Hv. eauto.
Qed.

(** ** Axes built from a sample sequence (C5) *)

(** C5.  The constructor stores a sample array under [_axis], while every
    reader looks for [_array]; the array is then rebuilt from [start],
    [stop] and [step], which this constructor form never sets.  So for every
    sample array the samples, the length and every indexed read end in
    [AttributeError]. *)
Theorem sample_axis_reads_raise
    (name : string) (dt : nddata_axis.dtype) (elems : list Q) :
  exists ax,
    nddata_axis.__init__ (nddata_axis.VStr name) [nddata_axis.VArray dt elems]
    = Ok ax
    /\ ax !! "_axis" = Some (nddata_axis.VArray dt elems)
    /\ nddata_axis.hasattr ax "_array" = false
    /\ raises AttributeError (fst (nddata_axis.array ax))
    /\ raises AttributeError (fst (nddata_axis.__len__ ax))
    /\ forall x, raises AttributeError (fst (nddata_axis.__getitem__ x ax)).
Proof.
  eexists. split; [vm_compute; reflexivity|].
  split; [reflexivity|]. split; [reflexivity|].
  split; [|split; [|intros x]]; eexists; vm_compute; reflexivity.
Qed.

(** The same array handed to the [array] setter is read back as it is. *)
Lemma set_array_reads_back (ax : nddata_axis.t) (dt : nddata_axis.dtype)
    (elems : list Q) :
  let ax' := snd (nddata_axis.set_array (nddata_axis.VArray dt elems) ax) in
  fst (nddata_axis.array ax') = Ok (nddata_axis.VArray dt elems)
  /\ fst (nddata_axis.__len__ ax') = Ok (length elems).
Proof.
  cbn [nddata_axis.set_array nddata_axis.setattr snd].
  unfold nddata_axis.__len__, nddata_axis.array, nddata_axis.hasattr,
    nddata_axis.getattr, bind, ret.
  rewrite lookup_insert_eq.
  rewrite bool_decide_eq_true_2 by eauto.
  rewrite lookup_insert_eq. done.
Qed.

(** ** Running computations *)

Section running.
Context {T : Type} `{Numeric T}.
Implicit Types (w : dnpData.world T) (o : dnpData.t T) (l : dnpData.loc).

Lemma bind_ok {W A B} (m : M W A) (k : A -> M W B) (w w1 : W) (a : A) :
  m w = (Ok a, w1) -> bind m k w = k a w1.
Proof. intros Hm. unfold bind. by rewrite Hm. Qed.

Lemma bind_raise {W A B} (m : M W A) (k : A -> M W B) (w w1 : W) (e : exn) :
  m w = (Raise e, w1) -> bind m k w = (Raise e, w1).
Proof. intros Hm. unfold bind. by rewrite Hm. Qed.

Lemma bind_lift_ok {W A B} (r : result A) (k : A -> M W B) (w : W) (a : A) :
  r = Ok a -> bind (lift r) k w = k a w.
Proof. intros ->. reflexivity. Qed.

Lemma bind_lift_raise {W A B} (r : result A) (k : A -> M W B) (w : W) e :
  r = Raise e -> bind (lift r) k w = (Raise e, w).
Proof. intros ->. reflexivity. Qed.

Lemma get_run {A} l (f : dnpData.t T -> A) w o :
  dnpData.heap w !! l = Some o -> dnpData.get l f w = (Ok (f o), w).
Proof.
  intros Hl. unfold dnpData.get, bind, dnpData.read, ret. by rewrite Hl.
Qed.

Lemma set_values_run l v w o :
  dnpData.heap w !! l = Some o ->
  dnpData.set_values l v w = (Ok tt, upd l (dnpData.with_values v o) w).
Proof.
  intros Hl. unfold dnpData.set_values, bind, dnpData.read, dnpData.write.
  by rewrite Hl.
Qed.

Lemma set_coords_run l c w o :
  dnpData.heap w !! l = Some o ->
  dnpData.set_coords l c w = (Ok tt, upd l (dnpData.with_coords c o) w).
Proof.
  intros Hl. unfold dnpData.set_coords, bind, dnpData.read, dnpData.write.
  by rewrite Hl.
Qed.

Lemma set_dims_run l d w o :
  dnpData.heap w !! l = Some o ->
  dnpData.set_dims l d w = (Ok tt, upd l (dnpData.with_dims d o) w).
Proof.
  intros Hl. unfold dnpData.set_dims, bind, dnpData.read, dnpData.write.
  by rewrite Hl.
Qed.

Lemma heap_upd_eq l o w : dnpData.heap (upd l o w) !! l = Some o.
Proof. apply lookup_insert_eq. Qed.

Lemma heap_upd_ne l l' o w :
  l <> l' -> dnpData.heap (upd l o w) !! l' = dnpData.heap w !! l'.
Proof. intros Hne. by apply lookup_insert_ne. Qed.

Lemma upd_upd l o1 o2 w : upd l o2 (upd l o1 w) = upd l o2 w.
Proof. unfold upd. simpl. by rewrite insert_insert_eq. Qed.

End running.

(** ** Facts about list positions *)

Lemma find_index_lookup (x : string) (l : list string) (i : nat) :
  find_index x l = Some i -> l !! i = Some x.
Proof.
  revert i. induction l as [|y l IH]; intros i; simpl; [discriminate|].
  destruct (String.eqb_spec y x) as [->|Hne].
  - by intros [= <-].
  - destruct (find_index x l) as [j|]; simpl; [|discriminate].
    intros [= <-]. by apply IH.
Qed.

Lemma find_index_none (x : string) (l : list string) :
  find_index x l = None <-> x ∉ l.
Proof.
  induction l as [|y l IH]; simpl.
  - split; [intros _; apply not_elem_of_nil | done].
  - destruct (String.eqb_spec y x) as [->|Hne].
    + split; [discriminate | intros Hx; exfalso; apply Hx; left].
    + destruct (find_index x l) as [j|] eqn:E; simpl.
      * split; [discriminate|]. intros Hx. exfalso.
        apply Hx. right. destruct (decide (x ∈ l)) as [|Hn]; [done|].
        apply IH in Hn. discriminate.
      * split; [|done]. intros _. rewrite not_elem_of_cons.
        split; [congruence | by apply IH].
Qed.

Lemma find_index_some (x : string) (l : list string) :
  x ∈ l -> exists i, find_index x l = Some i.
Proof.
  intros Hx. destruct (find_index x l) as [i|] eqn:E; [eauto|].
  apply find_index_none in E. contradiction.
Qed.

(** ** Reduction along an axis (C4) *)

Section reduction.
Context {T : Type} `{Numeric T}.
Implicit Types (w : dnpData.world T) (o : dnpData.t T) (l : dnpData.loc).

Lemma consistent_inv o :
  dnpData.consistent o = true ->
  length (dnpData.dims o) = length (dnpData.coords o)
  /\ length (dnpData.coords o) = Np.ndim (dnpData.values o)
  /\ map length (dnpData.coords o) = Np.shape (dnpData.values o).
Proof.
  unfold dnpData.consistent, dnpData.core_invariant.
  rewrite !andb_true_iff, !Nat.eqb_eq, bool_decide_eq_true. tauto.
Qed.

Lemma consistent_intro o :
  length (dnpData.dims o) = length (dnpData.coords o) ->
  map length (dnpData.coords o) = Np.shape (dnpData.values o) ->
  dnpData.consistent o = true.
Proof.
  intros Hd Hc. unfold dnpData.consistent, dnpData.core_invariant.
  rewrite !andb_true_iff, !Nat.eqb_eq, bool_decide_eq_true.
  repeat split; auto. unfold Np.ndim. by rewrite <- Hc, length_map.
Qed.

Lemma map_delete {A B} (f : A -> B) (i : nat) (xs : list A) :
  map f (delete i xs) = delete i (map f xs).
Proof.
  revert i. induction xs as [|x xs IH]; intros [|i]; simpl; auto.
  f_equal. apply IH.
Qed.

Lemma sum_shape (a v : Np.ndarray T) (i : nat) :
  Np.sum a i = Ok v -> Np.shape v = delete i (Np.shape a) /\ i < Np.ndim a.
Proof.
  unfold Np.sum. destruct (Nat.ltb_spec i (Np.ndim a)); [|discriminate].
  intros [= <-]. auto.
Qed.

(** C4 (as amended).  On a consistent array [sum] removes the named
    dimension from the [dims] and [coords] of the receiver and replaces its
    buffer by the sum along that axis, in place, and leaves the receiver
    consistent; for a name that is not a dimension it raises [ValueError],
    as [amax] does, and changes nothing. *)
Theorem sum_removes_axis w l o (axesLabel : string) :
  dnpData.heap w !! l = Some o ->
  dnpData.consistent o = true ->
  (axesLabel ∈ dnpData.dims o ->
     exists i v w',
       dnpData.dims o !! i = Some axesLabel
       /\ Np.sum (dnpData.values o) i = Ok v
       /\ Np.shape v = delete i (Np.shape (dnpData.values o))
       /\ dnpData.sum l axesLabel w = (Ok tt, w')
       /\ dnpData.heap w' !! l = Some (without_axis i v o)
       /\ dnpData.stdout w' = dnpData.stdout w
       /\ dnpData.consistent (without_axis i v o) = true)
  /\ (axesLabel ∉ dnpData.dims o ->
        raises ValueError (fst (dnpData.sum l axesLabel w))
        /\ snd (dnpData.sum l axesLabel w) = w
        /\ raises ValueError (fst (dnpData.amax l axesLabel w))).
Proof.
  intros Hl Hcons.
  destruct (consistent_inv o Hcons) as (Hdc & Hcn & Hshape).
  split.
  - intros Hin. destruct (find_index_some _ _ Hin) as [i Hi].
    pose proof (find_index_lookup _ _ _ Hi) as Hdi.
    assert (Hlt : i < length (dnpData.dims o)) by (by eapply lookup_lt_Some).
    assert (Hsum : exists v, Np.sum (dnpData.values o) i = Ok v).
    { unfold Np.sum. destruct (Nat.ltb_spec i (Np.ndim (dnpData.values o)));
        [eauto | lia]. }
    destruct Hsum as [v Hv]. destruct (sum_shape _ _ _ Hv) as [Hvs _].
    destruct (lookup_lt_is_Some_2 (dnpData.coords o) i) as [c Hc]; [lia|].
    exists i, v, (upd l (without_axis i v o) w).
    split; [done|]. split; [done|]. split; [done|].
    split; [|split; [apply heap_upd_eq|split; [reflexivity|]]].
    + unfold dnpData.sum.
      rewrite (bind_ok _ _ _ _ _ (get_run l dnpData.dims w o Hl)).
      unfold index. rewrite Hi. rewrite (bind_lift_ok _ _ _ i eq_refl).
      rewrite (bind_ok _ _ _ _ _ (get_run l dnpData.values w o Hl)).
      rewrite (bind_lift_ok _ _ _ _ Hv).
      rewrite (bind_ok _ _ _ _ _ (set_values_run l v w o Hl)).
      rewrite (bind_ok _ _ _ _ _ (get_run l dnpData.dims _ _ (heap_upd_eq _ _ _))).
      unfold pop. simpl dnpData.dims. rewrite Hdi.
      rewrite (bind_lift_ok _ _ _ _ eq_refl).
      rewrite (bind_ok _ _ _ _ _ (set_dims_run l _ _ _ (heap_upd_eq _ _ _))).
      rewrite upd_upd.
      rewrite (bind_ok _ _ _ _ _ (get_run l dnpData.coords _ _ (heap_upd_eq _ _ _))).
      simpl dnpData.coords. rewrite Hc.
      rewrite (bind_lift_ok _ _ _ _ eq_refl).
      rewrite (set_coords_run l _ _ _ (heap_upd_eq _ _ _)).
      by rewrite upd_upd.
    + apply consistent_intro; simpl.
      * rewrite !length_delete by eauto. lia.
      * by rewrite map_delete, Hshape.
  - intros Hnot. apply find_index_none in Hnot.
    unfold dnpData.sum, dnpData.amax, dnpData.copy, dnpData.deepcopy.
    rewrite (bind_ok _ _ _ _ _ (get_run l dnpData.dims w o Hl)).
    unfold index, raise. rewrite Hnot.
    rewrite (bind_lift_raise _ _ _ _ eq_refl). simpl.
    repeat split; [by eexists|].
    unfold bind, dnpData.read. rewrite Hl, Hnot. simpl. by eexists.
Qed.

End reduction.

Lemma sum_removes_axis_witness :
  exists i v w',
    dnpData.dims sample_2d !! i = Some "x"
    /\ Np.sum (dnpData.values sample_2d) i = Ok v
    /\ Np.shape v = delete i (Np.shape (dnpData.values sample_2d))
    /\ dnpData.sum 0 "x" sample_world_2d = (Ok tt, w')
    /\ dnpData.heap w' !! 0 = Some (without_axis i v sample_2d)
    /\ dnpData.stdout w' = dnpData.stdout sample_world_2d
    /\ dnpData.consistent (without_axis i v sample_2d) = true
    /\ without_axis i v sample_2d
       = dnpData.Obj "1.0" (Np.Array [2] [9; 12]%Z) [[10; 20]%Z] ["y"] ∅ [].
Proof.
  destruct (proj1 (sum_removes_axis sample_world_2d 0 sample_2d "x"
                     eq_refl eq_refl))
    as (i & v & w' & Hi & Hv & Hs & Hrun & Hw & Hout & Hc); [by left|].
  exists i, v, w'.
  split; [exact Hi|]. split; [exact Hv|]. split; [exact Hs|].
  split; [exact Hrun|]. split; [exact Hw|]. split; [exact Hout|].
  split; [exact Hc|].
  destruct i as [|[|i]]; try discriminate Hi.
  vm_compute in Hv. injection Hv as <-. reflexivity.
Defined.

(** The scenario of the specification: summing a 3 by 2 array over [x]
    leaves [dims = ['y']], [coords = [[10, 20]]] and the column sums. *)
Example sum_over_x_scenario (a b c d e f : Z) :
  let A := dnpData.Obj "1.0" (Np.Array [3; 2] [a; b; c; d; e; f])
                       [[0; 1; 2]%Z; [10; 20]%Z] ["x"; "y"] ∅ [] in
  dnpData.sum 0 "x" (dnpData.World {[ 0 := A ]} [])
  = (Ok tt,
     dnpData.World
       {[ 0 := dnpData.Obj "1.0" (Np.Array [2] [a + c + e; b + d + f]%Z)
                            [[10; 20]%Z] ["y"] ∅ [] ]} []).
Proof.
  intros A. unfold dnpData.sum, A.
  vm_compute. reflexivity.
Qed.

(** C4 (counterexample).  Summing over a name that is not a dimension
    raises [ValueError], which is not a [KeyError]. *)
Lemma sum_absent_label_not_KeyError :
  fst (dnpData.sum 0 "z" sample_world_2d)
  = Raise (Exn ValueError "'z' is not in list")
  /\ ~ raises KeyError (fst (dnpData.sum 0 "z" sample_world_2d)).
Proof.
  split; [reflexivity|]. intros [msg Hmsg]. discriminate.
Qed.

(** ** Slices *)

Lemma clamp_bound_range (v n step : Z) :
  (0 <= n)%Z ->
  (if (step <? 0)%Z then (-1 <= clamp_bound v n step <= n - 1)%Z
   else (0 <= clamp_bound v n step <= n)%Z).
Proof.
  intros Hn. unfold clamp_bound.
  destruct (Z.ltb_spec step 0), (Z.ltb_spec v 0), (Z.ltb_spec (v + n) 0),
    (Z.leb_spec n v); lia.
Qed.

Lemma range_positions_bound (start stop step : Z) (n : Z) (i : nat) :
  step <> 0%Z ->
  (if (step <? 0)%Z then (-1 <= start <= n - 1)%Z /\ (-1 <= stop <= n - 1)%Z
   else (0 <= start <= n)%Z /\ (0 <= stop <= n)%Z) ->
  i < range_length start stop step ->
  (0 <= start + Z.of_nat i * step < n)%Z.
Proof.
  intros Hstep Hb Hi. unfold range_length in Hi.
  destruct (Z.ltb_spec step 0) as [Hneg|Hpos].
  - destruct (Z.ltb_spec 0 step); [lia|].
    destruct (Z.ltb_spec stop start); [|simpl in Hi; lia].
    assert (Hq : (Z.of_nat i <= (start - stop - 1) / (- step))%Z) by lia.
    assert (Hm : ((- step) * ((start - stop - 1) / (- step))
                  <= start - stop - 1)%Z)
      by (apply Z.mul_div_le; lia).
    nia.
  - destruct (Z.ltb_spec 0 step); [|lia].
    destruct (Z.ltb_spec start stop); [|simpl in Hi; lia].
    assert (Hq : (Z.of_nat i <= (stop - start - 1) / step)%Z) by lia.
    assert (Hm : (step * ((stop - start - 1) / step) <= stop - start - 1)%Z)
      by (apply Z.mul_div_le; lia).
    nia.
Qed.

(** A slice with a non-zero step selects positions inside the sequence. *)
Lemma slice_indices_ok (s : slice) (n : nat) :
  slice_step s <> Some 0%Z ->
  exists ixs, slice_indices s n = Ok ixs /\ Forall (fun i => i < n) ixs.
Proof.
  intros Hstep. unfold slice_indices.
  set (step := default 1%Z (slice_step s)).
  assert (Hnz : step <> 0%Z).
  { subst step. destruct (slice_step s) as [z|]; simpl; [congruence | lia]. }
  destruct (Z.eqb_spec step 0) as [|_]; [contradiction|].
  eexists. split; [reflexivity|].
  apply Forall_forall. intros x Hx. apply list_elem_of_In, in_map_iff in Hx.
  destruct Hx as (i & <- & Hi). apply in_seq in Hi.
  match goal with
  | |- Z.to_nat (?a + _ * _) < _ =>
      pose proof (range_positions_bound a
        (match slice_stop s with
         | Some v => clamp_bound v (Z.of_nat n) step
         | None => if (step <? 0)%Z then (-1)%Z else Z.of_nat n
         end) step (Z.of_nat n) i Hnz) as Hb
  end.
  assert (Hn : (0 <= Z.of_nat n)%Z) by lia.
  lapply Hb.
  - intros Hb'. specialize (Hb' ltac:(lia)). lia.
  - destruct (slice_start s) as [a|], (slice_stop s) as [b|];
      try (pose proof (clamp_bound_range a (Z.of_nat n) step Hn));
      try (pose proof (clamp_bound_range b (Z.of_nat n) step Hn));
      destruct (Z.ltb_spec step 0); lia.
Qed.

Lemma seq_positions (start : Z) (len : nat) :
  (0 <= start)%Z ->
  map (fun i => Z.to_nat (start + Z.of_nat i * 1)) (seq 0 len)
  = seq (Z.to_nat start) len.
Proof.
  intros Hs. apply list_eq. intros i.
  rewrite list_lookup_fmap.
  destruct (decide (i < len)) as [Hi|Hi].
  - rewrite !lookup_seq_lt by done. simpl. f_equal. lia.
  - rewrite !lookup_seq_ge by lia. done.
Qed.

Ltac zcases :=
  repeat match goal with
         | |- context [(?a <? ?b)%Z] =>
             destruct (Z.ltb_spec a b); try lia
         | |- context [(?a <=? ?b)%Z] =>
             destruct (Z.leb_spec a b); try lia
         | |- context [(?a =? ?b)%Z] =>
             destruct (Z.eqb_spec a b); try lia
         | H : context [(?a <? ?b)%Z] |- _ =>
             destruct (Z.ltb_spec a b); try lia
         | H : context [(?a <=? ?b)%Z] |- _ =>
             destruct (Z.leb_spec a b); try lia
         end.

(** [slice(k, k + 1)] for [0 <= k < n] selects position [k] alone. *)
Lemma slice_indices_single (k : Z) (n : nat) :
  (0 <= k < Z.of_nat n)%Z ->
  slice_indices (Slice (Some k) (Some (k + 1)%Z) None) n = Ok [Z.to_nat k].
Proof.
  intros Hk. unfold slice_indices. simpl.
  unfold clamp_bound, range_length. simpl. zcases.
  - replace (Z.of_nat n - k - 1)%Z with 0%Z by lia. simpl.
    do 2 f_equal. lia.
  - replace (k + 1 - k - 1)%Z with 0%Z by lia. simpl.
    do 2 f_equal. lia.
Qed.

(** [slice(-1, None)] selects the last position of a non-empty sequence. *)
Lemma slice_indices_last (n : nat) :
  0 < n -> slice_indices (Slice (Some (-1)%Z) None None) n = Ok [n - 1].
Proof.
  intros Hn. unfold slice_indices. simpl.
  unfold clamp_bound, range_length. simpl. zcases.
  replace (Z.of_nat n - (-1 + Z.of_nat n) - 1)%Z with 0%Z by lia. simpl.
  do 2 f_equal. lia.
Qed.

(** [slice(0, n)] selects every position of a sequence of length [n]. *)
Lemma slice_indices_full (n : nat) :
  slice_indices (Slice (Some 0%Z) (Some (Z.of_nat n)) None) n = Ok (seq 0 n).
Proof.
  unfold slice_indices. simpl. unfold clamp_bound, range_length. simpl.
  zcases.
  - rewrite Z.div_1_r, seq_positions by lia.
    do 2 f_equal. lia.
  - assert (n = 0) as -> by lia. reflexivity.
Qed.

(** The entries at a list of positions. *)
Lemma length_omap_lookup {A} (c : list A) (ixs : list nat) :
  Forall (fun i => i < length c) ixs ->
  length (omap (fun i => c !! i) ixs) = length ixs.
Proof.
  induction 1 as [|i ixs Hi _ IH]; [done|].
  destruct (lookup_lt_is_Some_2 c i Hi) as [x Hx].
  cbn. rewrite Hx. cbn. f_equal. exact IH.
Qed.

Lemma omap_lookup_seq {A} (c : list A) (k : nat) :
  omap (fun i => c !! i) (seq k (length c - k)) = drop k c.
Proof.
  remember (length c - k) as m eqn:Hm. revert k Hm.
  induction m as [|m IH]; intros k Hm; simpl.
  - by rewrite drop_ge by lia.
  - destruct (lookup_lt_is_Some_2 c k) as [x Hx]; [lia|].
    cbn. rewrite Hx. cbn. rewrite (drop_S _ _ _ Hx). f_equal.
    apply (IH (S k)). lia.
Qed.

(** ** Comprehensions *)

Lemma comprehension_Forall2 {A B} (f : A -> result B) (l : list A)
    (ys : list B) :
  comprehension f l = Ok ys <-> Forall2 (fun x y => f x = Ok y) l ys.
Proof.
  revert ys. induction l as [|x l IH]; intros ys; simpl.
  - split; [intros [= <-]; constructor | by inversion 1].
  - destruct (f x) as [y|e] eqn:Hx; simpl.
    + destruct (comprehension f l) as [ys'|e] eqn:Hl; simpl.
      * split.
        -- intros [= <-]. constructor; [done | by apply IH].
        -- inversion 1 as [|? y' ? ys'' Hy Hys]; subst.
           apply IH in Hys. congruence.
      * split; [discriminate|].
        inversion 1 as [|? y' ? ys'' Hy Hys]; subst.
        apply IH in Hys. discriminate.
    + split; [discriminate|]. inversion 1; congruence.
Qed.

Lemma comprehension_total {A B} (f : A -> result B) (l : list A) :
  Forall (fun x => exists y, f x = Ok y) l ->
  exists ys, comprehension f l = Ok ys.
Proof.
  induction 1 as [|x l [y Hy] _ [ys IH]]; simpl; [eauto|].
  rewrite Hy, IH. simpl. eauto.
Qed.

Lemma comprehension_length {A B} (f : A -> result B) (l : list A)
    (ys : list B) :
  comprehension f l = Ok ys -> length ys = length l.
Proof.
  intros Hc. apply comprehension_Forall2 in Hc.
  symmetry. by eapply Forall2_length.
Qed.

(** ** Entries of a re-sliced buffer *)

Section selection.
Context {T : Type} `{Numeric T}.

Lemma ravel_bound (s j : list nat) :
  Forall2 (fun k n => k < n) j s -> Np.ravel s j < Np.size_of s.
Proof.
  intros Hj. induction Hj as [|k n j s Hk Hj IH]; simpl.
  - unfold Np.size_of. simpl. lia.
  - change (foldr Nat.mul 1 s) with (Np.size_of s). nia.
Qed.

Lemma nth_chunk (k i m : nat) (d : list T) :
  m < k -> nth m (Np.chunk k i d) num_zero = nth (i * k + m) d num_zero.
Proof.
  intros Hm. unfold Np.chunk.
  destruct (decide (i * k + m < length d)) as [Hlt|Hge].
  - apply nth_lookup_Some.
    rewrite lookup_take_lt by done. rewrite lookup_drop.
    destruct (lookup_lt_is_Some_2 d (i * k + m) Hlt) as [x Hx].
    rewrite Hx. f_equal. symmetry. by apply nth_lookup_Some.
  - rewrite (nth_overflow d) by lia. apply nth_overflow.
    rewrite length_take, length_drop. lia.
Qed.

Lemma length_chunk (k i : nat) (d : list T) :
  (S i) * k <= length d -> length (Np.chunk k i d) = k.
Proof.
  intros Hle. unfold Np.chunk. rewrite length_take, length_drop. lia.
Qed.

Lemma nth_flat_map_uniform {A} (f : A -> list T) (l : list A) (n r p : nat)
    (a : A) :
  (forall x, x ∈ l -> length (f x) = n) ->
  l !! p = Some a -> r < n ->
  nth (p * n + r) (flat_map f l) num_zero = nth r (f a) num_zero.
Proof.
  revert p. induction l as [|x l IH]; intros p Hlen Hp Hr; [done|].
  simpl. destruct p as [|p].
  - injection Hp as ->. simpl. rewrite app_nth1; [done|].
    rewrite Hlen by left. done.
  - rewrite app_nth2 by (rewrite Hlen by left; lia).
    rewrite Hlen by left.
    replace (S p * n + r - n) with (p * n + r) by lia.
    apply IH; [|done..]. intros y Hy. apply Hlen. by right.
Qed.

Lemma length_select (s : list nat) (sel : list (list nat)) (d : list T) :
  length d = Np.size_of s ->
  Forall2 (fun ixs n => Forall (fun i => i < n) ixs) sel s ->
  length (Np.select s sel d) = Np.size_of (map length sel).
Proof.
  intros Hd Hsel. revert d Hd.
  induction Hsel as [|ixs n sel s Hixs Hsel IH]; intros d Hd; simpl.
  - by rewrite Hd.
  - change (foldr Nat.mul 1 (map length sel))
      with (Np.size_of (map length sel)).
    change (foldr Nat.mul 1 s) with (Np.size_of s) in *.
    simpl in Hd. change (foldr Nat.mul 1 s) with (Np.size_of s) in Hd.
    induction Hixs as [|i ixs Hi Hixs IHi]; simpl; [done|].
    rewrite length_app, IHi. f_equal.
    apply IH. apply length_chunk. nia.
Qed.

(** The entry of the selection at the multi-index [j] is the entry of the
    buffer at the positions that [j] picks on every axis. *)
Lemma select_entry (s : list nat) (sel : list (list nat)) (d : list T)
    (j : list nat) :
  length d = Np.size_of s ->
  Forall2 (fun ixs n => Forall (fun i => i < n) ixs) sel s ->
  Forall2 (fun k ixs => k < length ixs) j sel ->
  nth (Np.ravel (map length sel) j) (Np.select s sel d) num_zero
  = nth (Np.ravel s (zip_with (fun ixs k => nth k ixs 0) sel j)) d num_zero.
Proof.
  intros Hd Hsel. revert d Hd j.
  induction Hsel as [|ixs n sel s Hixs Hsel IH]; intros d Hd j Hj.
  - inversion Hj; subst. done.
  - inversion Hj as [|k ? j' ? Hk Hj']; subst. simpl.
    change (foldr Nat.mul 1 (map length sel))
      with (Np.size_of (map length sel)).
    change (foldr Nat.mul 1 s) with (Np.size_of s).
    simpl in Hd. change (foldr Nat.mul 1 s) with (Np.size_of s) in Hd.
    destruct (lookup_lt_is_Some_2 ixs k Hk) as [i Hi].
    assert (Hin : i < n).
    { rewrite Forall_forall in Hixs. apply Hixs.
      apply list_elem_of_lookup. eauto. }
    assert (Hr : Np.ravel (map length sel) j' < Np.size_of (map length sel)).
    { apply ravel_bound. apply Forall2_fmap_r.
      eapply Forall2_impl; [exact Hj'|]. done. }
    assert (Hchunk : forall x, x ∈ ixs ->
              length (Np.chunk (Np.size_of s) x d) = Np.size_of s).
    { intros x Hx. apply length_chunk.
      rewrite Forall_forall in Hixs. specialize (Hixs x Hx). nia. }
    rewrite (nth_flat_map_uniform _ ixs (Np.size_of (map length sel))
               _ k i); [| |done|done].
    2: { intros x Hx. apply length_select; [by apply Hchunk | done]. }
    rewrite IH; [| by apply Hchunk; apply list_elem_of_lookup; eauto | done].
    rewrite (nth_lookup_Some _ _ 0 _ Hi).
    apply nth_chunk. apply ravel_bound.
    clear -Hsel Hj'. revert j' Hj'.
    induction Hsel as [|ixs' n' sel s H1 Hsel IH]; intros j' Hj'.
    + inversion Hj'; subst. constructor.
    + inversion Hj' as [|k' ? j'' ? Hk' Hj'']; subst. simpl.
      constructor; [|by apply IH].
      destruct (lookup_lt_is_Some_2 ixs' k' Hk') as [i' Hi'].
      rewrite (nth_lookup_Some _ _ 0 _ Hi').
      rewrite Forall_forall in H1. apply H1.
      apply list_elem_of_lookup. eauto.
Qed.

End selection.
(** ** Indexing (C2) *)

Section indexing.
Context {T : Type} `{Numeric T}.
Implicit Types (w : dnpData.world T) (o : dnpData.t T) (self : dnpData.loc).

(** Induction on a list two elements at a time. *)
Lemma pair_induction {A} (P : list A -> Prop) :
  P [] -> (forall x, P [x]) -> (forall x y l, P l -> P (x :: y :: l)) ->
  forall l, P l.
Proof.
  intros Hnil Hone Hstep.
  assert (Hboth : forall l, P l /\ forall x, P (x :: l)).
  { induction l as [|y l [IH1 IH2]]; split; auto. }
  intros l. apply Hboth.
Qed.

(** The position found among the names leads to the selector paired with
    the name. *)
Lemma token_index_paired (label : string) (index : list dnpData.token) :
  length index mod 2 = 0 ->
  match dnpData.token_index label (dnpData.evens index) with
  | Some ix => exists tk, dnpData.odds index !! ix = Some tk
                          /\ paired_selector label index = Some tk
  | None => paired_selector label index = None
  end.
Proof.
  induction index as [| x | x y index IH] using pair_induction;
    [done | discriminate |].
  intros Heven.
  assert (Heven' : length index mod 2 = 0).
  { simpl length in Heven.
    replace (S (S (length index))) with (length index + 1 * 2) in Heven by lia.
    by rewrite Nat.Div0.mod_add in Heven. }
  specialize (IH Heven'). simpl.
  destruct (dnpData.token_is label x); [eauto|].
  destruct (dnpData.token_index label (dnpData.evens index)); simpl; auto.
Qed.

Lemma paired_selector_valid (label : string) (index : list dnpData.token)
    (tk : dnpData.token) :
  Forall valid_selector (dnpData.odds index) ->
  paired_selector label index = Some tk -> valid_selector tk.
Proof.
  induction index as [| x | x y index IH] using pair_induction;
    [discriminate | discriminate |].
  simpl. intros Hv. apply Forall_cons in Hv as [Hy Hv].
  destruct (dnpData.token_is label x); [by intros [= <-] | auto].
Qed.

Lemma axis_slice_step (index : list dnpData.token) (label : string) (n : nat) :
  Forall valid_selector (dnpData.odds index) ->
  slice_step (axis_slice index label n) <> Some 0%Z.
Proof.
  intros Hv. unfold axis_slice.
  destruct (paired_selector label index) as [tk|] eqn:Htk; [|done].
  apply (paired_selector_valid _ _ _ Hv) in Htk.
  destruct tk as [s|k|s]; simpl in *; try done.
  by destruct (k =? -1)%Z.
Qed.

Lemma resolve_valid (index : list dnpData.token) (label : string) (n : nat)
    (tk : dnpData.token) :
  paired_selector label index = Some tk -> valid_selector tk ->
  dnpData.resolve tk = dnpData.Sel (axis_slice index label n).
Proof.
  intros Htk Hv. unfold axis_slice. rewrite Htk.
  destruct tk as [s|k|s]; simpl in *; try done.
  by destruct (k =? -1)%Z eqn:E; [apply Z.eqb_eq in E as ->|].
Qed.

(** The loop that builds [indices] yields, axis by axis, the slice of
    [axis_slice]. *)
Lemma build_indices_spec (index : list dnpData.token)
    (coords : list (list T)) (dims : list string) (ax : nat) :
  length index mod 2 = 0 ->
  Forall valid_selector (dnpData.odds index) ->
  length (drop ax coords) = length dims ->
  dnpData.build_indices (dnpData.evens index) (dnpData.odds index)
                        coords ax dims
  = Ok (map dnpData.Sel
          (zip_with (fun d c => axis_slice index d (length c))
                    dims (drop ax coords))).
Proof.
  intros Heven Hv. revert ax.
  induction dims as [|d dims IH]; intros ax Hlen; [done|].
  destruct (drop ax coords) as [|c rest] eqn:Hdrop; [discriminate|].
  assert (Hc : coords !! ax = Some c).
  { rewrite <- (Nat.add_0_r ax), <- lookup_drop, Hdrop. done. }
  assert (Hrest : drop (S ax) coords = rest).
  { change rest with (drop 1 (c :: rest)).
    rewrite <- Hdrop, drop_drop. f_equal. lia. }
  simpl in Hlen. simpl.
  pose proof (token_index_paired d index Heven) as Hp.
  destruct (dnpData.token_index d (dnpData.evens index)) as [ix|].
  - destruct Hp as (tk & Hix & Htk).
    unfold getitem. rewrite Hix. simpl.
    rewrite (resolve_valid index d (length c) tk Htk
               (paired_selector_valid _ _ _ Hv Htk)).
    rewrite IH by (rewrite Hrest; lia). simpl. by rewrite Hrest.
  - unfold getitem. rewrite Hc. simpl.
    rewrite IH by (rewrite Hrest; lia). simpl. rewrite Hrest.
    unfold axis_slice. by rewrite Hp.
Qed.

Lemma comprehension_as_slice (sls : list slice) :
  comprehension dnpData.as_slice (map dnpData.Sel sls) = Ok sls.
Proof.
  induction sls as [|s sls IH]; simpl; [done|]. by rewrite IH.
Qed.

(** The loop over the coordinate vectors cuts the vector of every axis at
    the positions its slice selects. *)
Lemma slice_coords_spec (slices : list slice) (sel : list (list nat))
    (m : nat) :
  forall (k : nat) (cur : list (list T)),
  k + m = length cur ->
  (forall j, k <= j < k + m -> exists c sl ixs,
      cur !! j = Some c /\ slices !! j = Some sl /\ sel !! j = Some ixs
      /\ slice_indices sl (length c) = Ok ixs) ->
  dnpData.slice_coords (map dnpData.Sel slices) (seq k m) cur
  = Ok (take k cur ++ zip_with at_positions (drop k cur) (drop k sel)).
Proof.
  induction m as [|m IH]; intros k cur Hlen Hall.
  - simpl. rewrite take_ge, drop_ge by lia. simpl. by rewrite app_nil_r.
  - destruct (Hall k ltac:(lia)) as (c & sl & ixs & Hc & Hsl & Hixs & Hpos).
    simpl. unfold getitem at 1. rewrite Hc. simpl.
    unfold getitem at 1. rewrite list_lookup_fmap, Hsl. simpl.
    unfold getslice. rewrite Hpos. simpl.
    unfold setitem. destruct (decide (k < length cur)) as [_|]; [|lia].
    fold (at_positions c ixs). cbn [rbind].
    rewrite IH.
    + f_equal.
      rewrite (take_S_r _ _ (at_positions c ixs))
        by (apply list_lookup_insert_eq; lia).
      rewrite take_insert_ge by lia. rewrite drop_insert_lt by lia.
      rewrite (drop_S cur c k Hc), (drop_S sel ixs k Hixs). simpl.
      by rewrite <- app_assoc.
    + rewrite length_insert. lia.
    + intros j Hj. destruct (Hall j ltac:(lia)) as (c' & sl' & ixs' & ? & ?).
      exists c', sl', ixs'. rewrite list_lookup_insert_ne by lia. done.
Qed.

(** C2.  On a consistent array and an even-length tuple of (name, selector)
    pairs whose selectors are integers or slices, [__getitem__] returns a
    fresh array and leaves the world as it was.  Every axis is cut with the
    slice of [axis_slice] (an integer [k] as [[k, k+1)], [-1] as "last entry
    to the end", a slice object as itself, an axis that is not named in
    full); the positions [sel] selected on an axis are applied to the buffer
    and to the coordinate vector of that axis alike: the entry of the result
    at a multi-index [j] is the entry of the receiver at the positions [j]
    selects, and the result is consistent. *)
Theorem getitem_reslices w self o (index : list dnpData.token) :
  dnpData.heap w !! self = Some o ->
  dnpData.consistent o = true ->
  length index mod 2 = 0 ->
  Forall valid_selector (dnpData.odds index) ->
  let slices := zip_with (fun d c => axis_slice index d (length c))
                         (dnpData.dims o) (dnpData.coords o) in
  exists (sel : list (list nat)) (out : dnpData.t T),
    Forall2 (fun sn ixs => slice_indices (fst sn) (snd sn) = Ok ixs)
            (zip slices (Np.shape (dnpData.values o))) sel
    /\ dnpData.__getitem__ self index w = (Ok (Some out), w)
    /\ dnpData.dims out = dnpData.dims o
    /\ dnpData.attrs out = dnpData.attrs o
    /\ dnpData.values out
       = Np.Array (map length sel)
                  (Np.select (Np.shape (dnpData.values o)) sel
                             (Np.data (dnpData.values o)))
    /\ dnpData.coords out = zip_with at_positions (dnpData.coords o) sel
    /\ dnpData.consistent out = true
    /\ (whole (dnpData.values o) ->
        forall j : list nat,
          Forall2 (fun k ixs => k < length ixs) j sel ->
          Np.entry (dnpData.values out) j
          = Np.entry (dnpData.values o)
                     (zip_with (fun ixs k => nth k ixs 0) sel j)).
Proof.
  intros Hself Hcons Heven Hvalid slices.
  destruct (consistent_inv o Hcons) as (Hdc & Hcn & Hshape).
  assert (Hslices : length slices = length (dnpData.coords o)).
  { subst slices. rewrite length_zip_with. lia. }
  (* the positions selected on every axis *)
  destruct (comprehension_total
              (fun '(sl, n) => slice_indices sl n)
              (zip slices (Np.shape (dnpData.values o)))) as [sel Hsel].
  { apply Forall_forall. intros [sl n] Hin.
    apply elem_of_zip_l in Hin. subst slices.
    apply list_elem_of_lookup in Hin as [i Hi].
    apply lookup_zip_with_Some in Hi as (d & c & -> & _ & _).
    destruct (slice_indices_ok (axis_slice index d (length c)) n
                (axis_slice_step index d (length c) Hvalid)) as (ixs & ? & _).
    eauto. }
  pose proof (comprehension_length _ _ _ Hsel) as Hsel_len.
  rewrite length_zip in Hsel_len. fold (Np.ndim (dnpData.values o)) in Hsel_len.
  pose proof Hsel as Hsel2. apply comprehension_Forall2 in Hsel2.
  assert (Hrows : forall j, j < length (dnpData.coords o) ->
            exists c sl ixs, dnpData.coords o !! j = Some c
              /\ slices !! j = Some sl /\ sel !! j = Some ixs
              /\ slice_indices sl (length c) = Ok ixs
              /\ Forall (fun i => i < length c) ixs).
  { intros j Hj.
    destruct (lookup_lt_is_Some_2 (dnpData.coords o) j Hj) as [c Hc].
    destruct (lookup_lt_is_Some_2 slices j) as [sl Hsl]; [lia|].
    destruct (lookup_lt_is_Some_2 sel j) as [ixs Hixs]; [lia|].
    assert (Hn : Np.shape (dnpData.values o) !! j = Some (length c)).
    { rewrite <- Hshape, list_lookup_fmap, Hc. done. }
    assert (Hz : zip slices (Np.shape (dnpData.values o)) !! j
                 = Some (sl, length c)).
    { unfold zip. apply lookup_zip_with_Some. eauto. }
    pose proof (Forall2_lookup_lr _ _ _ _ _ _ Hsel2 Hz Hixs) as Hpos.
    simpl in Hpos. exists c, sl, ixs. repeat split; auto.
    subst slices. apply lookup_zip_with_Some in Hsl as (d & c' & -> & _ & _).
    destruct (slice_indices_ok (axis_slice index d (length c')) (length c)
                (axis_slice_step index d (length c') Hvalid))
      as (ixs' & Hixs' & Hbound).
    congruence. }
  exists sel,
    (dnpData.Obj (dnpData.version o)
       (Np.Array (map length sel)
                 (Np.select (Np.shape (dnpData.values o)) sel
                            (Np.data (dnpData.values o))))
       (zip_with at_positions (dnpData.coords o) sel)
       (dnpData.dims o) (dnpData.attrs o) (dnpData.proc_attrs o)).
  split; [eapply Forall2_impl; [exact Hsel2 | by intros [sl n] ixs]|].
  split; [|split; [|split; [|split; [|split; [|split]]]]]; cycle 1.
  - reflexivity.
  - reflexivity.
  - reflexivity.
  - reflexivity.
  - apply consistent_intro; simpl.
    + rewrite length_zip_with. lia.
    + apply list_eq. intros j. rewrite !list_lookup_fmap, lookup_zip_with.
      destruct (decide (j < length (dnpData.coords o))) as [Hj|Hj].
      * destruct (Hrows j Hj) as (c & sl & ixs & -> & _ & -> & _ & Hb).
        simpl. f_equal. by apply length_omap_lookup.
      * rewrite (lookup_ge_None_2 (dnpData.coords o)) by lia.
        rewrite (lookup_ge_None_2 sel) by lia. done.
  - intros Hwhole j Hj. unfold Np.entry. simpl.
    apply select_entry; [exact Hwhole| |exact Hj].
    apply Forall2_same_length_lookup_2; [unfold Np.ndim in *; lia|].
    intros i ixs n Hixs Hn.
    destruct (Hrows i) as (c & sl & ixs' & Hc & _ & Hixs' & _ & Hb).
    { apply lookup_lt_Some in Hixs. lia. }
    rewrite <- Hshape, list_lookup_fmap, Hc in Hn. injection Hn as <-.
    congruence.
  - unfold dnpData.__getitem__. rewrite Heven. simpl.
    rewrite (bind_ok _ _ _ _ _ (get_run self dnpData.dims w o Hself)).
    rewrite (bind_ok _ _ _ _ _ (get_run self dnpData.coords w o Hself)).
    assert (Hdrop : length (drop 0 (dnpData.coords o))
                    = length (dnpData.dims o)) by (rewrite drop_0; lia).
    rewrite (bind_lift_ok _ _ _ _
               (build_indices_spec index (dnpData.coords o) (dnpData.dims o) 0
                  Heven Hvalid Hdrop)).
    rewrite drop_0. fold slices.
    unfold dnpData.deepcopy.
    erewrite bind_ok
      by (unfold dnpData.read; rewrite Hself; reflexivity).
    unfold dnpData.values_getitem. rewrite comprehension_as_slice. simpl rbind.
    unfold Np.getitem_slices.
    destruct (Nat.ltb_spec (Np.ndim (dnpData.values o)) (length slices));
      [lia|].
    rewrite Hsel. simpl rbind.
    rewrite (bind_lift_ok _ _ _ _ eq_refl).
    simpl dnpData.coords.
    rewrite (slice_coords_spec slices sel (length (dnpData.coords o)) 0
               (dnpData.coords o) ltac:(lia)).
    + rewrite (bind_lift_ok _ _ _ _ eq_refl). unfold ret.
      rewrite !drop_0, take_0, app_nil_l.
      rewrite (drop_ge (Np.shape (dnpData.values o))), app_nil_r
        by (fold (Np.ndim (dnpData.values o)); lia).
      reflexivity.
    + intros j Hj. destruct (Hrows j ltac:(lia)) as (c & sl & ixs & ? & ? & ? & ? & _).
      eauto 10.
Qed.

End indexing.

(** What the three kinds of selector select on an axis of length [n]. *)
Lemma axis_slice_integer (index : list dnpData.token) (d : string)
    (n : nat) (k : Z) :
  paired_selector d index = Some (dnpData.Int k) ->
  (0 <= k < Z.of_nat n)%Z ->
  slice_indices (axis_slice index d n) n = Ok [Z.to_nat k].
Proof.
  intros Hp Hk. unfold axis_slice. rewrite Hp.
  destruct (Z.eqb_spec k (-1)); [lia|]. by apply slice_indices_single.
Qed.

Lemma axis_slice_minus_one (index : list dnpData.token) (d : string)
    (n : nat) :
  paired_selector d index = Some (dnpData.Int (-1)) ->
  0 < n ->
  slice_indices (axis_slice index d n) n = Ok [n - 1].
Proof.
  intros Hp Hn. unfold axis_slice. rewrite Hp. simpl.
  by apply slice_indices_last.
Qed.

Lemma axis_slice_unnamed (index : list dnpData.token) (d : string) (n : nat) :
  paired_selector d index = None ->
  slice_indices (axis_slice index d n) n = Ok (seq 0 n).
Proof.
  intros Hp. unfold axis_slice. rewrite Hp. apply slice_indices_full.
Qed.

Lemma at_positions_all {A} (c : list A) :
  at_positions c (seq 0 (length c)) = c.
Proof.
  unfold at_positions.
  rewrite <- (Nat.sub_0_r (length c)) at 1.
  by rewrite omap_lookup_seq, drop_0.
Qed.

Lemma at_positions_one {A} (c : list A) (k : nat) (x : A) :
  c !! k = Some x -> at_positions c [k] = [x].
Proof. intros Hk. unfold at_positions. cbn. by rewrite Hk. Qed.

Lemma getitem_reslices_witness :
  exists (sel : list (list nat)) (out : dnpData.t Z),
    Forall2 (fun sn ixs => slice_indices (fst sn) (snd sn) = Ok ixs)
            (zip (zip_with (fun d c => axis_slice
                                         [dnpData.Label "x"; dnpData.Int 1]
                                         d (length c))
                           (dnpData.dims sample_1d) (dnpData.coords sample_1d))
                 (Np.shape (dnpData.values sample_1d))) sel
    /\ dnpData.__getitem__ 0 [dnpData.Label "x"; dnpData.Int 1] sample_world
       = (Ok (Some out), sample_world)
    /\ dnpData.dims out = dnpData.dims sample_1d
    /\ dnpData.attrs out = dnpData.attrs sample_1d
    /\ dnpData.values out
       = Np.Array (map length sel)
                  (Np.select (Np.shape (dnpData.values sample_1d)) sel
                             (Np.data (dnpData.values sample_1d)))
    /\ dnpData.coords out = zip_with at_positions (dnpData.coords sample_1d) sel
    /\ dnpData.consistent out = true
    /\ (whole (dnpData.values sample_1d) ->
        forall j : list nat,
          Forall2 (fun k ixs => k < length ixs) j sel ->
          Np.entry (dnpData.values out) j
          = Np.entry (dnpData.values sample_1d)
                     (zip_with (fun ixs k => nth k ixs 0) sel j))
    /\ sel = [[1]]
    /\ dnpData.values out = Np.Array [1] [20]%Z
    /\ dnpData.coords out = [[1]%Z]
    /\ Np.entry (dnpData.values out) [0] = 20%Z.
Proof.
  destruct (getitem_reslices sample_world 0 sample_1d
              [dnpData.Label "x"; dnpData.Int 1] eq_refl eq_refl eq_refl
              ltac:(repeat constructor))
    as (sel & out & Hsel & Hrun & Hd & Ha & Hv & Hc & Hcons & Hentry).
  assert (Hs : sel = [[1]]).
  { inversion Hsel as [|sn ixs rest sel' Hix Hrest]; subst.
    inversion Hrest; subst. vm_compute in Hix. by injection Hix as <-. }
  exists sel, out.
  split; [exact Hsel|]. split; [exact Hrun|]. split; [exact Hd|].
  split; [exact Ha|]. split; [exact Hv|]. split; [exact Hc|].
  split; [exact Hcons|]. split; [exact Hentry|]. split; [exact Hs|].
  split; [by rewrite Hv, Hs|]. split; [by rewrite Hc, Hs|].
  rewrite (Hentry eq_refl [0]).
  - by rewrite Hs.
  - rewrite Hs. repeat constructor.
Defined.

(** The scenario of the specification: [A['x', 1]] on the array with
    [dims = ['x']], [coords = [[0, 1, 2, 3]]] and
    [values = [10, 20, 30, 40]]. *)
Example getitem_x_1_scenario :
  dnpData.__getitem__ 0 [dnpData.Label "x"; dnpData.Int 1] sample_world
  = (Ok (Some (dnpData.Obj "1.0" (Np.Array [1] [20]%Z) [[1]%Z] ["x"] ∅ [])),
     sample_world).
Proof. reflexivity. Qed.

Example getitem_last_scenario :
  dnpData.__getitem__ 0 [dnpData.Label "x"; dnpData.Int (-1)] sample_world
  = (Ok (Some (dnpData.Obj "1.0" (Np.Array [1] [40]%Z) [[3]%Z] ["x"] ∅ [])),
     sample_world).
Proof. reflexivity. Qed.

Example getitem_odd_tuple :
  dnpData.__getitem__ 0 [dnpData.Label "x"] sample_world
  = (Ok None, dnpData.World (dnpData.heap sample_world) ["invalid indexing"]).
Proof. reflexivity. Qed.

(** ** Sorting *)

Lemma insert_by_key_perm {A} (x : string * A) (l : list (string * A)) :
  insert_by_key x l ≡ₚ x :: l.
Proof.
  induction l as [|y l IH]; simpl; [done|].
  destruct (String.ltb (fst y) (fst x)); [|done].
  rewrite IH. apply Permutation_swap.
Qed.

Lemma sorted_by_key_perm {A} (l : list (string * A)) : sorted_by_key l ≡ₚ l.
Proof.
  induction l as [|x l IH]; simpl; [done|].
  rewrite insert_by_key_perm. by rewrite IH.
Qed.

Lemma argsort_perm (keys : list string) :
  argsort keys ≡ₚ seq 0 (length keys).
Proof.
  unfold argsort. rewrite sorted_by_key_perm.
  rewrite snd_zip; [done | by rewrite length_seq].
Qed.

Lemma argsort_length (keys : list string) :
  length (argsort keys) = length keys.
Proof. by rewrite argsort_perm, length_seq. Qed.

(** The keys of a sorted list do not depend on what is attached to them. *)
Lemma insert_by_key_keys {A B} (x : string * A) (y : string * B)
    (l : list (string * A)) (k : list (string * B)) :
  fst x = fst y -> map fst l = map fst k ->
  map fst (insert_by_key x l) = map fst (insert_by_key y k).
Proof.
  intros Hxy. revert k.
  induction l as [|a l IH]; intros [|b k] Hlk; try discriminate; simpl.
  - by rewrite Hxy.
  - injection Hlk as Hab Hlk. rewrite Hab, Hxy.
    destruct (String.ltb (fst b) (fst y)); simpl.
    + f_equal; auto.
    + by rewrite Hab, Hxy, Hlk.
Qed.

Lemma sorted_by_key_keys {A B} (l : list (string * A)) (k : list (string * B)) :
  map fst l = map fst k ->
  map fst (sorted_by_key l) = map fst (sorted_by_key k).
Proof.
  revert k. induction l as [|a l IH]; intros [|b k] Hlk; try discriminate;
    [done|].
  injection Hlk as Hab Hlk. simpl.
  apply insert_by_key_keys; auto.
Qed.

(** Reading the keys in the order of [argsort] gives the sorted keys. *)
Lemma argsort_keys (keys : list string) :
  comprehension (getitem keys) (argsort keys) = Ok (sorted keys).
Proof.
  apply comprehension_Forall2. unfold argsort, sorted.
  rewrite (sorted_by_key_keys (map (fun s => (s, tt)) keys)
             (zip keys (seq 0 (length keys)))).
  2: { rewrite fst_zip by (by rewrite length_seq).
       rewrite map_map. simpl. by rewrite map_id. }
  apply Forall2_fmap, Forall_Forall2_diag, Forall_forall.
  intros [s i] Hin. simpl.
  rewrite sorted_by_key_perm in Hin.
  apply list_elem_of_lookup in Hin as [j Hj].
  apply lookup_zip_with_Some in Hj as (s' & i' & [= <- <-] & Hs & Hi).
  apply lookup_seq in Hi as [-> _]. unfold getitem. simpl. by rewrite Hs.
Qed.

Lemma ltb_asym (a b : string) :
  String.ltb a b = true -> String.ltb b a = false.
Proof.
  unfold String.ltb. rewrite (String.compare_antisym a b).
  by destruct (String.compare b a).
Qed.

Lemma not_ltb_le (a b : string) : String.ltb b a = false -> label_le a b.
Proof.
  unfold label_le, String.leb, String.ltb.
  rewrite (String.compare_antisym b a).
  by destruct (String.compare a b).
Qed.

Lemma insert_by_key_sorted {A} (x : string * A) (l : list (string * A)) :
  Sorted label_le (map fst l) -> Sorted label_le (map fst (insert_by_key x l)).
Proof.
  induction l as [|y l IH]; simpl; intros Hs; [by repeat constructor|].
  apply Sorted_inv in Hs as [Hs Hhd].
  destruct (String.ltb (fst y) (fst x)) eqn:E; simpl.
  - constructor; [by apply IH|].
    destruct l as [|z l]; simpl.
    + constructor. apply not_ltb_le. by apply ltb_asym.
    + destruct (String.ltb (fst z) (fst x)); simpl.
      * constructor. by apply HdRel_inv in Hhd.
      * constructor. apply not_ltb_le. by apply ltb_asym.
  - constructor; [by constructor|]. constructor. by apply not_ltb_le.
Qed.

(** Sorted names are in order. *)
Lemma sorted_Sorted (keys : list string) : Sorted label_le (sorted keys).
Proof.
  unfold sorted. induction (map (fun s => (s, tt)) keys) as [|x l IH]; simpl.
  - constructor.
  - by apply insert_by_key_sorted.
Qed.

Lemma sorted_perm (keys : list string) : sorted keys ≡ₚ keys.
Proof.
  unfold sorted. rewrite sorted_by_key_perm, map_map. simpl.
  by rewrite map_id.
Qed.

(** ** Transposition and concatenation of buffers: shapes *)

Section shapes.
Context {T : Type} `{Numeric T}.

Lemma existsb_eqb_elem (x : nat) (l : list nat) :
  existsb (Nat.eqb x) l = true <-> x ∈ l.
Proof.
  rewrite existsb_exists. split.
  - intros (y & Hy & Heq). apply Nat.eqb_eq in Heq as ->.
    by apply list_elem_of_In.
  - intros Hx. exists x. split; [by apply list_elem_of_In|].
    apply Nat.eqb_refl.
Qed.

Lemma nodupb_NoDup (l : list nat) : Np.nodupb l = true <-> NoDup l.
Proof.
  induction l as [|x l IH]; simpl.
  - split; [constructor | done].
  - rewrite andb_true_iff, negb_true_iff, NoDup_cons, IH.
    rewrite <- existsb_eqb_elem.
    destruct (existsb (Nat.eqb x) l); split; intros [? ?]; split; auto;
      congruence.
Qed.

(** Distinct positions below [n], [n] of them, are all the positions. *)
Lemma bounded_NoDup_perm (p : list nat) (n : nat) :
  length p = n -> Forall (fun i => i < n) p -> NoDup p -> p ≡ₚ seq 0 n.
Proof.
  intros Hlen Hb Hnd. apply NoDup_Permutation_bis.
  - by apply NoDup_ListNoDup.
  - rewrite length_seq. lia.
  - intros i Hi. apply in_seq. rewrite Forall_forall in Hb.
    specialize (Hb i (proj2 (list_elem_of_In _ _) Hi)). lia.
Qed.

Lemma check_axes_inv (n : nat) (p : list nat) :
  Np.check_axes n p = Ok tt <->
  length p = n /\ Forall (fun i => i < n) p /\ NoDup p.
Proof.
  unfold Np.check_axes.
  destruct (Nat.eqb_spec (length p) n) as [Hl|Hl]; simpl.
  2: { split; [discriminate | tauto]. }
  destruct (forallb (fun ax => ax <? n) p) eqn:Hb; simpl.
  2: { split; [discriminate|]. intros (_ & Hall & _).
       assert (forallb (fun ax => ax <? n) p = true); [|congruence].
       apply forallb_forall. intros x Hx. apply Nat.ltb_lt.
       rewrite Forall_forall in Hall. apply Hall. by apply list_elem_of_In. }
  assert (Hall : Forall (fun i => i < n) p).
  { apply Forall_forall. intros x Hx. apply Nat.ltb_lt.
    rewrite forallb_forall in Hb. apply Hb. by apply list_elem_of_In. }
  destruct (Np.nodupb p) eqn:Hnd; simpl.
  - apply nodupb_NoDup in Hnd. tauto.
  - split; [discriminate|]. intros (_ & _ & Hnd').
    apply nodupb_NoDup in Hnd'. congruence.
Qed.

Lemma transpose_inv (a v : Np.ndarray T) (p : list nat) :
  Np.transpose a p = Ok v ->
  p ≡ₚ seq 0 (Np.ndim a)
  /\ NoDup p
  /\ Np.shape v = map (fun ax => nth ax (Np.shape a) 0) p.
Proof.
  unfold Np.transpose.
  destruct (Np.check_axes (Np.ndim a) p) as [[]|e] eqn:Hc; [|discriminate].
  simpl. intros [= <-]. apply check_axes_inv in Hc as (Hl & Hb & Hnd).
  split; [by apply bounded_NoDup_perm|]. auto.
Qed.

Lemma transpose_total (a : Np.ndarray T) (p : list nat) :
  p ≡ₚ seq 0 (Np.ndim a) -> exists v, Np.transpose a p = Ok v.
Proof.
  intros Hp. unfold Np.transpose.
  assert (Hc : Np.check_axes (Np.ndim a) p = Ok tt).
  { apply check_axes_inv. split; [|split].
    - by rewrite Hp, length_seq.
    - rewrite Hp. apply Forall_forall. intros i Hi.
      apply list_elem_of_In, in_seq in Hi. lia.
    - rewrite Hp. apply NoDup_seq. }
  rewrite Hc. simpl. eauto.
Qed.

Lemma concatenate_inv (a b v : Np.ndarray T) (ix : nat) :
  Np.concatenate a b ix = Ok v ->
  ix < Np.ndim a /\ Np.ndim b = Np.ndim a
  /\ delete ix (Np.shape a) = delete ix (Np.shape b)
  /\ Np.shape v = alter (fun n => n + nth ix (Np.shape b) 0) ix (Np.shape a).
Proof.
  unfold Np.concatenate.
  destruct ((Np.ndim a =? 0) || (Np.ndim b =? 0)); [discriminate|].
  destruct (Nat.ltb_spec ix (Np.ndim a)); [|discriminate]. simpl.
  destruct (Nat.eqb_spec (Np.ndim b) (Np.ndim a)); [|discriminate]. simpl.
  destruct (bool_decide_reflect
              (delete ix (Np.shape a) = delete ix (Np.shape b)));
    [|discriminate].
  simpl. intros [= <-]. auto.
Qed.

End shapes.

(** ** Axes taken in another order *)

Section axes.
Context {T : Type} `{Numeric T}.
Implicit Types (w : dnpData.world T) (o : dnpData.t T).

Lemma getitem_inv {A} (xs : list A) (i : nat) (x : A) :
  getitem xs i = Ok x <-> xs !! i = Some x.
Proof.
  unfold getitem, raise.
  destruct (xs !! i); split; intros Heq; inversion Heq; reflexivity.
Qed.

Lemma comprehension_getitem {A} (xs ys : list A) (p : list nat) :
  comprehension (getitem xs) p = Ok ys ->
  ys = omap (fun i => xs !! i) p /\ length ys = length p
  /\ forall j i, p !! j = Some i -> ys !! j = xs !! i /\ is_Some (xs !! i).
Proof.
  intros Hc. pose proof (comprehension_length _ _ _ Hc) as Hlen.
  apply comprehension_Forall2 in Hc.
  split; [|split; [done|]].
  - clear Hlen. induction Hc as [|i y p ys Hy _ IH]; [done|].
    apply getitem_inv in Hy. cbn. rewrite Hy. cbn. by f_equal.
  - intros j i Hj.
    destruct (Forall2_lookup_l _ _ _ _ _ Hc Hj) as (y & Hy & Hget).
    apply getitem_inv in Hget. rewrite Hy, Hget. eauto.
Qed.

Lemma find_index_NoDup (xs : list string) (i : nat) (x : string) :
  NoDup xs -> xs !! i = Some x -> find_index x xs = Some i.
Proof.
  intros Hnd Hi.
  destruct (find_index_some x xs) as [j Hj].
  { apply list_elem_of_lookup. eauto. }
  rewrite Hj. f_equal.
  apply find_index_lookup in Hj.
  by eapply NoDup_lookup.
Qed.

Lemma permuted_perm (p : list nat) o o' :
  permuted p o o' -> p ≡ₚ seq 0 (Np.ndim (dnpData.values o)) /\ NoDup p.
Proof.
  intros (_ & _ & Ht & _). apply transpose_inv in Ht. tauto.
Qed.

Lemma permuted_lengths (p : list nat) o o' :
  permuted p o o' ->
  length (dnpData.dims o') = length p
  /\ length (dnpData.coords o') = length p
  /\ Np.ndim (dnpData.values o') = length p
  /\ length p = Np.ndim (dnpData.values o).
Proof.
  intros (Hd & Hc & Ht & _).
  apply comprehension_getitem in Hd as (_ & Hd & _).
  apply comprehension_getitem in Hc as (_ & Hc & _).
  apply transpose_inv in Ht as (Hp & _ & Hs).
  repeat split; auto.
  - unfold Np.ndim. by rewrite Hs, length_map.
  - by rewrite Hp, length_seq.
Qed.

Lemma permuted_lookup (p : list nat) o o' (j i : nat) :
  permuted p o o' -> p !! j = Some i ->
  dnpData.dims o' !! j = dnpData.dims o !! i
  /\ dnpData.coords o' !! j = dnpData.coords o !! i
  /\ Np.shape (dnpData.values o') !! j = Np.shape (dnpData.values o) !! i
  /\ is_Some (dnpData.dims o !! i)
  /\ is_Some (dnpData.coords o !! i)
  /\ is_Some (Np.shape (dnpData.values o) !! i).
Proof.
  intros (Hd & Hc & Ht & _) Hj.
  apply comprehension_getitem in Hd as (_ & _ & Hd).
  apply comprehension_getitem in Hc as (_ & _ & Hc).
  apply transpose_inv in Ht as (Hp & _ & Hs).
  destruct (Hd j i Hj) as [Hd1 Hd2]. destruct (Hc j i Hj) as [Hc1 Hc2].
  assert (Hi : i < Np.ndim (dnpData.values o)).
  { assert (Hin : i ∈ p) by (apply list_elem_of_lookup; eauto).
    rewrite Hp in Hin. apply list_elem_of_In, in_seq in Hin. lia. }
  destruct (lookup_lt_is_Some_2 (Np.shape (dnpData.values o)) i Hi)
    as [n Hn].
  repeat split; eauto.
  rewrite Hs, list_lookup_fmap, Hj, Hn. simpl. f_equal.
  by apply nth_lookup_Some.
Qed.

(** A dimension keeps its length and its coordinate vector. *)
Lemma permuted_axis (p : list nat) o o' (k : string) (j : nat) :
  permuted p o o' -> NoDup (dnpData.dims o) ->
  find_index k (dnpData.dims o') = Some j ->
  exists i, p !! j = Some i
    /\ find_index k (dnpData.dims o) = Some i
    /\ axis_len o' k = axis_len o k
    /\ axis_coords o' k = axis_coords o k
    /\ is_Some (axis_len o k) /\ is_Some (axis_coords o k).
Proof.
  intros Hperm Hnd Hj.
  pose proof (permuted_lengths p o o' Hperm) as (Hld & _).
  pose proof (find_index_lookup _ _ _ Hj) as Hk.
  destruct (lookup_lt_is_Some_2 p j) as [i Hi].
  { rewrite <- Hld. by eapply lookup_lt_Some. }
  destruct (permuted_lookup p o o' j i Hperm Hi)
    as (Hd & Hc & Hs & _ & Hc2 & Hs2).
  rewrite Hk in Hd. symmetry in Hd.
  pose proof (find_index_NoDup _ _ _ Hnd Hd) as Hfi.
  exists i. unfold axis_len, axis_coords. rewrite Hj, Hfi. auto 10.
Qed.

Lemma permuted_dims_perm (p : list nat) o o' :
  permuted p o o' -> length (dnpData.dims o) = length p ->
  dnpData.dims o' ≡ₚ dnpData.dims o.
Proof.
  intros Hperm Hlen.
  destruct (permuted_perm p o o' Hperm) as [Hp _].
  destruct (permuted_lengths p o o' Hperm) as (_ & _ & _ & Hn).
  destruct Hperm as (Hd & _).
  apply comprehension_getitem in Hd as (-> & _).
  rewrite Hp, <- Hn, <- Hlen.
  change (at_positions (dnpData.dims o) (seq 0 (length (dnpData.dims o)))
          ≡ₚ dnpData.dims o).
  by rewrite at_positions_all.
Qed.

End axes.

(** ** Stepping through a successful run *)

Lemma bind_inv {W A B} (m : M W A) (k : A -> M W B) (w w' : W) (b : B) :
  bind m k w = (Ok b, w') ->
  exists a w1, m w = (Ok a, w1) /\ k a w1 = (Ok b, w').
Proof.
  unfold bind. destruct (m w) as [[a|e] w1]; [eauto | discriminate].
Qed.

Ltac heap_lookup :=
  first [ eassumption
        | apply heap_upd_eq
        | rewrite heap_upd_ne by congruence; heap_lookup ].

(** One statement of a run that is known to end well. *)
Ltac mstep Hrun :=
  lazymatch type of Hrun with
  | bind (dnpData.get ?l ?f) ?k ?w = _ =>
      erewrite (bind_ok (dnpData.get l f) k w) in Hrun
        by (apply get_run; heap_lookup)
  | bind (dnpData.set_values ?l ?v) ?k ?w = _ =>
      erewrite (bind_ok (dnpData.set_values l v) k w) in Hrun
        by (apply set_values_run; heap_lookup)
  | bind (dnpData.set_coords ?l ?v) ?k ?w = _ =>
      erewrite (bind_ok (dnpData.set_coords l v) k w) in Hrun
        by (apply set_coords_run; heap_lookup)
  | bind (dnpData.set_dims ?l ?v) ?k ?w = _ =>
      erewrite (bind_ok (dnpData.set_dims l v) k w) in Hrun
        by (apply set_dims_run; heap_lookup)
  | bind (lift (Ok ?a)) ?k ?w = _ =>
      change (bind (lift (Ok a)) k w) with (k a w) in Hrun
  | bind (lift (Raise ?e)) ?k ?w = _ =>
      change (bind (lift (Raise e)) k w) with (@Raise unit e, w) in Hrun;
      discriminate Hrun
  | bind (lift ?r) ?k ?w = _ =>
      let E := fresh "E" in destruct r eqn:E
  end; cbv beta in Hrun.

Section mutation.
Context {T : Type} `{Numeric T}.
Implicit Types (w : dnpData.world T) (o : dnpData.t T) (self : dnpData.loc).

(** A successful [sort] leaves the object with its axes in the order of
    its sorted names. *)
Lemma sort_inv w w' self o :
  dnpData.heap w !! self = Some o ->
  dnpData.sort self w = (Ok tt, w') ->
  exists o', permuted (argsort (dnpData.dims o)) o o' /\ w' = upd self o' w.
Proof.
  intros Hself Hrun. unfold dnpData.sort in Hrun.
  do 3 mstep Hrun; [|mstep Hrun].
  do 4 mstep Hrun; [|mstep Hrun].
  do 4 mstep Hrun; [|mstep Hrun].
  mstep Hrun.
  erewrite set_values_run in Hrun by heap_lookup.
  injection Hrun as <-. rewrite !upd_upd.
  eexists. split; [|reflexivity]. simpl.
  repeat split; assumption.
Qed.

Lemma contains_elem (x : string) (xs : list string) :
  contains x xs = true <-> x ∈ xs.
Proof.
  unfold contains. rewrite existsb_exists. split.
  - intros (y & Hy & Heq). apply String.eqb_eq in Heq as ->.
    by apply list_elem_of_In.
  - intros Hx. exists x. split; [by apply list_elem_of_In|].
    apply String.eqb_refl.
Qed.

Lemma first_missing_none (labels self_dims : list string) :
  (forall x, x ∈ labels -> x ∈ self_dims) ->
  dnpData.first_missing labels self_dims = None.
Proof.
  intros Hall. unfold dnpData.first_missing.
  destruct (List.find _ labels) as [x|] eqn:Hfind; [|done].
  apply find_some in Hfind as [Hin Hneg].
  apply negb_true_iff in Hneg.
  assert (contains x self_dims = true); [|congruence].
  apply contains_elem, Hall. by apply list_elem_of_In.
Qed.

Lemma append_missing_id (labels self_dims : list string) :
  (forall x, x ∈ self_dims -> x ∈ labels) ->
  dnpData.append_missing labels self_dims = labels.
Proof.
  unfold dnpData.append_missing.
  induction self_dims as [|d ds IH]; intros Hall; simpl; [done|].
  assert (Hd : contains d labels = true).
  { apply contains_elem, Hall. left. }
  rewrite Hd. apply IH. intros x Hx. apply Hall. by right.
Qed.

(** A successful [reorder] with the names of all the axes leaves the
    object with its axes in the order asked for. *)
Lemma reorder_list_inv w w' self o (labels : list string) :
  dnpData.heap w !! self = Some o ->
  (forall x, x ∈ labels <-> x ∈ dnpData.dims o) ->
  dnpData.reorder_list self labels w = (Ok tt, w') ->
  exists q o',
    comprehension (Py.index (dnpData.dims o)) labels = Ok q
    /\ permuted q o o' /\ w' = upd self o' w.
Proof.
  intros Hself Hsame Hrun. unfold dnpData.reorder_list in Hrun.
  mstep Hrun.
  match type of Hrun with
  | bind ?m ?k ?w = _ =>
      assert (Hchk : m = ret (Some labels));
        [|rewrite Hchk in Hrun;
          change (bind (ret (Some labels)) k w) with (k (Some labels) w) in Hrun]
  end.
  { destruct (bool_decide _); [|done].
    rewrite first_missing_none by (intros x; apply Hsame).
    rewrite append_missing_id by (intros x; apply Hsame). done. }
  cbv beta iota in Hrun.
  do 2 mstep Hrun; [|mstep Hrun].
  do 3 mstep Hrun; [|mstep Hrun].
  do 4 mstep Hrun; [|mstep Hrun].
  do 4 mstep Hrun; [|mstep Hrun].
  mstep Hrun.
  erewrite set_values_run in Hrun by heap_lookup.
  injection Hrun as <-. rewrite !upd_upd.
  eexists _, _. split; [reflexivity|]. split; [|reflexivity]. simpl.
  repeat split; assumption.
Qed.

Lemma same_axes_refl o : same_axes o o.
Proof. split; [done | auto]. Qed.

Lemma same_axes_trans o o1 o2 :
  same_axes o o1 -> same_axes o1 o2 -> same_axes o o2.
Proof.
  intros [Hp1 Hk1] [Hp2 Hk2]. split; [by rewrite Hp2|].
  intros Hnd k.
  assert (Hnd1 : NoDup (dnpData.dims o1)) by (by rewrite Hp1).
  destruct (Hk1 Hnd k) as [<- <-]. by apply Hk2.
Qed.

Lemma permuted_same_axes (p : list nat) o o' :
  permuted p o o' -> length (dnpData.dims o) = length p -> same_axes o o'.
Proof.
  intros Hperm Hlen.
  pose proof (permuted_dims_perm p o o' Hperm Hlen) as Hdims.
  split; [done|]. intros Hnd k.
  destruct (find_index k (dnpData.dims o')) as [j|] eqn:Hj.
  - destruct (permuted_axis p o o' k j Hperm Hnd Hj) as (i & _ & _ & ? & ? & _).
    done.
  - unfold axis_len, axis_coords. rewrite Hj.
    apply find_index_none in Hj. rewrite Hdims in Hj.
    apply find_index_none in Hj. by rewrite Hj.
Qed.

(** [sort] keeps every object of the heap, with its axes. *)
Lemma sort_world w w' self o :
  dnpData.heap w !! self = Some o ->
  dnpData.sort self w = (Ok tt, w') ->
  forall l2 o2, dnpData.heap w !! l2 = Some o2 ->
    exists o2', dnpData.heap w' !! l2 = Some o2' /\ same_axes o2 o2'.
Proof.
  intros Hself Hrun l2 o2 Hl2.
  destruct (sort_inv w w' self o Hself Hrun) as (o' & Hperm & ->).
  destruct (decide (self = l2)) as [<-|Hne].
  - exists o'. split; [apply heap_upd_eq|].
    assert (o2 = o) as -> by congruence.
    apply (permuted_same_axes _ _ _ Hperm). by rewrite argsort_length.
  - exists o2. split; [by rewrite heap_upd_ne | apply same_axes_refl].
Qed.

Lemma len_run w self o (k : string) (n : nat) :
  dnpData.heap w !! self = Some o -> axis_len o k = Some n ->
  dnpData.len self k w = (Ok n, w).
Proof.
  intros Hself Hn. unfold axis_len in Hn. unfold dnpData.len.
  rewrite (bind_ok _ _ _ _ _ (get_run self dnpData.dims w o Hself)).
  unfold index. destruct (find_index k (dnpData.dims o)) as [i|]; [|done].
  rewrite (bind_lift_ok _ _ _ _ eq_refl).
  rewrite (bind_ok _ _ _ _ _ (get_run self dnpData.values w o Hself)).
  unfold lift, getitem. by rewrite Hn.
Qed.

Lemma getAxes_run w self o (k : string) (c : list T) :
  dnpData.heap w !! self = Some o -> axis_coords o k = Some c ->
  dnpData.getAxes self k w = (Ok c, w).
Proof.
  intros Hself Hc. unfold axis_coords in Hc. unfold dnpData.getAxes.
  rewrite (bind_ok _ _ _ _ _ (get_run self dnpData.dims w o Hself)).
  unfold index. destruct (find_index k (dnpData.dims o)) as [i|]; [|done].
  rewrite (bind_lift_ok _ _ _ _ eq_refl).
  rewrite (bind_ok _ _ _ _ _ (get_run self dnpData.coords w o Hself)).
  unfold lift, getitem. by rewrite Hc.
Qed.

(** The run of a successful concatenation, statement by statement. *)
Lemma concatenateAlong_inv w w' (a b : dnpData.loc) A0 B0 (d : string) :
  dnpData.heap w !! a = Some A0 ->
  dnpData.heap w !! b = Some B0 ->
  dnpData.concatenateAlong a b d w = (Ok tt, w') ->
  exists w1 w2 SA SB ix v c1 c2 q A3,
    dnpData.sort a w = (Ok tt, w1)
    /\ dnpData.sort b w1 = (Ok tt, w2)
    /\ dnpData.heap w2 !! a = Some SA
    /\ dnpData.heap w2 !! b = Some SB
    /\ same_axes A0 SA /\ same_axes B0 SB
    /\ dnpData.dims SA = dnpData.dims SB
    /\ find_index d (dnpData.dims SA) = Some ix
    /\ Np.concatenate (dnpData.values SA) (dnpData.values SB) ix = Ok v
    /\ dnpData.coords SA !! ix = Some c1
    /\ dnpData.coords SB !! ix = Some c2
    /\ comprehension (Py.index (dnpData.dims SA)) (dnpData.dims A0) = Ok q
    /\ permuted q
         (dnpData.with_coords (<[ix := c1 ++ c2]> (dnpData.coords SA))
                              (dnpData.with_values v SA)) A3
    /\ w' = upd a A3 w2.
Proof.
  intros Ha Hb Hrun. unfold dnpData.concatenateAlong in Hrun.
  mstep Hrun.
  apply bind_inv in Hrun as ([] & w1 & Hs1 & Hrun).
  destruct (sort_world w w1 a A0 Ha Hs1 a A0 Ha) as (A1 & Ha1 & HA1).
  destruct (sort_world w w1 a A0 Ha Hs1 b B0 Hb) as (B1 & Hb1 & HB1).
  apply bind_inv in Hrun as ([] & w2 & Hs2 & Hrun).
  destruct (sort_world w1 w2 b B1 Hb1 Hs2 a A1 Ha1) as (SA & Ha2 & HA2).
  destruct (sort_world w1 w2 b B1 Hb1 Hs2 b B1 Hb1) as (SB & Hb2 & HB2).
  do 2 mstep Hrun.
  destruct (bool_decide_reflect (dnpData.dims SA <> dnpData.dims SB))
    as [Hne|Heq]; [discriminate|].
  apply dec_stable in Heq.
  mstep Hrun. unfold index at 1 in Hrun.
  destruct (find_index d (dnpData.dims SA)) as [ix|] eqn:Hix;
    [|discriminate].
  do 3 mstep Hrun.
  destruct (Np.concatenate (dnpData.values SA) (dnpData.values SB) ix)
    as [n|e] eqn:Hv; [|mstep Hrun].
  do 3 mstep Hrun. simpl dnpData.coords in Hrun.
  unfold getitem at 1 in Hrun.
  destruct (dnpData.coords SA !! ix) as [c1|] eqn:Hc1; [|discriminate].
  mstep Hrun.
  assert (Hb3 : dnpData.heap (upd a (dnpData.with_values n SA) w2) !! b
                = Some (if decide (a = b) then dnpData.with_values n SA
                        else SB)).
  { destruct (decide (a = b)) as [->|Hab]; [apply heap_upd_eq|].
    by rewrite heap_upd_ne. }
  mstep Hrun.
  assert (Hcb : dnpData.coords (if decide (a = b)
                                then dnpData.with_values n SA else SB)
                = dnpData.coords SB).
  { destruct (decide (a = b)) as [->|Hab]; [|done].
    simpl. congruence. }
  rewrite Hcb in Hrun. unfold getitem at 1 in Hrun.
  destruct (dnpData.coords SB !! ix) as [c2|] eqn:Hc2; [|discriminate].
  do 2 mstep Hrun. simpl dnpData.coords in Hrun.
  unfold setitem in Hrun.
  destruct (decide (ix < length (dnpData.coords SA))); [|discriminate].
  do 2 mstep Hrun. rewrite upd_upd in Hrun.
  unfold dnpData.reorder in Hrun.
  eapply reorder_list_inv in Hrun as (q & A3 & Hq & Hperm & ->);
    [| apply heap_upd_eq |].
  - rewrite upd_upd. simpl in Hq.
    exists w1, w2, SA, SB, ix, n, c1, c2, q, A3.
    exact (conj Hs1 (conj Hs2 (conj Ha2 (conj Hb2
            (conj (same_axes_trans _ _ _ HA1 HA2)
            (conj (same_axes_trans _ _ _ HB1 HB2)
            (conj Heq (conj Hix (conj Hv (conj Hc1 (conj Hc2
            (conj Hq (conj Hperm eq_refl))))))))))))).
  - intros x. simpl.
    destruct (same_axes_trans _ _ _ HA1 HA2) as [Hp _]. by rewrite Hp.
Qed.

(** Positions looked up for a list of names: distinct positions come from
    distinct names, and reading the names back at these positions gives the
    list itself. *)
Lemma positions_NoDup (ds labels : list string) (q : list nat) :
  comprehension (Py.index ds) labels = Ok q -> NoDup q -> NoDup labels.
Proof.
  intros Hq. apply comprehension_Forall2 in Hq.
  induction Hq as [|k i labels q Hk Hq IH]; intros Hnd; [constructor|].
  apply NoDup_cons in Hnd as [Hi Hnd]. apply NoDup_cons. split; [|auto].
  intros Hin. apply Hi.
  apply list_elem_of_lookup in Hin as [j Hj].
  destruct (Forall2_lookup_l _ _ _ _ _ Hq Hj) as (i' & Hi' & Hk').
  assert (i' = i) as -> by congruence.
  apply list_elem_of_lookup. eauto.
Qed.

Lemma positions_read_back (ds labels ds' : list string) (q : list nat) :
  comprehension (Py.index ds) labels = Ok q ->
  comprehension (getitem ds) q = Ok ds' -> ds' = labels.
Proof.
  intros Hq Hd. apply comprehension_Forall2 in Hq, Hd.
  revert ds' Hd. induction Hq as [|k i labels q Hk Hq IH]; intros ds' Hd.
  - by inversion Hd.
  - inversion Hd as [|? x ? xs Hx Hxs]; subst. f_equal; [|by apply IH].
    apply getitem_inv in Hx. unfold index in Hk.
    destruct (find_index k ds) as [i'|] eqn:Hfi; [|discriminate].
    injection Hk as ->. apply find_index_lookup in Hfi. congruence.
Qed.

Lemma positions_lookup (ds labels : list string) (q : list nat)
    (j : nat) (k : string) :
  comprehension (Py.index ds) labels = Ok q -> labels !! j = Some k ->
  exists i, q !! j = Some i /\ find_index k ds = Some i.
Proof.
  intros Hq Hj. apply comprehension_Forall2 in Hq.
  destruct (Forall2_lookup_l _ _ _ _ _ Hq Hj) as (i & Hi & Hk).
  exists i. split; [done|]. unfold index in Hk.
  by destruct (find_index k ds); [injection Hk as ->|].
Qed.

(** The axes of the receiver once the buffers are joined along the axis at
    [ix] and the order [q] of the names of [A0] is put back. *)
Lemma concat_axes A0 B0 SA SB A3 (d : string) (ix : nat)
    (v : Np.ndarray T) (c1 c2 : list T) (q : list nat) :
  same_axes A0 SA -> same_axes B0 SB ->
  dnpData.dims SA = dnpData.dims SB ->
  find_index d (dnpData.dims SA) = Some ix ->
  Np.concatenate (dnpData.values SA) (dnpData.values SB) ix = Ok v ->
  dnpData.coords SA !! ix = Some c1 ->
  dnpData.coords SB !! ix = Some c2 ->
  comprehension (Py.index (dnpData.dims SA)) (dnpData.dims A0) = Ok q ->
  permuted q (dnpData.with_coords (<[ix := c1 ++ c2]> (dnpData.coords SA))
                                  (dnpData.with_values v SA)) A3 ->
  dnpData.dims A3 = dnpData.dims A0
  /\ (exists nA nB, axis_len A0 d = Some nA /\ axis_len B0 d = Some nB
                    /\ axis_len A3 d = Some (nA + nB))
  /\ (axis_coords A0 d = Some c1 /\ axis_coords B0 d = Some c2
      /\ axis_coords A3 d = Some (c1 ++ c2))
  /\ (forall k, k ∈ dnpData.dims A0 -> k <> d ->
        exists n, axis_len A0 k = Some n /\ axis_len A3 k = Some n).
Proof.
  intros [HpA HkA] [HpB HkB] Hdims Hix Hv Hc1 Hc2 Hq Hperm.
  set (A2 := dnpData.with_coords (<[ix := c1 ++ c2]> (dnpData.coords SA))
                                 (dnpData.with_values v SA)) in *.
  destruct (permuted_perm q A2 A3 Hperm) as [_ Hndq].
  assert (HndA : NoDup (dnpData.dims A0)) by (by eapply positions_NoDup).
  assert (HndS : NoDup (dnpData.dims SA)) by (by rewrite HpA).
  assert (HndB : NoDup (dnpData.dims B0)) by (by rewrite <- HpB, <- Hdims).
  assert (Hd3 : dnpData.dims A3 = dnpData.dims A0).
  { destruct Hperm as (Hd & _). by eapply positions_read_back. }
  destruct (concatenate_inv _ _ _ _ Hv) as (Hlt & Hnd & _ & Hshape).
  assert (Hkeep : forall k, k ∈ dnpData.dims A0 ->
            axis_len A3 k = axis_len A2 k
            /\ axis_coords A3 k = axis_coords A2 k
            /\ is_Some (axis_len A2 k) /\ is_Some (axis_coords A2 k)).
  { intros k Hk. destruct (find_index_some _ _ Hk) as [j Hj].
    rewrite <- Hd3 in Hj.
    destruct (permuted_axis q A2 A3 k j Hperm HndS Hj)
      as (i & _ & _ & ? & ? & ? & ?). auto. }
  assert (Hd : d ∈ dnpData.dims A0).
  { rewrite <- HpA. apply find_index_lookup in Hix.
    apply list_elem_of_lookup. eauto. }
  destruct (lookup_lt_is_Some_2 (Np.shape (dnpData.values SA)) ix Hlt)
    as [nA HnA].
  destruct (lookup_lt_is_Some_2 (Np.shape (dnpData.values SB)) ix)
    as [nB HnB]; [unfold Np.ndim in *; lia|].
  assert (HlenSA : axis_len SA d = Some nA)
    by (unfold axis_len; by rewrite Hix).
  assert (HlenSB : axis_len SB d = Some nB)
    by (unfold axis_len; by rewrite <- Hdims, Hix).
  assert (HcSA : axis_coords SA d = Some c1)
    by (unfold axis_coords; by rewrite Hix).
  assert (HcSB : axis_coords SB d = Some c2)
    by (unfold axis_coords; by rewrite <- Hdims, Hix).
  destruct (HkA HndA d) as [HlA HcA]. destruct (HkB HndB d) as [HlB HcB].
  split; [done|]. split; [|split].
  - exists nA, nB. split; [congruence|]. split; [congruence|].
    destruct (Hkeep d Hd) as (-> & _). unfold axis_len. simpl.
    rewrite Hix, Hshape, list_lookup_alter_eq, HnA. simpl.
    by rewrite (nth_lookup_Some _ _ _ _ HnB).
  - split; [congruence|]. split; [congruence|].
    destruct (Hkeep d Hd) as (_ & -> & _). unfold axis_coords. simpl.
    rewrite Hix. apply list_lookup_insert_eq. by eapply lookup_lt_Some.
  - intros k Hk Hne.
    destruct (Hkeep k Hk) as (Hl3 & _ & [n Hn] & _).
    exists n. rewrite Hl3. split; [|done].
    destruct (HkA HndA k) as [<- _]. rewrite <- Hn.
    unfold axis_len. simpl.
    destruct (find_index k (dnpData.dims SA)) as [i|] eqn:Hi; [|done].
    rewrite Hshape. symmetry. apply list_lookup_alter_ne.
    intros ->. apply find_index_lookup in Hi, Hix. congruence.
Qed.

Lemma permuted_sorted_dims o o' :
  permuted (argsort (dnpData.dims o)) o o' ->
  dnpData.dims o' = sorted (dnpData.dims o).
Proof.
  intros (Hd & _). rewrite argsort_keys in Hd. congruence.
Qed.

(** On a consistent array [sort] succeeds. *)
Lemma sort_total w self o :
  dnpData.heap w !! self = Some o ->
  dnpData.consistent o = true ->
  exists o', dnpData.sort self w = (Ok tt, upd self o' w)
    /\ permuted (argsort (dnpData.dims o)) o o'.
Proof.
  intros Hself Hcons.
  destruct (consistent_inv o Hcons) as (Hdc & Hcn & _).
  assert (Hbound : Forall (fun i => i < length (dnpData.dims o))
                          (argsort (dnpData.dims o))).
  { rewrite argsort_perm. apply Forall_forall. intros i Hi.
    apply list_elem_of_In, in_seq in Hi. lia. }
  destruct (comprehension_total (getitem (dnpData.coords o))
              (argsort (dnpData.dims o))) as [c Hc].
  { eapply Forall_impl; [exact Hbound|]. intros i Hi. simpl in Hi.
    destruct (lookup_lt_is_Some_2 (dnpData.coords o) i) as [x Hx]; [lia|].
    exists x. by apply getitem_inv. }
  destruct (transpose_total (dnpData.values o) (argsort (dnpData.dims o)))
    as [v Hv].
  { rewrite argsort_perm. by rewrite Hdc, Hcn. }
  exists (dnpData.Obj (dnpData.version o) v c (sorted (dnpData.dims o))
                      (dnpData.attrs o) (dnpData.proc_attrs o)).
  split.
  - unfold dnpData.sort.
    rewrite (bind_ok _ _ _ _ _ (get_run self dnpData.dims w o Hself)).
    rewrite (bind_ok _ _ _ _ _ (get_run self dnpData.coords w o Hself)).
    rewrite (bind_lift_ok _ _ _ _ Hc).
    rewrite (bind_ok _ _ _ _ _ (set_coords_run self c w o Hself)).
    rewrite (bind_ok _ _ _ _ _
               (get_run self dnpData.dims _ _ (heap_upd_eq _ _ _))).
    simpl dnpData.dims.
    rewrite (bind_lift_ok _ _ _ _ (argsort_keys (dnpData.dims o))).
    rewrite (bind_ok _ _ _ _ _
               (set_dims_run self _ _ _ (heap_upd_eq _ _ _))).
    rewrite upd_upd.
    rewrite (bind_ok _ _ _ _ _
               (get_run self dnpData.values _ _ (heap_upd_eq _ _ _))).
    simpl dnpData.values. rewrite (bind_lift_ok _ _ _ _ Hv).
    rewrite (set_values_run self v _ _ (heap_upd_eq _ _ _)).
    by rewrite upd_upd.
  - repeat split; simpl; auto. apply argsort_keys.
Qed.

(** The two operands after the two calls of [sort], when they are
    different objects. *)
Lemma sorted_operands w w1 w2 (a b : dnpData.loc) A0 B0 SA SB :
  a <> b ->
  dnpData.heap w !! a = Some A0 ->
  dnpData.heap w !! b = Some B0 ->
  dnpData.sort a w = (Ok tt, w1) ->
  dnpData.sort b w1 = (Ok tt, w2) ->
  dnpData.heap w2 !! a = Some SA ->
  dnpData.heap w2 !! b = Some SB ->
  permuted (argsort (dnpData.dims A0)) A0 SA
  /\ permuted (argsort (dnpData.dims B0)) B0 SB
  /\ w2 = upd b SB (upd a SA w).
Proof.
  intros Hab Ha Hb Hs1 Hs2 Ha2 Hb2.
  destruct (sort_inv w w1 a A0 Ha Hs1) as (A1 & HpA & ->).
  assert (Hb1 : dnpData.heap (upd a A1 w) !! b = Some B0)
    by (by rewrite heap_upd_ne).
  destruct (sort_inv _ w2 b B0 Hb1 Hs2) as (B1 & HpB & ->).
  rewrite heap_upd_eq in Hb2. injection Hb2 as <-.
  rewrite heap_upd_ne, heap_upd_eq in Ha2 by done. injection Ha2 as <-.
  auto.
Qed.

(** Operands whose sorted names differ: [ValueError], with both operands
    left sorted. *)
Lemma concatenate_mismatch w (a b : dnpData.loc) A0 B0 (d : string) :
  dnpData.heap w !! a = Some A0 ->
  dnpData.heap w !! b = Some B0 ->
  dnpData.consistent A0 = true ->
  dnpData.consistent B0 = true ->
  sorted (dnpData.dims A0) <> sorted (dnpData.dims B0) ->
  exists SA SB,
    permuted (argsort (dnpData.dims A0)) A0 SA
    /\ permuted (argsort (dnpData.dims B0)) B0 SB
    /\ dnpData.concatenateAlong a b d w
       = (Raise (Exn ValueError "dims do not match"), upd b SB (upd a SA w)).
Proof.
  intros Ha Hb HcA HcB Hne.
  assert (Hab : a <> b) by (intros ->; apply Hne; congruence).
  destruct (sort_total w a A0 Ha HcA) as (SA & Hs1 & HpA).
  assert (Hb1 : dnpData.heap (upd a SA w) !! b = Some B0)
    by (by rewrite heap_upd_ne).
  destruct (sort_total _ b B0 Hb1 HcB) as (SB & Hs2 & HpB).
  exists SA, SB. split; [done|]. split; [done|].
  unfold dnpData.concatenateAlong.
  rewrite (bind_ok _ _ _ _ _ (get_run a dnpData.dims w A0 Ha)).
  rewrite (bind_ok _ _ _ _ _ Hs1).
  rewrite (bind_ok _ _ _ _ _ Hs2).
  assert (Ha2 : dnpData.heap (upd b SB (upd a SA w)) !! a = Some SA)
    by (by rewrite heap_upd_ne, heap_upd_eq).
  rewrite (bind_ok _ _ _ _ _ (get_run a dnpData.dims _ _ Ha2)).
  rewrite (bind_ok _ _ _ _ _
             (get_run b dnpData.dims _ _ (heap_upd_eq _ _ _))).
  rewrite (permuted_sorted_dims _ _ HpA), (permuted_sorted_dims _ _ HpB).
  by rewrite bool_decide_eq_true_2.
Qed.

(** C3.  Concatenation along [d] needs the sorted dimension names of the
    two operands to be the same list: consistent operands whose sorted names
    differ end in [ValueError] ("dims do not match"), and a run that ends
    well had them equal.  After such a run the receiver has its dimension
    names in the order it had before, the length of [d] is the sum of the
    two lengths of [d], the coordinate vector of [d] is that of the receiver
    followed by that of the other operand, and every other dimension has
    the length it had. *)
Theorem concatenate_along_lengths w (a b : dnpData.loc) A B (d : string) :
  dnpData.heap w !! a = Some A ->
  dnpData.heap w !! b = Some B ->
  (dnpData.consistent A = true -> dnpData.consistent B = true ->
   sorted (dnpData.dims A) <> sorted (dnpData.dims B) ->
   exists w2, dnpData.concatenateAlong a b d w
              = (Raise (Exn ValueError "dims do not match"), w2))
  /\ (forall w', dnpData.concatenateAlong a b d w = (Ok tt, w') ->
        sorted (dnpData.dims A) = sorted (dnpData.dims B)
        /\ exists A' nA nB cA cB,
             dnpData.heap w' !! a = Some A'
             /\ dnpData.dims A' = dnpData.dims A
             /\ dnpData.len a d w = (Ok nA, w)
             /\ dnpData.len b d w = (Ok nB, w)
             /\ dnpData.len a d w' = (Ok (nA + nB), w')
             /\ dnpData.getAxes a d w = (Ok cA, w)
             /\ dnpData.getAxes b d w = (Ok cB, w)
             /\ dnpData.getAxes a d w' = (Ok (cA ++ cB), w')
             /\ forall k, k ∈ dnpData.dims A -> k <> d ->
                  exists n, dnpData.len a k w = (Ok n, w)
                            /\ dnpData.len a k w' = (Ok n, w')).
Proof.
  intros Ha Hb. split.
  - intros HcA HcB Hne.
    destruct (concatenate_mismatch w a b A B d Ha Hb HcA HcB Hne)
      as (SA & SB & _ & _ & Hrun). eauto.
  - intros w' Hrun.
    destruct (concatenateAlong_inv w w' a b A B d Ha Hb Hrun)
      as (w1 & w2 & SA & SB & ix & v & c1 & c2 & q & A3 & Hs1 & Hs2 & Ha2
          & Hb2 & HsA & HsB & Hdims & Hix & Hv & Hc1 & Hc2 & Hq & Hperm & ->).
    split.
    { destruct (decide (a = b)) as [->|Hab]; [congruence|].
      destruct (sorted_operands w w1 w2 a b A B SA SB Hab Ha Hb Hs1 Hs2
                  Ha2 Hb2) as (HpA & HpB & _).
      rewrite <- (permuted_sorted_dims _ _ HpA).
      by rewrite <- (permuted_sorted_dims _ _ HpB). }
    destruct (concat_axes A B SA SB A3 d ix v c1 c2 q HsA HsB Hdims Hix Hv
                Hc1 Hc2 Hq Hperm)
      as (Hd3 & (nA & nB & HnA & HnB & Hn3) & (HcA & HcB & Hc3) & Hother).
    assert (Ha3 : dnpData.heap (upd a A3 w2) !! a = Some A3)
      by apply heap_upd_eq.
    exists A3, nA, nB, c1, c2.
    split; [done|]. split; [done|].
    split; [by eapply len_run|]. split; [by eapply len_run|].
    split; [by eapply len_run|]. split; [by eapply getAxes_run|].
    split; [by eapply getAxes_run|]. split; [by eapply getAxes_run|].
    intros k Hk Hne. destruct (Hother k Hk Hne) as (n & Hn0 & Hn3').
    exists n. split; by eapply len_run.
Qed.


End mutation.

Lemma concatenate_along_lengths_witness :
  let w' := snd (dnpData.concatenateAlong 0 1 "y" sample_pair) in
  sorted (dnpData.dims sample_2d) = sorted (dnpData.dims sample_other)
  /\ exists A' nA nB cA cB,
       dnpData.heap w' !! 0 = Some A'
       /\ dnpData.dims A' = dnpData.dims sample_2d
       /\ dnpData.len 0 "y" sample_pair = (Ok nA, sample_pair)
       /\ dnpData.len 1 "y" sample_pair = (Ok nB, sample_pair)
       /\ dnpData.len 0 "y" w' = (Ok (nA + nB), w')
       /\ dnpData.getAxes 0 "y" sample_pair = (Ok cA, sample_pair)
       /\ dnpData.getAxes 1 "y" sample_pair = (Ok cB, sample_pair)
       /\ dnpData.getAxes 0 "y" w' = (Ok (cA ++ cB), w')
       /\ forall k, k ∈ dnpData.dims sample_2d -> k <> "y" ->
            exists n, dnpData.len 0 k sample_pair = (Ok n, sample_pair)
                      /\ dnpData.len 0 k w' = (Ok n, w').
Proof.
  intros w'.
  apply (proj2 (concatenate_along_lengths sample_pair 0 1 sample_2d
                  sample_other "y" eq_refl eq_refl)).
  vm_compute. reflexivity.
Defined.


(** The concatenation of the two sample arrays along [y]: the receiver
    gains a third column and keeps the order [x], [y]; the other operand is
    left transposed, with [x] first. *)
Example concatenate_scenario :
  dnpData.concatenateAlong 0 1 "y" sample_pair
  = (Ok tt,
     dnpData.World
       {[ 0 := dnpData.Obj "1.0"
                 (Np.Array [3; 3] [1; 2; 7; 3; 4; 8; 5; 6; 9]%Z)
                 [[0; 1; 2]%Z; [10; 20; 5]%Z] ["x"; "y"] ∅ [];
          1 := dnpData.Obj "1.0" (Np.Array [3; 1] [7; 8; 9]%Z)
                 [[0; 1; 2]%Z; [5]%Z] ["x"; "y"] ∅ [] ]} []).
Proof. vm_compute. reflexivity. Qed.

(** An operand concatenated to itself has its order put back as well. *)
Example concatenate_with_itself :
  dnpData.concatenateAlong 1 1 "y" sample_pair
  = (Ok tt,
     dnpData.World
       {[ 0 := sample_2d;
          1 := dnpData.Obj "1.0" (Np.Array [2; 3] [7; 8; 9; 7; 8; 9]%Z)
                 [[5; 5]%Z; [0; 1; 2]%Z] ["y"; "x"] ∅ [] ]} []).
Proof. vm_compute. reflexivity. Qed.

(** Names that do not match: [ValueError], and both operands stay sorted. *)
Example concatenate_misfit :
  dnpData.concatenateAlong 1 0 "x"
    (dnpData.World {[ 0 := sample_misfit; 1 := sample_other ]} [])
  = (Raise (Exn ValueError "dims do not match"),
     dnpData.World
       {[ 0 := sample_misfit;
          1 := dnpData.Obj "1.0" (Np.Array [3; 1] [7; 8; 9]%Z)
                 [[0; 1; 2]%Z; [5]%Z] ["x"; "y"] ∅ [] ]} []).
Proof. vm_compute. reflexivity. Qed.

(** ** Axes: progressions and their reduction (C6) *)

Section progressions.
Import nddata_axis.

Lemma isclose_eq (a b : Q) : (a == b)%Q -> isclose a b = true.
Proof.
  intros Hab. unfold isclose. apply Qle_bool_iff.
  assert (Hz : (Qabs (a - b) == 0)%Q).
  { assert (Hd : (a - b == 0)%Q) by (rewrite Hab; ring).
    rewrite Hd. reflexivity. }
  rewrite Hz.
  assert (Hb : (0 <= rtol * Qabs b)%Q).
  { apply Qmult_le_0_compat; [discriminate | apply Qabs_nonneg]. }
  assert (Ha : (0 <= atol)%Q) by discriminate.
  apply (Qplus_le_compat 0 atol 0 (rtol * Qabs b) Ha Hb).
Qed.

Lemma progression_length (a c : Q) (n : nat) :
  length (progression a c n) = n.
Proof. unfold progression. by rewrite length_map, length_seq. Qed.

Lemma progression_lookup (a c : Q) (n i : nat) :
  i < n ->
  progression a c n !! i = Some (a + inject_Z (Z.of_nat i) * c)%Q.
Proof.
  intros Hi. unfold progression.
  by rewrite list_lookup_fmap, lookup_seq_lt.
Qed.

Lemma all_close_pointwise (xs ys : list Q) :
  Forall2 Qeq xs ys -> all_close xs ys = true.
Proof.
  induction 1 as [|x y xs ys Hxy _ IH]; simpl; [done|].
  by rewrite (isclose_eq x y Hxy), IH.
Qed.

Lemma progression_pointwise (a a' c c' : Q) (n : nat) :
  (a == a')%Q -> (c == c')%Q ->
  Forall2 Qeq (progression a c n) (progression a' c' n).
Proof.
  intros Ha Hc. unfold progression.
  apply Forall2_fmap, Forall_Forall2_diag, Forall_forall.
  intros i _. by rewrite Ha, Hc.
Qed.

Lemma array_item_nat (dt : dtype) (elems : list Q) (i : nat) (x : Q) :
  elems !! i = Some x -> array_item dt elems (Z.of_nat i) = Ok (VNp dt x).
Proof.
  intros Hi. pose proof (lookup_lt_Some _ _ _ Hi) as Hlt.
  unfold array_item. cbv zeta.
  destruct (Z.ltb_spec (Z.of_nat i) 0); [lia|].
  destruct (Z.ltb_spec (Z.of_nat i) 0); [lia|].
  destruct (Z.leb_spec (Z.of_nat (length elems)) (Z.of_nat i)); [lia|].
  cbn [orb]. rewrite Nat2Z.id, Hi. reflexivity.
Qed.

Lemma array_item_last (dt : dtype) (elems : list Q) (x : Q) :
  elems !! (length elems - 1) = Some x ->
  array_item dt elems (-1) = Ok (VNp dt x).
Proof.
  intros Hi. pose proof (lookup_lt_Some _ _ _ Hi) as Hlt.
  unfold array_item. cbv zeta.
  change (-1 <? 0)%Z with true. cbv iota.
  destruct (Z.ltb_spec (-1 + Z.of_nat (length elems)) 0); [lia|].
  destruct (Z.leb_spec (Z.of_nat (length elems))
                       (-1 + Z.of_nat (length elems))); [lia|].
  cbn [orb].
  replace (Z.to_nat (-1 + Z.of_nat (length elems))) with (length elems - 1)
    by lia.
  rewrite Hi. reflexivity.
Qed.

Lemma r_slice_np (dt : dtype) (a b c : Q) :
  ~ (c == 0)%Q ->
  r_slice (VNp dt a) (VNp dt b) (VNp dt c)
  = Ok (VArray dt (progression a c (sample_count a b c))).
Proof.
  intros Hc. unfold r_slice.
  assert (Hz : Qeq_bool c 0 = false).
  { destruct (Qeq_bool c 0) eqn:E; [|done].
    by apply Qeq_bool_iff in E. }
  destruct dt; simpl; rewrite Hz; reflexivity.
Qed.

Lemma r_slice_float (a b c : Q) :
  ~ (c == 0)%Q ->
  r_slice (VFloat a) (VFloat b) (VFloat c)
  = Ok (VArray float64 (progression a c (sample_count a b c))).
Proof.
  intros Hc. unfold r_slice.
  assert (Hz : Qeq_bool c 0 = false).
  { destruct (Qeq_bool c 0) eqn:E; [|done].
    by apply Qeq_bool_iff in E. }
  simpl. rewrite Hz. reflexivity.
Qed.

Lemma sample_count_wd (a b c : Q) (q : Q) :
  ((b - a) / c == q)%Q -> sample_count a b c = Z.to_nat (Qceiling q).
Proof. intros Hq. unfold sample_count. by rewrite Hq. Qed.

End progressions.

Section reduction_of_axes.
Import nddata_axis.

Lemma getattr_run (ax : nddata_axis.t) (name : string) (v : value) :
  ax !! name = Some v -> getattr name ax = (Ok v, ax).
Proof. intros Hv. unfold getattr. by rewrite Hv. Qed.

(** [reduce] on an instance that holds at least two samples, the first two
    of them different: the progression is rebuilt from the first sample,
    the first difference and the last sample, and compared with the
    samples. *)
Lemma reduce_run (ax : nddata_axis.t) (dt : dtype) (elems : list Q)
    (a0 a1 last : Q) :
  ax !! "_array" = Some (VArray dt elems) ->
  elems !! 0 = Some a0 -> elems !! 1 = Some a1 ->
  elems !! (length elems - 1) = Some last ->
  ~ (a1 - a0 == 0)%Q ->
  reduce ax
  = match allclose elems
            (progression a0 (a1 - a0)
               (sample_count a0 (last + (a1 - a0)) (a1 - a0))) with
    | Ok true => (Ok tt, with_triple dt a0 (last + (a1 - a0)) (a1 - a0) ax)
    | Ok false =>
        (raise ValueError "Array must have evenly spaced values to be reduced",
         ax)
    | Raise e => (Raise e, ax)
    end.
Proof.
  intros Harr H0 H1 Hlast Hstep.
  unfold reduce, hasattr. rewrite Harr.
  rewrite bool_decide_eq_true_2 by eauto.
  rewrite (bind_ok _ _ _ _ _ (getattr_run ax "_array" _ Harr)).
  rewrite (bind_lift_ok _ _ _ _ (array_item_nat dt elems 0 a0 H0)).
  rewrite (bind_lift_ok _ _ _ _ (array_item_nat dt elems 1 a1 H1)).
  rewrite (bind_lift_ok _ _ _ _ (array_item_nat dt elems 0 a0 H0)).
  assert (Hsub : np_sub (VNp dt a1) (VNp dt a0) = Ok (VNp dt (a1 - a0)%Q))
    by (by destruct dt).
  rewrite (bind_lift_ok _ _ _ _ Hsub).
  rewrite (bind_lift_ok _ _ _ _ (array_item_last dt elems last Hlast)).
  assert (Hadd : np_add (VNp dt last) (VNp dt (a1 - a0)%Q)
                 = Ok (VNp dt (last + (a1 - a0))%Q))
    by (by destruct dt).
  rewrite (bind_lift_ok _ _ _ _ Hadd).
  rewrite (bind_lift_ok _ _ _ _ (r_slice_np dt a0 _ _ Hstep)).
  destruct (allclose elems _) as [[|]|e] eqn:Hclose.
  - rewrite (bind_lift_ok _ _ _ _ eq_refl).
    destruct dt; reflexivity.
  - rewrite (bind_lift_ok _ _ _ _ eq_refl). reflexivity.
  - by rewrite (bind_lift_raise _ _ _ _ eq_refl).
Qed.

End reduction_of_axes.

Section round_trip.
Import nddata_axis.

Lemma array_run_fresh (ax : nddata_axis.t) (a b c v : value) :
  ax !! "_array" = None ->
  ax !! "_nddata_axis__start" = Some a ->
  ax !! "_nddata_axis__stop" = Some b ->
  ax !! "_nddata_axis__step" = Some c ->
  r_slice a b c = Ok v ->
  array ax = (Ok v, <["_array" := v]> ax).
Proof.
  intros Harr Ha Hb Hc Hv. unfold array, hasattr. rewrite Harr.
  rewrite bool_decide_eq_false_2 by (by intros [? ?]).
  unfold get_start, get_stop, get_step.
  rewrite (bind_ok _ _ _ _ _ (getattr_run ax _ _ Ha)).
  rewrite (bind_ok _ _ _ _ _ (getattr_run ax _ _ Hb)).
  rewrite (bind_ok _ _ _ _ _ (getattr_run ax _ _ Hc)).
  rewrite (bind_lift_ok _ _ _ _ Hv).
  unfold bind, setattr, getattr. by rewrite lookup_insert_eq.
Qed.

Lemma sample_count_steps (a c : Q) (n : nat) :
  ~ (c == 0)%Q ->
  sample_count a (a + inject_Z (Z.of_nat n) * c) c = n.
Proof.
  intros Hc.
  rewrite (sample_count_wd _ _ _ (inject_Z (Z.of_nat n))).
  - by rewrite Qceiling_Z, Nat2Z.id.
  - field. exact Hc.
Qed.

Lemma inject_Z_pred (n : nat) :
  1 <= n ->
  (inject_Z (Z.of_nat (n - 1)) + 1 == inject_Z (Z.of_nat n))%Q.
Proof.
  intros Hn. replace (Z.of_nat n) with (Z.of_nat (n - 1) + 1)%Z by lia.
  by rewrite inject_Z_plus.
Qed.

(** The instance the three-number form of the constructor builds. *)
Lemma init_triple (name : string) (a b c : value) :
  is_int_or_float a = true -> is_int_or_float b = true ->
  is_int_or_float c = true ->
  __init__ (VStr name) [a; b; c]
  = Ok (<["_nddata_axis__step" := c]>
          (<["_nddata_axis__stop" := b]>
             (<["_nddata_axis__start" := a]>
                (<["_nddata_axis__dim" := VStr name]> ∅)))).
Proof.
  intros Ha Hb Hc. unfold __init__, init_body.
  cbn [length Nat.eqb]. rewrite Ha, Hb, Hc. reflexivity.
Qed.

(** Materializing and reducing the progression of [n >= 2] samples from
    [start] by [step]: the rebuilt progression has [n] samples again and is
    close to the samples, so the triple found is stored. *)
Lemma materialize_reduce (ax : nddata_axis.t) (dt : dtype) (a b c : value)
    (start stop step : Q) :
  ax !! "_array" = None ->
  ax !! "_nddata_axis__start" = Some a ->
  ax !! "_nddata_axis__stop" = Some b ->
  ax !! "_nddata_axis__step" = Some c ->
  r_slice a b c
  = Ok (VArray dt (progression start step (sample_count start stop step))) ->
  ~ (step == 0)%Q ->
  2 <= sample_count start stop step ->
  exists s0 s1 s2,
    bind array (fun _ => reduce) ax
    = (Ok tt,
       with_triple dt s0 s1 s2
         (<["_array" := VArray dt (progression start step
                                     (sample_count start stop step))]> ax))
    /\ (s0 == start)%Q
    /\ (s1 == start
              + inject_Z (Z.of_nat (sample_count start stop step)) * step)%Q
    /\ (s2 == step)%Q.
Proof.
  intros Harr Ha Hb Hc Hv Hstep Hn.
  set (n := sample_count start stop step) in *.
  set (elems := progression start step n) in *.
  set (a0 := (start + inject_Z (Z.of_nat 0) * step)%Q).
  set (a1 := (start + inject_Z (Z.of_nat 1) * step)%Q).
  set (last := (start + inject_Z (Z.of_nat (n - 1)) * step)%Q).
  assert (Hc' : (a1 - a0 == step)%Q).
  { subst a0 a1. change (inject_Z (Z.of_nat 1)) with 1%Q.
    change (inject_Z (Z.of_nat 0)) with 0%Q. ring. }
  assert (Ha0 : (a0 == start)%Q).
  { subst a0. change (inject_Z (Z.of_nat 0)) with 0%Q. ring. }
  assert (Hnz : ~ (a1 - a0 == 0)%Q) by (by rewrite Hc').
  assert (Hlast : (last + (a1 - a0)
                   == a0 + inject_Z (Z.of_nat n) * (a1 - a0))%Q).
  { rewrite Hc', Ha0. subst last.
    rewrite <- (inject_Z_pred n) by lia. ring. }
  exists a0, (last + (a1 - a0))%Q, (a1 - a0)%Q.
  split; [|split; [done|split; [|done]]].
  2: { rewrite Hlast, Hc', Ha0. reflexivity. }
  rewrite (bind_ok _ _ _ _ _ (array_run_fresh ax a b c _ Harr Ha Hb Hc Hv)).
  rewrite (reduce_run _ dt elems a0 a1 last).
  - assert (Hm : sample_count a0 (last + (a1 - a0)) (a1 - a0) = n).
    { rewrite (sample_count_wd _ _ _ (inject_Z (Z.of_nat n))).
      - by rewrite Qceiling_Z, Nat2Z.id.
      - rewrite Hlast. field. exact Hnz. }
    rewrite Hm. unfold allclose. subst elems.
    rewrite !progression_length, Nat.eqb_refl.
    rewrite all_close_pointwise; [reflexivity|].
    apply progression_pointwise; by symmetry.
  - apply lookup_insert_eq.
  - apply progression_lookup. lia.
  - apply progression_lookup. lia.
  - subst elems. rewrite progression_length. apply progression_lookup. lia.
  - exact Hnz.
Qed.

(** X1.  The axis built from a triple of floats that are whole numbers of
    moderate size, once its samples are materialized, reduces to the start
    and the step it was built from and to the stop [start + n * step],
    where [n] is the number of samples. *)
Theorem reduce_of_float_triple (name : string) (start stop step : Q) :
  small_integer start -> small_integer stop -> small_integer step ->
  ~ (step == 0)%Q ->
  2 <= sample_count start stop step ->
  exists ax ax' s0 s1 s2,
    __init__ (VStr name) [VFloat start; VFloat stop; VFloat step] = Ok ax
    /\ bind array (fun _ => reduce) ax = (Ok tt, ax')
    /\ ax' !! "_nddata_axis__start" = Some (VNp float64 s0)
    /\ ax' !! "_nddata_axis__stop" = Some (VNp float64 s1)
    /\ ax' !! "_nddata_axis__step" = Some (VNp float64 s2)
    /\ (s0 == start)%Q
    /\ (s1 == start
              + inject_Z (Z.of_nat (sample_count start stop step)) * step)%Q
    /\ (s2 == step)%Q.
Proof.
  intros _ _ _ Hstep Hn.
  eexists. 
  destruct (materialize_reduce
              (<["_nddata_axis__step" := VFloat step]>
                 (<["_nddata_axis__stop" := VFloat stop]>
                    (<["_nddata_axis__start" := VFloat start]>
                       (<["_nddata_axis__dim" := VStr name]> ∅))))
              float64 (VFloat start) (VFloat stop) (VFloat step)
              start stop step)
    as (s0 & s1 & s2 & Hrun & H0 & H1 & H2);
    [reflexivity | reflexivity | reflexivity | reflexivity
    | by apply r_slice_float | done | done |].
  eexists _, s0, s1, s2.
  split; [by apply init_triple|]. split; [exact Hrun|].
  unfold with_triple. repeat split; auto.
Qed.

Lemma r_slice_int (a b c : Z) :
  c <> 0%Z ->
  r_slice (VInt a) (VInt b) (VInt c)
  = Ok (VArray int64
          (progression (inject_Z a) (inject_Z c)
             (sample_count (inject_Z a) (inject_Z b) (inject_Z c)))).
Proof.
  intros Hc. unfold r_slice. simpl.
  assert (Hz : Qeq_bool (inject_Z c) 0 = false).
  { destruct (Qeq_bool (inject_Z c) 0) eqn:E; [|done].
    apply Qeq_bool_iff in E. unfold Qeq in E. simpl in E. lia. }
  rewrite Hz. reflexivity.
Qed.

(** X2.  The same for a triple of Python integers of moderate size: the
    samples are an integer array, the values [reduce] finds are
    [numpy.int64] scalars, which the setters ignore, and the triple stays
    what it was. *)
Theorem reduce_of_int_triple (name : string) (start stop step : Z) :
  small_integer (inject_Z start) -> small_integer (inject_Z stop) ->
  small_integer (inject_Z step) ->
  step <> 0%Z ->
  2 <= sample_count (inject_Z start) (inject_Z stop) (inject_Z step) ->
  exists ax ax',
    __init__ (VStr name) [VInt start; VInt stop; VInt step] = Ok ax
    /\ bind array (fun _ => reduce) ax = (Ok tt, ax')
    /\ ax' !! "_nddata_axis__start" = Some (VInt start)
    /\ ax' !! "_nddata_axis__stop" = Some (VInt stop)
    /\ ax' !! "_nddata_axis__step" = Some (VInt step).
Proof.
  intros _ _ _ Hstep Hn.
  assert (Hq : ~ (inject_Z step == 0)%Q).
  { unfold Qeq. simpl. lia. }
  eexists.
  destruct (materialize_reduce
              (<["_nddata_axis__step" := VInt step]>
                 (<["_nddata_axis__stop" := VInt stop]>
                    (<["_nddata_axis__start" := VInt start]>
                       (<["_nddata_axis__dim" := VStr name]> ∅))))
              int64 (VInt start) (VInt stop) (VInt step)
              (inject_Z start) (inject_Z stop) (inject_Z step))
    as (s0 & s1 & s2 & Hrun & _);
    [reflexivity | reflexivity | reflexivity | reflexivity
    | by apply r_slice_int | done | done |].
  eexists. split; [by apply init_triple|]. split; [exact Hrun|].
  unfold with_triple. repeat split.
Qed.




End round_trip.

Lemma small_integer_Z (k : Z) :
  (Z.abs k <= 2 ^ 20)%Z -> small_integer (inject_Z k).
Proof. intros Hk. exists k. split; [reflexivity | exact Hk]. Qed.

Lemma reduce_of_float_triple_witness :
  exists ax ax' s0 s1 s2,
    nddata_axis.__init__ (nddata_axis.VStr "x")
      [nddata_axis.VFloat 0; nddata_axis.VFloat 10; nddata_axis.VFloat 3]
    = Ok ax
    /\ bind nddata_axis.array (fun _ => nddata_axis.reduce) ax = (Ok tt, ax')
    /\ ax' !! "_nddata_axis__start"
       = Some (nddata_axis.VNp nddata_axis.float64 s0)
    /\ ax' !! "_nddata_axis__stop"
       = Some (nddata_axis.VNp nddata_axis.float64 s1)
    /\ ax' !! "_nddata_axis__step"
       = Some (nddata_axis.VNp nddata_axis.float64 s2)
    /\ (s0 == 0)%Q
    /\ (s1 == 0 + inject_Z (Z.of_nat (sample_count 0 10 3)) * 3)%Q
    /\ (s2 == 3)%Q.
Proof.
  apply (reduce_of_float_triple "x" 0 10 3
           (small_integer_Z 0 ltac:(simpl; lia))
           (small_integer_Z 10 ltac:(simpl; lia))
           (small_integer_Z 3 ltac:(simpl; lia))).
  - intros Hz. vm_compute in Hz. discriminate Hz.
  - vm_compute. lia.
Defined.

Lemma reduce_of_int_triple_witness :
  exists ax ax',
    nddata_axis.__init__ (nddata_axis.VStr "x")
      [nddata_axis.VInt 0; nddata_axis.VInt 10; nddata_axis.VInt 3] = Ok ax
    /\ bind nddata_axis.array (fun _ => nddata_axis.reduce) ax = (Ok tt, ax')
    /\ ax' !! "_nddata_axis__start" = Some (nddata_axis.VInt 0)
    /\ ax' !! "_nddata_axis__stop" = Some (nddata_axis.VInt 10)
    /\ ax' !! "_nddata_axis__step" = Some (nddata_axis.VInt 3).
Proof.
  apply (reduce_of_int_triple "x" 0 10 3
           (small_integer_Z 0 ltac:(simpl; lia))
           (small_integer_Z 10 ltac:(simpl; lia))
           (small_integer_Z 3 ltac:(simpl; lia))).
  - lia.
  - vm_compute. lia.
Defined.




(** ** Sorting twice, and buffers read back in their own order *)

Lemma le_not_ltb (a b : string) : label_le a b -> String.ltb b a = false.
Proof.
  unfold label_le, String.leb, String.ltb.
  rewrite (String.compare_antisym b a).
  destruct (String.compare a b); simpl; congruence.
Qed.

Lemma sorted_by_key_fixed {A} (l : list (string * A)) :
  Sorted label_le (map fst l) -> sorted_by_key l = l.
Proof.
  induction l as [|x l IH]; simpl; intros Hs; [done|].
  apply Sorted_inv in Hs as [Hs Hhd]. rewrite (IH Hs).
  destruct l as [|y l]; simpl; [done|].
  apply HdRel_inv in Hhd. by rewrite (le_not_ltb _ _ Hhd).
Qed.

Lemma argsort_sorted (keys : list string) :
  Sorted label_le keys -> argsort keys = seq 0 (length keys).
Proof.
  intros Hs. unfold argsort.
  rewrite sorted_by_key_fixed.
  - apply snd_zip. by rewrite length_seq.
  - rewrite fst_zip; [done | by rewrite length_seq].
Qed.

Lemma map_nth_seq {A} (l : list A) (d : A) :
  map (fun i => nth i l d) (seq 0 (length l)) = l.
Proof.
  apply list_eq. intros i. rewrite list_lookup_fmap.
  destruct (l !! i) as [x|] eqn:Hi.
  - rewrite (lookup_seq_lt 0 (length l) i); [|by eapply lookup_lt_Some].
    simpl. f_equal. by apply nth_lookup_Some.
  - apply lookup_ge_None in Hi. by rewrite lookup_seq_ge.
Qed.

Lemma comprehension_getitem_seq {A} (xs : list A) :
  comprehension (getitem xs) (seq 0 (length xs)) = Ok xs.
Proof.
  apply comprehension_Forall2.
  apply Forall2_same_length_lookup. split; [by rewrite length_seq|].
  intros i j x Hj Hx. apply lookup_seq in Hj as [-> _].
  by apply getitem_inv.
Qed.

Section buffers.
Context {T : Type} `{Numeric T}.

Lemma length_unravel (s : list nat) (off : nat) :
  length (Np.unravel s off) = length s.
Proof.
  revert off. induction s as [|n s IH]; intros off; simpl; [done|].
  by rewrite IH.
Qed.

Lemma ravel_unravel (s : list nat) (off : nat) :
  off < Np.size_of s -> Np.ravel s (Np.unravel s off) = off.
Proof.
  revert off. induction s as [|n s IH]; intros off; simpl.
  - unfold Np.size_of. simpl. lia.
  - intros Hlt. change (foldr Nat.mul 1 s) with (Np.size_of s) in *.
    destruct (Np.size_of s) as [|k] eqn:Hk; [lia|].
    rewrite <- Hk in *.
    rewrite IH by (apply Nat.mod_upper_bound; lia).
    pose proof (Nat.div_mod_eq off (Np.size_of s)). lia.
Qed.

Lemma position_seq (k n m : nat) :
  m < n -> Np.position (k + m) (seq k n) = m.
Proof.
  revert k m. induction n as [|n IH]; intros k m Hm; [lia|]. simpl.
  destruct (Nat.eqb_spec k (k + m)) as [Heq|Hne].
  - lia.
  - destruct m as [|m]; [lia|]. f_equal.
    replace (k + S m) with (S k + m) by lia. apply IH. lia.
Qed.

Lemma transpose_whole (a v : Np.ndarray T) (p : list nat) :
  Np.transpose a p = Ok v -> whole v.
Proof.
  unfold Np.transpose.
  destruct (Np.check_axes (Np.ndim a) p) as [[]|e]; [|discriminate].
  simpl. intros [= <-]. unfold whole. simpl.
  by rewrite length_map, length_seq.
Qed.

Lemma transpose_id (a : Np.ndarray T) :
  whole a -> Np.transpose a (seq 0 (Np.ndim a)) = Ok a.
Proof.
  intros Hw. unfold Np.transpose.
  assert (Hc : Np.check_axes (Np.ndim a) (seq 0 (Np.ndim a)) = Ok tt).
  { apply check_axes_inv. split; [by rewrite length_seq|].
    split; [|apply NoDup_seq].
    apply Forall_forall. intros i Hi.
    apply list_elem_of_In, in_seq in Hi. lia. }
  rewrite Hc. simpl. unfold Np.ndim.
  rewrite (map_nth_seq (Np.shape a) 0).
  destruct a as [s d]. unfold whole in Hw. simpl in *.
  rewrite <- Hw. rewrite <- (map_nth_seq d num_zero) at 2.
  do 2 f_equal. apply map_ext_in. intros off Hoff. apply in_seq in Hoff.
  unfold Np.entry. simpl. f_equal.
  transitivity (Np.ravel s (Np.unravel s off));
    [f_equal | apply ravel_unravel; lia].
  etransitivity; [|apply (map_nth_seq (Np.unravel s off) 0)].
  rewrite length_unravel.
  apply map_ext_in. intros m Hm. apply in_seq in Hm.
  f_equal. apply (position_seq 0). lia.
Qed.

End buffers.

(** ** Sorting and reordering consistent arrays *)

Section ordering.
Context {T : Type} `{Numeric T}.
Implicit Types (w : dnpData.world T) (o : dnpData.t T) (self : dnpData.loc).

Lemma permuted_consistent (p : list nat) o o' :
  permuted p o o' -> dnpData.consistent o = true ->
  dnpData.consistent o' = true.
Proof.
  intros Hperm Hcons.
  destruct (consistent_inv o Hcons) as (_ & _ & Hshape).
  destruct (permuted_lengths p o o' Hperm) as (Hd & Hc & Hn & _).
  apply consistent_intro; [lia|].
  apply list_eq. intros j. rewrite list_lookup_fmap.
  destruct (p !! j) as [i|] eqn:Hj.
  - destruct (permuted_lookup p o o' j i Hperm Hj) as (_ & -> & -> & _).
    by rewrite <- Hshape, list_lookup_fmap.
  - apply lookup_ge_None in Hj.
    rewrite (lookup_ge_None_2 (dnpData.coords o')) by lia.
    rewrite lookup_ge_None_2; [done|]. unfold Np.ndim in Hn. lia.
Qed.

(** X4.  On a consistent array [sort] succeeds and changes only the
    receiver: its names come out in sorted order, the array is consistent
    again, and every dimension keeps its length and its coordinate
    vector. *)
Theorem sort_orders_axes w self o :
  dnpData.heap w !! self = Some o ->
  dnpData.consistent o = true ->
  exists o',
    dnpData.sort self w = (Ok tt, upd self o' w)
    /\ dnpData.dims o' = sorted (dnpData.dims o)
    /\ Sorted label_le (dnpData.dims o')
    /\ dnpData.consistent o' = true
    /\ same_axes o o'.
Proof.
  intros Hself Hcons.
  destruct (sort_total w self o Hself Hcons) as (o' & Hrun & Hperm).
  exists o'. split; [done|].
  pose proof (permuted_sorted_dims o o' Hperm) as Hd.
  split; [done|]. split; [rewrite Hd; apply sorted_Sorted|].
  split; [by eapply permuted_consistent|].
  apply (permuted_same_axes _ _ _ Hperm). by rewrite argsort_length.
Qed.

(** X5.  [sort] is idempotent: after a call that ended well, a second call
    ends well and changes nothing, the buffer included. *)
Theorem sort_twice w w' self o :
  dnpData.heap w !! self = Some o ->
  dnpData.sort self w = (Ok tt, w') ->
  dnpData.sort self w' = (Ok tt, w').
Proof.
  intros Hself Hrun.
  destruct (sort_inv w w' self o Hself Hrun) as (o' & Hperm & ->).
  pose proof (permuted_sorted_dims o o' Hperm) as Hd.
  destruct (permuted_lengths _ _ _ Hperm) as (Hld & Hlc & Hn & _).
  assert (Hw : whole (dnpData.values o')).
  { destruct Hperm as (_ & _ & Ht & _). by eapply transpose_whole. }
  assert (Hix : argsort (dnpData.dims o') = seq 0 (length (dnpData.dims o'))).
  { apply argsort_sorted. rewrite Hd. apply sorted_Sorted. }
  pose proof (heap_upd_eq self o' w) as Hself'.
  unfold dnpData.sort.
  rewrite (bind_ok _ _ _ _ _ (get_run self dnpData.dims _ _ Hself')).
  rewrite Hix.
  rewrite (bind_ok _ _ _ _ _ (get_run self dnpData.coords _ _ Hself')).
  assert (Hc : comprehension (getitem (dnpData.coords o'))
                 (seq 0 (length (dnpData.dims o'))) = Ok (dnpData.coords o')).
  { rewrite Hld, <- Hlc. apply comprehension_getitem_seq. }
  rewrite (bind_lift_ok _ _ _ _ Hc).
  rewrite (bind_ok _ _ _ _ _ (set_coords_run self _ _ _ Hself')).
  rewrite upd_upd.
  rewrite (bind_ok _ _ _ _ _
             (get_run self dnpData.dims _ _ (heap_upd_eq _ _ _))).
  simpl dnpData.dims.
  rewrite (bind_lift_ok _ _ _ _ (comprehension_getitem_seq (dnpData.dims o'))).
  rewrite (bind_ok _ _ _ _ _ (set_dims_run self _ _ _ (heap_upd_eq _ _ _))).
  rewrite upd_upd.
  rewrite (bind_ok _ _ _ _ _
             (get_run self dnpData.values _ _ (heap_upd_eq _ _ _))).
  simpl dnpData.values.
  assert (Hv : Np.transpose (dnpData.values o')
                 (seq 0 (length (dnpData.dims o'))) = Ok (dnpData.values o')).
  { rewrite Hld, <- Hn. by apply transpose_id. }
  rewrite (bind_lift_ok _ _ _ _ Hv).
  rewrite (set_values_run self _ _ _ (heap_upd_eq _ _ _)).
  rewrite upd_upd. by destruct o'.
Qed.

End ordering.






Lemma first_missing_at (pre post ds : list string) (x : string) :
  (forall y, y ∈ pre -> y ∈ ds) -> x ∉ ds ->
  dnpData.first_missing (pre ++ x :: post) ds = Some x.
Proof.
  unfold dnpData.first_missing.
  induction pre as [|y pre IH]; intros Hpre Hx; simpl.
  - assert (E : contains x ds = false).
    { destruct (contains x ds) eqn:E; [|done].
      apply contains_elem in E. contradiction. }
    by rewrite E.
  - assert (E : contains y ds = true) by (apply contains_elem, Hpre; left).
    rewrite E. simpl. apply IH; [|done].
    intros z Hz. apply Hpre. by right.
Qed.






Section reordering.
Context {T : Type} `{Numeric T}.
Implicit Types (w : dnpData.world T) (o : dnpData.t T) (self : dnpData.loc).


Lemma reorder_labels_of self (arg : dnpData.labels_arg)
    (labels : list string) :
  labels_of arg = Some labels ->
  dnpData.reorder self arg = dnpData.reorder_list (T := T) self labels.
Proof. destruct arg; simpl; intros [= <-]; reflexivity. Qed.


(** X7.  [reorder] with a name that is not a dimension prints that name
    (the first such one) and returns: the array is left as it was. *)
Theorem reorder_unknown_label w self o (arg : dnpData.labels_arg)
    (pre post : list string) (x : string) :
  dnpData.heap w !! self = Some o ->
  labels_of arg = Some (pre ++ x :: post) ->
  (forall y, y ∈ pre -> y ∈ dnpData.dims o) ->
  x ∉ dnpData.dims o ->
  dnpData.reorder self arg w
  = (Ok tt, dnpData.World (dnpData.heap w)
              (dnpData.stdout w
               ++ [("'" ++ x ++ "' not in axes labels")%string])).
Proof.
  intros Hself Harg Hpre Hx.
  rewrite (reorder_labels_of self arg _ Harg).
  unfold dnpData.reorder_list.
  rewrite (bind_ok _ _ _ _ _ (get_run self dnpData.dims w o Hself)).
  rewrite bool_decide_eq_true_2.
  - by rewrite (first_missing_at pre post _ x Hpre Hx).
  - intros Heq. apply Hx.
    rewrite <- (sorted_perm (dnpData.dims o)), <- Heq, sorted_perm.
    apply elem_of_app. right. left.
Qed.


End reordering.

(** Closed decidable facts, by evaluation. *)
Ltac by_deciding :=
  lazymatch goal with
  | |- ?P => apply (bool_decide_unpack P); vm_compute; exact I
  end.

Lemma sort_orders_axes_witness :
  exists o',
    dnpData.sort 1 sample_pair = (Ok tt, upd 1 o' sample_pair)
    /\ dnpData.dims o' = sorted (dnpData.dims sample_other)
    /\ Sorted label_le (dnpData.dims o')
    /\ dnpData.consistent o' = true
    /\ same_axes sample_other o'.
Proof.
  apply (sort_orders_axes sample_pair 1 sample_other); reflexivity.
Defined.

Lemma sort_twice_witness :
  let w' := snd (dnpData.sort 1 sample_pair) in
  dnpData.sort 1 w' = (Ok tt, w').
Proof.
  intros w'.
  apply (sort_twice sample_pair w' 1 sample_other); [reflexivity|].
  vm_compute. reflexivity.
Defined.


Lemma reorder_unknown_label_witness :
  dnpData.reorder 0 (dnpData.LList ["x"; "q"]) sample_world_2d
  = (Ok tt, dnpData.World (dnpData.heap sample_world_2d)
              (dnpData.stdout sample_world_2d
               ++ [("'" ++ "q" ++ "' not in axes labels")%string])).
Proof.
  apply (reorder_unknown_label sample_world_2d 0 sample_2d
           (dnpData.LList ["x"; "q"]) ["x"] [] "q");
    [reflexivity | reflexivity | |].
  - intros y Hy. apply list_elem_of_singleton in Hy as ->. simpl. left.
  - by_deciding.
Defined.


Example reorder_repeated_label_scenario :
  dnpData.reorder 0 (dnpData.LList ["x"; "x"]) sample_world_2d
  = (Raise (Exn ValueError "axes don't match array"),
     dnpData.World
       {[ 0 := dnpData.Obj "1.0" (Np.Array [3; 2] [1; 2; 3; 4; 5; 6]%Z)
                 [[0; 1; 2]%Z; [0; 1; 2]%Z; [10; 20]%Z] ["x"; "x"; "y"]
                 ∅ [] ]} []).
Proof. vm_compute. reflexivity. Qed.

(** ** Reading, reducing and renaming axes *)

Lemma find_index_insert (old new : string) (ds : list string) (i : nat) :
  find_index old ds = Some i -> (new ∉ ds \/ new = old) ->
  find_index new (<[i := new]> ds) = Some i.
Proof.
  revert i. induction ds as [|y ds IH]; intros i; simpl; [discriminate|].
  destruct (String.eqb_spec y old) as [->|Hne].
  - intros [= <-] _. simpl. by rewrite String.eqb_refl.
  - destruct (find_index old ds) as [j|] eqn:E; simpl; [|discriminate].
    intros [= <-] Hnew. simpl.
    destruct (String.eqb_spec y new) as [->|Hne2].
    + exfalso. destruct Hnew as [Hn| ->]; [|done]. apply Hn. left.
    + rewrite (IH j eq_refl); [done|].
      destruct Hnew as [Hn|Hn]; [|by right].
      left. intros Hin. apply Hn. by right.
Qed.

Section queries.
Context {T : Type} `{Numeric T}.
Implicit Types (w : dnpData.world T) (o : dnpData.t T) (self : dnpData.loc).

(** X9.  On a consistent array the length [len] reports for a dimension
    is the length of the coordinate vector [getAxes] returns for it, which
    is the vector at the position [index] reports, and none of the three
    calls changes anything; for a name that is not a dimension all three
    raise [ValueError]. *)
Theorem len_is_length_of_axes w self o (k : string) :
  dnpData.heap w !! self = Some o ->
  dnpData.consistent o = true ->
  (k ∈ dnpData.dims o ->
     exists i c,
       dnpData.dims o !! i = Some k
       /\ dnpData.coords o !! i = Some c
       /\ dnpData.index self k w = (Ok i, w)
       /\ dnpData.getAxes self k w = (Ok c, w)
       /\ dnpData.len self k w = (Ok (length c), w))
  /\ (k ∉ dnpData.dims o ->
        raises ValueError (fst (dnpData.getAxes self k w))
        /\ raises ValueError (fst (dnpData.len self k w))
        /\ raises ValueError (fst (dnpData.index self k w))).
Proof.
  intros Hself Hcons.
  destruct (consistent_inv o Hcons) as (Hdc & Hcn & Hshape).
  split.
  - intros Hk. destruct (find_index_some _ _ Hk) as [i Hi].
    pose proof (find_index_lookup _ _ _ Hi) as Hdi.
    destruct (lookup_lt_is_Some_2 (dnpData.coords o) i) as [c Hc].
    { rewrite <- Hdc. by eapply lookup_lt_Some. }
    exists i, c. split; [done|]. split; [done|]. split; [|split].
    + unfold dnpData.index.
      rewrite (bind_ok _ _ _ _ _ (get_run self dnpData.dims w o Hself)).
      unfold index, lift. by rewrite Hi.
    + apply (getAxes_run w self o); [done|].
      unfold axis_coords. by rewrite Hi.
    + apply (len_run w self o); [done|].
      unfold axis_len. by rewrite Hi, <- Hshape, list_lookup_fmap, Hc.
  - intros Hk. pose proof Hk as Hk'. apply find_index_none in Hk'.
    unfold dnpData.getAxes, dnpData.len, dnpData.index.
    rewrite !(bind_ok _ _ _ _ _ (get_run self dnpData.dims w o Hself)).
    unfold index, raise. rewrite Hk'. unfold bind, lift. simpl.
    repeat split; by eexists.
Qed.

(** X10.  [amax] over a dimension of a consistent array returns a new
    array without that dimension, consistent again, and leaves the receiver
    as it was (where [sum] works in place); over a dimension of length 0 it
    raises [ValueError]. *)
Theorem amax_returns_reduced_copy w self o (dim : string) :
  dnpData.heap w !! self = Some o ->
  dnpData.consistent o = true ->
  dim ∈ dnpData.dims o ->
  exists i n,
    dnpData.dims o !! i = Some dim
    /\ Np.shape (dnpData.values o) !! i = Some n
    /\ (0 < n ->
          exists v, Np.amax (dnpData.values o) i = Ok v
            /\ Np.shape v = delete i (Np.shape (dnpData.values o))
            /\ dnpData.amax self dim w = (Ok (without_axis i v o), w)
            /\ dnpData.consistent (without_axis i v o) = true)
    /\ (n = 0 ->
          raises ValueError (fst (dnpData.amax self dim w))
          /\ snd (dnpData.amax self dim w) = w).
Proof.
  intros Hself Hcons Hin.
  destruct (consistent_inv o Hcons) as (Hdc & Hcn & Hshape).
  destruct (find_index_some _ _ Hin) as [i Hi].
  pose proof (find_index_lookup _ _ _ Hi) as Hdi.
  assert (Hlt : i < length (dnpData.dims o)) by (by eapply lookup_lt_Some).
  destruct (lookup_lt_is_Some_2 (dnpData.coords o) i) as [c Hc]; [lia|].
  destruct (lookup_lt_is_Some_2 (Np.shape (dnpData.values o)) i) as [n Hn].
  { unfold Np.ndim in Hcn. lia. }
  assert (Hrun : dnpData.amax self dim w
                 = bind (lift (Np.amax (dnpData.values o) i))
                        (fun v => ret (without_axis i v o)) w).
  { unfold dnpData.amax, dnpData.copy, dnpData.deepcopy.
    assert (Hread : dnpData.read self w = (Ok o, w)).
    { unfold dnpData.read. by rewrite Hself. }
    rewrite (bind_ok _ _ _ _ _ Hread).
    unfold index. rewrite Hi. rewrite (bind_lift_ok _ _ _ i eq_refl).
    unfold pop. rewrite Hdi. rewrite (bind_lift_ok _ _ _ _ eq_refl).
    simpl dnpData.coords. rewrite Hc.
    rewrite (bind_lift_ok _ _ _ _ eq_refl). reflexivity. }
  exists i, n. split; [done|]. split; [done|]. split.
  - intros Hpos. destruct n as [|n]; [lia|].
    eexists. split; [unfold Np.amax; rewrite Hn; reflexivity|].
    split; [reflexivity|]. split.
    + rewrite Hrun. unfold Np.amax. rewrite Hn. reflexivity.
    + apply consistent_intro; simpl.
      * rewrite !length_delete by eauto. lia.
      * by rewrite map_delete, Hshape.
  - intros ->. rewrite Hrun. unfold Np.amax. rewrite Hn.
    split; [by eexists | reflexivity].
Qed.

(** X11.  [rename] overwrites the name at the position of the old one in
    the [dims] of the receiver and nothing else of it: a consistent array
    stays consistent, and when the new name was not in use the dimension
    answers to it with the length and the coordinate vector it had; for a
    name that is not a dimension [rename] raises [ValueError] and changes
    nothing. *)
Theorem rename_axis w self o (oldLabel newLabel : string) :
  dnpData.heap w !! self = Some o ->
  (oldLabel ∈ dnpData.dims o ->
     exists i o' w',
       find_index oldLabel (dnpData.dims o) = Some i
       /\ o' = dnpData.with_dims (<[i := newLabel]> (dnpData.dims o)) o
       /\ dnpData.rename self oldLabel newLabel w = (Ok tt, w')
       /\ dnpData.heap w' !! self = Some o'
       /\ dnpData.stdout w' = dnpData.stdout w
       /\ dnpData.consistent o' = dnpData.consistent o
       /\ (newLabel ∉ dnpData.dims o ->
             axis_len o' newLabel = axis_len o oldLabel
             /\ axis_coords o' newLabel = axis_coords o oldLabel
             /\ (NoDup (dnpData.dims o) -> NoDup (dnpData.dims o'))
             /\ (NoDup (dnpData.dims o) -> oldLabel ∉ dnpData.dims o')))
  /\ (oldLabel ∉ dnpData.dims o ->
        raises ValueError (fst (dnpData.rename self oldLabel newLabel w))
        /\ snd (dnpData.rename self oldLabel newLabel w) = w).
Proof.
  intros Hself. split.
  - intros Hin. destruct (find_index_some _ _ Hin) as [i Hi].
    pose proof (find_index_lookup _ _ _ Hi) as Hdi.
    assert (Hlt : i < length (dnpData.dims o)) by (by eapply lookup_lt_Some).
    exists i, (dnpData.with_dims (<[i := newLabel]> (dnpData.dims o)) o),
      (upd self (dnpData.with_dims (<[i := newLabel]> (dnpData.dims o)) o) w).
    split; [done|]. split; [done|].
    split; [|split; [apply heap_upd_eq|split; [reflexivity|split]]].
    + unfold dnpData.rename.
      rewrite (bind_ok _ _ _ _ _ (get_run self dnpData.dims w o Hself)).
      unfold index. rewrite Hi. rewrite (bind_lift_ok _ _ _ i eq_refl).
      rewrite (bind_ok _ _ _ _ _ (get_run self dnpData.dims w o Hself)).
      unfold setitem. rewrite decide_True by done.
      rewrite (bind_lift_ok _ _ _ _ eq_refl).
      by apply set_dims_run.
    + unfold dnpData.consistent, dnpData.core_invariant. simpl.
      by rewrite length_insert.
    + intros Hnew.
      assert (Hfi : find_index newLabel (<[i := newLabel]> (dnpData.dims o))
                    = Some i) by (apply (find_index_insert oldLabel); auto).
      unfold axis_len, axis_coords. simpl. rewrite Hfi, Hi.
      split; [done|]. split; [done|].
      assert (Hnd' : NoDup (dnpData.dims o) ->
                     NoDup (<[i := newLabel]> (dnpData.dims o))).
      { intros Hnd. apply NoDup_alt. intros j1 j2 x H1 H2.
        destruct (decide (j1 = i)) as [->|Hn1];
          destruct (decide (j2 = i)) as [->|Hn2]; [done| | |].
        - rewrite list_lookup_insert_eq in H1 by done. injection H1 as <-.
          rewrite list_lookup_insert_ne in H2 by done.
          exfalso. apply Hnew. apply list_elem_of_lookup. eauto.
        - rewrite list_lookup_insert_eq in H2 by done. injection H2 as <-.
          rewrite list_lookup_insert_ne in H1 by done.
          exfalso. apply Hnew. apply list_elem_of_lookup. eauto.
        - rewrite list_lookup_insert_ne in H1, H2 by done.
          by eapply NoDup_lookup. }
      split; [done|].
      intros Hnd Hold. apply list_elem_of_lookup in Hold as [j Hj].
      destruct (decide (j = i)) as [->|Hne].
      * rewrite list_lookup_insert_eq in Hj by done. injection Hj as ->.
        contradiction.
      * rewrite list_lookup_insert_ne in Hj by done.
        apply Hne. by eapply NoDup_lookup.
  - intros Hnot. apply find_index_none in Hnot.
    unfold dnpData.rename.
    rewrite (bind_ok _ _ _ _ _ (get_run self dnpData.dims w o Hself)).
    unfold index, raise. rewrite Hnot.
    rewrite (bind_lift_raise _ _ _ _ eq_refl). simpl.
    split; [by eexists | done].
Qed.

End queries.

Lemma len_is_length_of_axes_witness :
  exists i c,
    dnpData.dims sample_2d !! i = Some "y"
    /\ dnpData.coords sample_2d !! i = Some c
    /\ dnpData.index 0 "y" sample_world_2d = (Ok i, sample_world_2d)
    /\ dnpData.getAxes 0 "y" sample_world_2d = (Ok c, sample_world_2d)
    /\ dnpData.len 0 "y" sample_world_2d = (Ok (length c), sample_world_2d).
Proof.
  apply (proj1 (len_is_length_of_axes sample_world_2d 0 sample_2d "y"
                  eq_refl eq_refl)).
  by_deciding.
Defined.

Lemma amax_returns_reduced_copy_witness :
  exists i n,
    dnpData.dims sample_2d !! i = Some "y"
    /\ Np.shape (dnpData.values sample_2d) !! i = Some n
    /\ (0 < n ->
          exists v, Np.amax (dnpData.values sample_2d) i = Ok v
            /\ Np.shape v = delete i (Np.shape (dnpData.values sample_2d))
            /\ dnpData.amax 0 "y" sample_world_2d
               = (Ok (without_axis i v sample_2d), sample_world_2d)
            /\ dnpData.consistent (without_axis i v sample_2d) = true)
    /\ (n = 0 ->
          raises ValueError (fst (dnpData.amax 0 "y" sample_world_2d))
          /\ snd (dnpData.amax 0 "y" sample_world_2d) = sample_world_2d).
Proof.
  apply (amax_returns_reduced_copy sample_world_2d 0 sample_2d "y");
    [reflexivity | reflexivity | by_deciding].
Defined.

(** The maxima of the rows of the 3 by 2 array. *)
Example amax_over_y_scenario :
  dnpData.amax 0 "y" sample_world_2d
  = (Ok (dnpData.Obj "1.0" (Np.Array [3] [2; 4; 6]%Z) [[0; 1; 2]%Z] ["x"]
                     ∅ []),
     sample_world_2d).
Proof. vm_compute. reflexivity. Qed.

Lemma rename_axis_witness :
  exists i o' w',
    find_index "x" (dnpData.dims sample_2d) = Some i
    /\ o' = dnpData.with_dims (<[i := "t"]> (dnpData.dims sample_2d)) sample_2d
    /\ dnpData.rename 0 "x" "t" sample_world_2d = (Ok tt, w')
    /\ dnpData.heap w' !! 0 = Some o'
    /\ dnpData.stdout w' = dnpData.stdout sample_world_2d
    /\ dnpData.consistent o' = dnpData.consistent sample_2d
    /\ ("t" ∉ dnpData.dims sample_2d ->
          axis_len o' "t" = axis_len sample_2d "x"
          /\ axis_coords o' "t" = axis_coords sample_2d "x"
          /\ (NoDup (dnpData.dims sample_2d) -> NoDup (dnpData.dims o'))
          /\ (NoDup (dnpData.dims sample_2d) -> "x" ∉ dnpData.dims o')).
Proof.
  apply (proj1 (rename_axis sample_world_2d 0 sample_2d "x" "t" eq_refl)).
  by_deciding.
Defined.

(** ** Dropping and adding axes of length 1 *)

Lemma find_index_app_new (x : string) (ds : list string) :
  x ∉ ds -> find_index x (ds ++ [x]) = Some (length ds).
Proof.
  intros Hx. apply find_index_none in Hx. revert Hx.
  induction ds as [|d ds IH]; simpl.
  - by rewrite String.eqb_refl.
  - destruct (String.eqb d x); [discriminate|].
    destruct (find_index x ds); [discriminate|].
    intros _. by rewrite IH.
Qed.

Lemma find_index_app_old (k : string) (ds l : list string) (i : nat) :
  find_index k ds = Some i -> find_index k (ds ++ l) = Some i.
Proof.
  revert i. induction ds as [|d ds IH]; intros i; simpl; [discriminate|].
  destruct (String.eqb d k); [done|].
  destruct (find_index k ds) as [j|]; [|discriminate].
  intros [= <-]. by rewrite (IH j eq_refl).
Qed.

Section unit_axes.
Context {T : Type} `{Numeric T}.
Implicit Types (w : dnpData.world T) (o : dnpData.t T) (self : dnpData.loc).

Lemma remove_axes_from_app (k : nat) (cs : list (list T)) (c : list T) :
  dnpData.remove_axes_from k (cs ++ [c])
  = dnpData.remove_axes_from k cs
    ++ (if length c =? 1 then [k + length cs] else []).
Proof.
  revert k. induction cs as [|x cs IH]; intros k; simpl.
  - rewrite Nat.add_0_r. by destruct (length c =? 1).
  - rewrite IH. replace (S k + length cs) with (k + S (length cs)) by lia.
    by destruct (length x =? 1).
Qed.

Lemma remove_axes_none (k : nat) (cs : list (list T)) :
  dnpData.remove_axes_from k cs = [] ->
  Forall (fun c => length c <> 1) cs.
Proof.
  revert k. induction cs as [|c cs IH]; intros k E; [done|].
  simpl in E. destruct (Nat.eqb_spec (length c) 1); [discriminate|].
  constructor; [done | by eapply IH].
Qed.

Lemma kept_coords_app (cs1 cs2 : list (list T)) :
  kept_coords (cs1 ++ cs2) = kept_coords cs1 ++ kept_coords cs2.
Proof. apply List.filter_app. Qed.

Lemma kept_names_app (ds1 ds2 : list string) (cs1 cs2 : list (list T)) :
  length ds1 = length cs1 ->
  kept_names (ds1 ++ ds2) (cs1 ++ cs2)
  = kept_names ds1 cs1 ++ kept_names ds2 cs2.
Proof.
  intros Hlen. unfold kept_names.
  rewrite zip_with_app by done. by rewrite List.filter_app, map_app.
Qed.

Lemma kept_lengths (ds : list string) (cs : list (list T)) :
  length ds = length cs ->
  length (kept_names ds cs) = length (kept_coords cs).
Proof.
  revert ds. induction cs as [|c cs IH]; intros [|d ds] Hlen;
    try discriminate; [done|].
  unfold kept_names, kept_coords in *. simpl.
  destruct (length c =? 1); simpl; [|f_equal]; apply IH; simpl in Hlen; lia.
Qed.

Lemma kept_shape (cs : list (list T)) :
  map length (kept_coords cs)
  = List.filter (fun n => negb (n =? 1)) (map length cs).
Proof.
  induction cs as [|c cs IH]; [done|]. unfold kept_coords in *. simpl.
  destruct (length c =? 1); simpl; by rewrite IH.
Qed.

Lemma kept_coords_all (cs : list (list T)) :
  Forall (fun c => length c <> 1) (kept_coords cs).
Proof.
  apply Forall_forall. intros c Hc.
  apply list_elem_of_In, filter_In in Hc as [_ Hc].
  apply negb_true_iff, Nat.eqb_neq in Hc. done.
Qed.

Lemma kept_coords_id (cs : list (list T)) :
  Forall (fun c => length c <> 1) cs -> kept_coords cs = cs.
Proof.
  induction 1 as [|c cs Hc _ IH]; [done|]. unfold kept_coords in *. simpl.
  apply Nat.eqb_neq in Hc. rewrite Hc. simpl. by rewrite IH.
Qed.

Lemma kept_names_id (ds : list string) (cs : list (list T)) :
  length ds = length cs -> Forall (fun c => length c <> 1) cs ->
  kept_names ds cs = ds.
Proof.
  intros Hlen Hall. revert ds Hlen.
  induction Hall as [|c cs Hc _ IH]; intros [|d ds] Hlen;
    try discriminate; [done|].
  unfold kept_names in *. simpl. apply Nat.eqb_neq in Hc. rewrite Hc. simpl.
  f_equal. apply IH. simpl in Hlen. lia.
Qed.

Lemma squeeze_squeeze (a : Np.ndarray T) :
  Np.squeeze (Np.squeeze a) = Np.squeeze a.
Proof.
  unfold Np.squeeze. simpl. f_equal.
  induction (Np.shape a) as [|n s IH]; [done|]. simpl.
  destruct (n =? 1) eqn:E; simpl; [done|]. by rewrite E, IH.
Qed.

Lemma upd_same self o w : dnpData.heap w !! self = Some o -> upd self o w = w.
Proof.
  intros Hself. destruct w as [h out]. unfold upd. simpl in *.
  by rewrite insert_id.
Qed.

(** One turn of the loop of [squeeze]. *)
Lemma squeeze_loop_cons self o w (i : nat) (rest : list nat)
    (c : list T) (d : string) :
  dnpData.heap w !! self = Some o ->
  dnpData.coords o !! i = Some c -> dnpData.dims o !! i = Some d ->
  dnpData.squeeze_loop self (i :: rest) w
  = dnpData.squeeze_loop self rest
      (upd self (dnpData.Obj (dnpData.version o)
                   (Np.squeeze (dnpData.values o))
                   (delete i (dnpData.coords o)) (delete i (dnpData.dims o))
                   (dnpData.attrs o) (dnpData.proc_attrs o)) w).
Proof.
  intros Hself Hc Hd. simpl.
  rewrite (bind_ok _ _ _ _ _ (get_run self dnpData.coords w o Hself)).
  unfold pop. rewrite Hc. rewrite (bind_lift_ok _ _ _ _ eq_refl).
  rewrite (bind_ok _ _ _ _ _ (set_coords_run self _ w o Hself)).
  rewrite (bind_ok _ _ _ _ _
             (get_run self dnpData.dims _ _ (heap_upd_eq _ _ _))).
  simpl dnpData.dims. rewrite Hd. rewrite (bind_lift_ok _ _ _ _ eq_refl).
  rewrite (bind_ok _ _ _ _ _ (set_dims_run self _ _ _ (heap_upd_eq _ _ _))).
  rewrite upd_upd.
  rewrite (bind_ok _ _ _ _ _
             (get_run self dnpData.values _ _ (heap_upd_eq _ _ _))).
  rewrite (bind_ok _ _ _ _ _
             (set_values_run self _ _ _ (heap_upd_eq _ _ _))).
  by rewrite upd_upd.
Qed.

(** The loop over the unit axes among the first coordinate vectors: the
    vectors and names behind them are not touched. *)
Lemma squeeze_loop_run self (cs0 : list (list T)) :
  forall (ds0 : list string) (ctail : list (list T)) (dtail : list string)
         o w,
    dnpData.heap w !! self = Some o ->
    dnpData.coords o = cs0 ++ ctail ->
    dnpData.dims o = ds0 ++ dtail ->
    length ds0 = length cs0 ->
    dnpData.squeeze_loop self (rev (dnpData.remove_axes_from 0 cs0)) w
    = (Ok tt,
       upd self (dnpData.Obj (dnpData.version o)
                   (match dnpData.remove_axes_from 0 cs0 with
                    | [] => dnpData.values o
                    | _ => Np.squeeze (dnpData.values o)
                    end)
                   (kept_coords cs0 ++ ctail) (kept_names ds0 cs0 ++ dtail)
                   (dnpData.attrs o) (dnpData.proc_attrs o)) w).
Proof.
  induction cs0 as [|c cs0 IH] using rev_ind;
    intros ds0 ctail dtail o w Hself Hc Hd Hlen.
  - destruct ds0; [|discriminate]. simpl in *.
    rewrite <- Hc, <- Hd. unfold ret.
    replace (dnpData.Obj _ _ _ _ _ _) with o by (by destruct o).
    by rewrite upd_same.
  - destruct ds0 as [|d ds0 _] using rev_ind.
    { rewrite length_app in Hlen. simpl in Hlen. lia. }
    rewrite !length_app in Hlen. simpl in Hlen.
    assert (Hlen0 : length ds0 = length cs0) by lia.
    rewrite remove_axes_from_app, kept_coords_app, kept_names_app by done.
    rewrite <- app_assoc in Hc, Hd. simpl in Hc, Hd.
    unfold kept_coords at 2, kept_names at 2. simpl.
    destruct (length c =? 1) eqn:E; simpl.
    + rewrite rev_unit.
      rewrite (squeeze_loop_cons self o w _ _ c d Hself).
      2: { rewrite Hc. by apply list_lookup_middle. }
      2: { rewrite Hd, <- Hlen0. by apply list_lookup_middle. }
      rewrite Hc, (delete_middle cs0).
      rewrite Hd, <- Hlen0, (delete_middle ds0).
      erewrite (IH ds0 ctail dtail); [|apply heap_upd_eq|done|done|done].
      rewrite upd_upd. simpl. rewrite squeeze_squeeze, !app_nil_r.
      assert (Hm : forall (R : list nat) (n : nat) (a b : Np.ndarray T),
                match R ++ [n] with [] => a | _ :: _ => b end = b)
        by (by intros [|? ?]).
      rewrite Hm. by destruct (dnpData.remove_axes_from 0 cs0).
    + rewrite !app_nil_r.
      rewrite (IH ds0 (c :: ctail) (d :: dtail) o w Hself Hc Hd Hlen0).
      by rewrite <- !app_assoc.
Qed.

Lemma squeeze_run w self o :
  dnpData.heap w !! self = Some o ->
  dnpData.consistent o = true ->
  dnpData.squeeze self w = (Ok tt, upd self (squeezed o) w).
Proof.
  intros Hself Hcons.
  destruct (consistent_inv o Hcons) as (Hdc & Hcn & Hshape).
  unfold dnpData.squeeze.
  rewrite (bind_ok _ _ _ _ _ (get_run self dnpData.coords w o Hself)).
  rewrite (squeeze_loop_run self (dnpData.coords o) (dnpData.dims o) [] []
             o w Hself); [|by rewrite app_nil_r..|done].
  rewrite !app_nil_r. do 2 f_equal. unfold squeezed. f_equal.
  destruct (dnpData.remove_axes_from 0 (dnpData.coords o)) eqn:E; [|done].
  unfold Np.squeeze. rewrite <- Hshape, <- kept_shape.
  rewrite kept_coords_id by (by eapply remove_axes_none).
  rewrite Hshape. by destruct (dnpData.values o).
Qed.

Lemma squeezed_consistent o :
  dnpData.consistent o = true -> dnpData.consistent (squeezed o) = true.
Proof.
  intros Hcons.
  destruct (consistent_inv o Hcons) as (Hdc & Hcn & Hshape).
  apply consistent_intro; simpl.
  - by apply kept_lengths.
  - by rewrite kept_shape, Hshape.
Qed.

Lemma addAxes_run w self o (s : string) (axesValue : dnpData.axes_value T) :
  dnpData.heap w !! self = Some o ->
  s ∉ dnpData.dims o ->
  dnpData.addAxes self (dnpData.LabelStr s) axesValue w
  = (Ok tt, upd self (with_axis s (dnpData.r_ axesValue) o) w).
Proof.
  intros Hself Hnew.
  assert (Hc : contains s (dnpData.dims o) = false).
  { destruct (contains s (dnpData.dims o)) eqn:E; [|done].
    apply contains_elem in E. contradiction. }
  unfold dnpData.addAxes.
  rewrite (bind_ok _ _ _ _ _ (get_run self dnpData.dims w o Hself)).
  rewrite Hc.
  rewrite (bind_ok _ _ _ _ _ (get_run self dnpData.dims w o Hself)).
  rewrite (bind_ok _ _ _ _ _ (set_dims_run self _ w o Hself)).
  rewrite (bind_ok _ _ _ _ _
             (get_run self dnpData.coords _ _ (heap_upd_eq _ _ _))).
  rewrite (bind_ok _ _ _ _ _
             (set_coords_run self _ _ _ (heap_upd_eq _ _ _))).
  rewrite upd_upd.
  rewrite (bind_ok _ _ _ _ _
             (get_run self dnpData.values _ _ (heap_upd_eq _ _ _))).
  rewrite (set_values_run self _ _ _ (heap_upd_eq _ _ _)).
  by rewrite upd_upd.
Qed.

Lemma with_axis_consistent o (s : string) (c : list T) :
  dnpData.consistent o = true ->
  dnpData.consistent (with_axis s c o) = bool_decide (length c = 1).
Proof.
  intros Hcons.
  destruct (consistent_inv o Hcons) as (Hdc & Hcn & Hshape).
  unfold dnpData.consistent, dnpData.core_invariant, Np.ndim. simpl.
  rewrite !length_app, map_app, Hshape. simpl.
  unfold Np.ndim in Hcn. rewrite Hdc, Hcn, !Nat.eqb_refl. simpl.
  destruct (bool_decide_reflect (length c = 1)) as [->|Hne].
  - by apply bool_decide_eq_true.
  - apply bool_decide_eq_false. intros Heq. apply app_inv_head in Heq.
    congruence.
Qed.

(** X12.  [squeeze] on a consistent array drops from the receiver exactly
    the dimensions whose coordinate vector has length 1, with their names,
    and the axes of length 1 of its buffer; the receiver is consistent again
    and has no axis of length 1 left.  An array without such a dimension is
    left as it is. *)
Theorem squeeze_drops_unit_axes w self o :
  dnpData.heap w !! self = Some o ->
  dnpData.consistent o = true ->
  exists o' w',
    dnpData.squeeze self w = (Ok tt, w')
    /\ dnpData.heap w' !! self = Some o'
    /\ dnpData.stdout w' = dnpData.stdout w
    /\ dnpData.coords o' = kept_coords (dnpData.coords o)
    /\ dnpData.dims o' = kept_names (dnpData.dims o) (dnpData.coords o)
    /\ dnpData.values o' = Np.squeeze (dnpData.values o)
    /\ dnpData.consistent o' = true
    /\ Forall (fun c => length c <> 1) (dnpData.coords o')
    /\ (Forall (fun c => length c <> 1) (dnpData.coords o) -> o' = o).
Proof.
  intros Hself Hcons. exists (squeezed o), (upd self (squeezed o) w).
  split; [by apply squeeze_run|]. split; [apply heap_upd_eq|].
  split; [reflexivity|]. split; [done|]. split; [done|].
  split; [done|]. split; [by apply squeezed_consistent|].
  split; [apply kept_coords_all|].
  intros Hall. destruct (consistent_inv o Hcons) as (Hdc & Hcn & Hshape).
  unfold squeezed, Np.squeeze.
  rewrite <- Hshape, <- kept_shape, kept_coords_id, kept_names_id by done.
  rewrite Hshape. by destruct o as [? [] ? ? ? ?].
Qed.

(** X13.  [addAxes] with a new name appends a dimension to the receiver:
    name, coordinate vector and a buffer axis of length 1 are put last and
    the dimensions the array had keep their lengths and coordinate vectors.
    A consistent array stays consistent exactly when one coordinate is
    given.  With a name that is already a dimension the call prints and
    changes nothing, and so it does for a label that is not a string. *)
Theorem addAxes_appends_unit_axis w self o (s : string)
    (axesValue : dnpData.axes_value T) :
  dnpData.heap w !! self = Some o ->
  (s ∉ dnpData.dims o ->
     let o' := with_axis s (dnpData.r_ axesValue) o in
     (exists w',
        dnpData.addAxes self (dnpData.LabelStr s) axesValue w = (Ok tt, w')
        /\ dnpData.heap w' !! self = Some o'
        /\ dnpData.stdout w' = dnpData.stdout w)
     /\ (dnpData.consistent o = true ->
           (dnpData.consistent o' = true
            <-> length (dnpData.r_ axesValue) = 1)
           /\ axis_len o' s = Some 1
           /\ axis_coords o' s = Some (dnpData.r_ axesValue)
           /\ forall k, k ∈ dnpData.dims o ->
                axis_len o' k = axis_len o k
                /\ axis_coords o' k = axis_coords o k))
  /\ (s ∈ dnpData.dims o ->
        dnpData.addAxes self (dnpData.LabelStr s) axesValue w
        = (Ok tt, dnpData.World (dnpData.heap w)
                    (dnpData.stdout w
                     ++ [("Axes " ++ s ++ " already exists")%string])))
  /\ dnpData.addAxes self dnpData.LabelOther axesValue w
     = (Ok tt, dnpData.World (dnpData.heap w)
                 (dnpData.stdout w ++ ["Axes label must be a string"])).
Proof.
  intros Hself. split; [|split].
  - intros Hnew o'. split.
    { exists (upd self o' w).
      split; [by apply addAxes_run|]. split; [apply heap_upd_eq|done]. }
    intros Hcons.
    destruct (consistent_inv o Hcons) as (Hdc & Hcn & Hshape).
    pose proof (find_index_app_new s (dnpData.dims o) Hnew) as Hfi.
    unfold Np.ndim in Hcn.
    split; [|split; [|split]].
    + unfold o'. rewrite with_axis_consistent by done.
      by rewrite bool_decide_eq_true.
    + unfold axis_len. simpl. rewrite Hfi, Hdc, Hcn.
      by rewrite list_lookup_middle.
    + unfold axis_coords. simpl. rewrite Hfi, Hdc.
      by rewrite list_lookup_middle.
    + intros k Hk. destruct (find_index_some _ _ Hk) as [i Hi].
      pose proof (find_index_app_old k _ [s] i Hi) as Hfk.
      pose proof (find_index_lookup _ _ _ Hi) as Hdi.
      apply lookup_lt_Some in Hdi.
      unfold axis_len, axis_coords. simpl. rewrite Hfk, Hi.
      split; apply lookup_app_l; lia.
  - intros Hin. apply contains_elem in Hin.
    destruct (find_index_some s (dnpData.dims o)) as [i Hi];
      [by apply contains_elem|].
    unfold dnpData.addAxes.
    rewrite (bind_ok _ _ _ _ _ (get_run self dnpData.dims w o Hself)).
    rewrite Hin. unfold index. rewrite Hi.
    by rewrite (bind_lift_ok _ _ _ _ eq_refl).
  - unfold dnpData.addAxes.
    by rewrite (bind_ok _ _ _ _ _ (get_run self dnpData.dims w o Hself)).
Qed.

(** X14.  [squeeze] undoes [addAxes]: on a consistent array without a
    dimension of length 1, adding a dimension with one coordinate under a
    new name and squeezing gives the array back. *)
Theorem squeeze_undoes_addAxes w self o (s : string) (x : T) :
  dnpData.heap w !! self = Some o ->
  dnpData.consistent o = true ->
  Forall (fun c => length c <> 1) (dnpData.coords o) ->
  s ∉ dnpData.dims o ->
  bind (dnpData.addAxes self (dnpData.LabelStr s) (dnpData.Single x))
       (fun _ => dnpData.squeeze self) w
  = (Ok tt, w).
Proof.
  intros Hself Hcons Hall Hnew.
  destruct (consistent_inv o Hcons) as (Hdc & Hcn & Hshape).
  rewrite (bind_ok _ _ _ _ _ (addAxes_run w self o s _ Hself Hnew)).
  rewrite (squeeze_run _ self _ (heap_upd_eq _ _ _)).
  2: { by rewrite with_axis_consistent. }
  rewrite upd_upd. rewrite <- (upd_same self o w Hself) at 2.
  do 2 f_equal. unfold squeezed, with_axis, Np.squeeze. simpl.
  rewrite kept_coords_app, kept_names_app by done.
  rewrite kept_coords_id, kept_names_id by done.
  rewrite List.filter_app, <- Hshape, <- kept_shape, kept_coords_id by done.
  unfold kept_coords, kept_names. simpl. rewrite !app_nil_r, Hshape.
  by destruct o as [? [] ? ? ? ?].
Qed.

End unit_axes.

Lemma squeeze_drops_unit_axes_witness :
  exists o' w',
    dnpData.squeeze 1 sample_pair = (Ok tt, w')
    /\ dnpData.heap w' !! 1 = Some o'
    /\ dnpData.stdout w' = dnpData.stdout sample_pair
    /\ dnpData.coords o' = kept_coords (dnpData.coords sample_other)
    /\ dnpData.dims o'
       = kept_names (dnpData.dims sample_other) (dnpData.coords sample_other)
    /\ dnpData.values o' = Np.squeeze (dnpData.values sample_other)
    /\ dnpData.consistent o' = true
    /\ Forall (fun c => length c <> 1) (dnpData.coords o')
    /\ (Forall (fun c => length c <> 1) (dnpData.coords sample_other) ->
        o' = sample_other).
Proof.
  apply (squeeze_drops_unit_axes sample_pair 1 sample_other); reflexivity.
Defined.

(** The 1 by 3 array loses its dimension [y]. *)
Example squeeze_scenario :
  dnpData.squeeze 1 sample_pair
  = (Ok tt,
     dnpData.World
       {[ 0 := sample_2d;
          1 := dnpData.Obj "1.0" (Np.Array [3] [7; 8; 9]%Z) [[0; 1; 2]%Z]
                 ["x"] ∅ [] ]} []).
Proof. vm_compute. reflexivity. Qed.

Lemma addAxes_appends_unit_axis_witness :
  let o' := with_axis "t" [7%Z] sample_2d in
  (exists w',
     dnpData.addAxes 0 (dnpData.LabelStr "t") (dnpData.Single 7%Z)
       sample_world_2d = (Ok tt, w')
     /\ dnpData.heap w' !! 0 = Some o'
     /\ dnpData.stdout w' = dnpData.stdout sample_world_2d)
  /\ (dnpData.consistent sample_2d = true ->
        (dnpData.consistent o' = true <-> length [7%Z] = 1)
        /\ axis_len o' "t" = Some 1
        /\ axis_coords o' "t" = Some [7%Z]
        /\ forall k, k ∈ dnpData.dims sample_2d ->
             axis_len o' k = axis_len sample_2d k
             /\ axis_coords o' k = axis_coords sample_2d k).
Proof.
  apply (proj1 (addAxes_appends_unit_axis sample_world_2d 0 sample_2d "t"
                  (dnpData.Single 7%Z) eq_refl)).
  by_deciding.
Defined.

Lemma squeeze_undoes_addAxes_witness :
  bind (dnpData.addAxes 0 (dnpData.LabelStr "t") (dnpData.Single 7%Z))
       (fun _ => dnpData.squeeze 0) sample_world_2d
  = (Ok tt, sample_world_2d).
Proof.
  apply (squeeze_undoes_addAxes sample_world_2d 0 sample_2d "t" 7%Z);
    [reflexivity | reflexivity | | by_deciding].
  repeat constructor; simpl; lia.
Defined.

(** ** Workspaces *)

Section workspaces.
Import dnpdata_collection.
Implicit Types (d : dict) (k : key) (v : object) (self : dnpdata_collection.t).

Lemma key_eqb_eq k1 k2 : key_eqb k1 k2 = true <-> k1 = k2.
Proof.
  destruct k1, k2; simpl; try (split; [discriminate | congruence]).
  - rewrite String.eqb_eq. split; congruence.
  - rewrite Z.eqb_eq. split; congruence.
Qed.

Lemma key_eqb_refl k : key_eqb k k = true.
Proof. by apply key_eqb_eq. Qed.

Lemma key_eqb_ne k1 k2 : k1 <> k2 -> key_eqb k1 k2 = false.
Proof.
  intros Hne. destruct (key_eqb k1 k2) eqn:E; [|done].
  apply key_eqb_eq in E. contradiction.
Qed.

Lemma dict_getitem_setitem_eq d k v :
  dict_getitem (dict_setitem d k v) k = Ok v.
Proof.
  induction d as [|[k' v'] d IH]; simpl.
  - by rewrite key_eqb_refl.
  - destruct (key_eqb k' k) eqn:E; simpl; by rewrite E.
Qed.

Lemma dict_getitem_setitem_ne d k k' v :
  k' <> k -> dict_getitem (dict_setitem d k v) k' = dict_getitem d k'.
Proof.
  intros Hne. induction d as [|[k0 v0] d IH]; simpl.
  - by rewrite key_eqb_ne.
  - destruct (key_eqb k0 k) eqn:E; simpl.
    + apply key_eqb_eq in E as ->. by rewrite key_eqb_ne.
    + by rewrite IH.
Qed.

Lemma dict_getitem_elem d k v :
  dict_getitem d k = Ok v -> (k, v) ∈ d.
Proof.
  induction d as [|[k0 v0] d IH]; simpl; [discriminate|].
  destruct (key_eqb k0 k) eqn:E.
  - apply key_eqb_eq in E as ->. intros [= ->]. left.
  - intros Hd. right. auto.
Qed.

Lemma dict_getitem_missing d k :
  k ∉ map fst d <-> dict_getitem d k = raise KeyError (key_repr k).
Proof.
  induction d as [|[k0 v0] d IH]; simpl.
  - split; [done | intros _; apply not_elem_of_nil].
  - rewrite not_elem_of_cons. destruct (key_eqb k0 k) eqn:E.
    + apply key_eqb_eq in E as ->. split; [intros [? _]; done | discriminate].
    + rewrite <- IH. split; [tauto|]. intros Hk. split; [|done].
      intros ->. by rewrite key_eqb_refl in E.
Qed.

Lemma dict_getitem_cases d k :
  (exists v, dict_getitem d k = Ok v /\ k ∈ map fst d)
  \/ (dict_getitem d k = raise KeyError (key_repr k) /\ k ∉ map fst d).
Proof.
  destruct (decide (k ∈ map fst d)) as [Hin|Hnot].
  - left. destruct (dict_getitem d k) as [v|e] eqn:E; [eauto|].
    exfalso. revert E. clear -Hin.
    induction d as [|[k0 v0] d IH]; simpl in *.
    + by apply elem_of_nil in Hin.
    + destruct (key_eqb k0 k) eqn:E0; [discriminate|].
      apply elem_of_cons in Hin as [->|Hin]; [by rewrite key_eqb_refl in E0|].
      auto.
  - right. split; [|done]. by apply dict_getitem_missing.
Qed.

Lemma keys_setitem d k v :
  map fst (dict_setitem d k v)
  = if bool_decide (k ∈ map fst d) then map fst d else map fst d ++ [k].
Proof.
  induction d as [|[k0 v0] d IH]; simpl; [done|].
  destruct (key_eqb k0 k) eqn:E; simpl.
  - apply key_eqb_eq in E as ->.
    rewrite bool_decide_eq_true_2; [done | left].
  - rewrite IH. assert (Hne : k <> k0).
    { intros ->. by rewrite key_eqb_refl in E. }
    destruct (bool_decide_reflect (k ∈ map fst d)) as [Hin|Hnot].
    + rewrite bool_decide_eq_true_2; [done | by right].
    + rewrite bool_decide_eq_false_2; [done|].
      rewrite not_elem_of_cons. auto.
Qed.

Lemma setitem_invariant d k v :
  NoDup (map fst d) ->
  Forall (fun kv => is_dnpData_or_dict (snd kv) = true) d ->
  is_dnpData_or_dict v = true ->
  NoDup (map fst (dict_setitem d k v))
  /\ Forall (fun kv => is_dnpData_or_dict (snd kv) = true)
            (dict_setitem d k v).
Proof.
  intros Hnd Hall Hv. split.
  - rewrite keys_setitem.
    destruct (bool_decide_reflect (k ∈ map fst d)); [done|].
    apply NoDup_app. split; [done|]. split; [|apply NoDup_singleton].
    intros x Hx Hk. apply list_elem_of_singleton in Hk as ->. contradiction.
  - induction Hall as [|[k0 v0] d Hv0 Hall IH]; simpl.
    + by repeat constructor.
    + apply NoDup_cons in Hnd as [_ Hnd].
      destruct (key_eqb k0 k); constructor; auto.
Qed.

(** What [pop] leaves of a dictionary with distinct keys. *)
Lemma dict_pop_present d k v :
  dict_getitem d k = Ok v ->
  exists d',
    dict_pop d k = Ok (v, d')
    /\ length d = S (length d')
    /\ (forall k', k' <> k -> dict_getitem d' k' = dict_getitem d k')
    /\ (NoDup (map fst d) ->
          NoDup (map fst d') /\ k ∉ map fst d')
    /\ (Forall (fun kv => is_dnpData_or_dict (snd kv) = true) d ->
          Forall (fun kv => is_dnpData_or_dict (snd kv) = true) d').
Proof.
  induction d as [|[k0 v0] d IH]; simpl; [discriminate|].
  destruct (key_eqb k0 k) eqn:E.
  - apply key_eqb_eq in E as ->. intros [= ->]. exists d.
    split; [done|]. split; [done|]. split; [|split].
    + intros k' Hne. by rewrite key_eqb_ne.
    + intros Hnd. apply NoDup_cons in Hnd as [? ?]. auto.
    + intros Hall. by apply Forall_cons in Hall as [_ ?].
  - intros Hget. destruct (IH Hget) as (d' & Hpop & Hlen & Hother & Hnd & Hall).
    exists ((k0, v0) :: d'). rewrite Hpop. simpl.
    split; [done|]. split; [by rewrite Hlen|]. split; [|split].
    + intros k' Hne. destruct (key_eqb k0 k'); [done | auto].
    + intros Hnd0. apply NoDup_cons in Hnd0 as [Hk0 Hnd0].
      destruct (Hnd Hnd0) as [Hnd' Hk]. split.
      * apply NoDup_cons. split; [|done].
        intros Hin. apply Hk0.
        apply list_elem_of_fmap in Hin as ([k1 v1] & -> & Hin). simpl.
        destruct (decide (k1 = k)) as [->|Hne].
        -- exfalso. apply Hk. apply list_elem_of_fmap.
           exists (k, v1). auto.
        -- assert (Hg : dict_getitem d' k1 = dict_getitem d k1) by auto.
           destruct (dict_getitem_cases d k1) as [(? & _ & ?)|[Hr Hno]];
             [done|].
           exfalso. rewrite Hr in Hg.
           apply dict_getitem_missing in Hg. apply Hg.
           apply list_elem_of_fmap. exists (k1, v1). auto.
      * rewrite not_elem_of_cons. split; [|done].
        intros ->. by rewrite key_eqb_refl in E.
    + intros Hall0. apply Forall_cons in Hall0 as [? ?].
      constructor; auto.
Qed.

Lemma dict_pop_missing d k :
  k ∉ map fst d -> dict_pop d k = raise KeyError (key_repr k).
Proof.
  induction d as [|[k0 v0] d IH]; simpl; [done|].
  rewrite not_elem_of_cons. intros [Hne Hk].
  rewrite key_eqb_ne by done. by rewrite IH.
Qed.

Lemma copy_items_invariant (items : dict) (ks : list key) (own d : dict) :
  copy_items items ks own = Ok d ->
  NoDup (map fst own) ->
  Forall (fun kv => is_dnpData_or_dict (snd kv) = true) own ->
  NoDup (map fst d)
  /\ Forall (fun kv => is_dnpData_or_dict (snd kv) = true) d.
Proof.
  revert own. induction ks as [|k ks IH]; intros own; simpl.
  - intros [= ->]. auto.
  - destruct (dict_getitem items k) as [v|e]; simpl; [|discriminate].
    destruct (is_dnpData_or_dict v) eqn:Hv; [|discriminate].
    intros Hrun Hnd Hall.
    destruct (setitem_invariant own k v Hnd Hall Hv) as [Hnd' Hall'].
    by apply (IH _ Hrun).
Qed.

(** X15.  The workspace invariant: the constructor returns a workspace
    whose keys are distinct and whose values are labelled arrays or
    dictionaries, with the processing buffer "proc", and every update keeps
    the invariant, whether it returns or raises. *)
Theorem workspace_invariant_kept :
  (forall args self,
     __init__ args = Ok self ->
     workspace_invariant self /\ processing_buffer self = "proc")
  /\ (forall self, workspace_invariant self ->
        (forall key value,
           workspace_invariant (snd (__setitem__ key value self))
           /\ workspace_invariant (snd (add key value self)))
        /\ (forall k,
              workspace_invariant (snd (__delitem__ k self))
              /\ workspace_invariant (snd (pop k self)))
        /\ (forall a b, workspace_invariant (snd (move a b self)))
        /\ workspace_invariant (snd (clear self))
        /\ (forall b, workspace_invariant (snd (set_processing_buffer b self)))).
Proof.
  assert (Hnil : NoDup (map fst ([] : dict))
                 /\ Forall (fun kv => is_dnpData_or_dict (snd kv) = true)
                           ([] : dict)).
  { split; constructor. }
  assert (Hset : forall self key value, workspace_invariant self ->
            workspace_invariant (snd (__setitem__ key value self))).
  { intros self key value [Hnd Hall]. unfold __setitem__.
    destruct (as_str key) as [name|]; [|done].
    destruct (is_dnpData_or_dict value) eqn:Hv; simpl; [|done].
    by apply setitem_invariant. }
  assert (Hpop : forall self k, workspace_invariant self ->
            workspace_invariant (snd (pop k self))
            /\ (forall v self', pop k self = (Ok v, self') ->
                  is_dnpData_or_dict v = true)).
  { intros self k [Hnd Hall]. unfold pop, bind, get_data_dict, lift. simpl.
    destruct (dict_getitem_cases (__data_dict self) k)
      as [(v & Hget & _)|[_ Hno]].
    - destruct (dict_pop_present _ _ _ Hget)
        as (d' & -> & _ & _ & Hnd' & Hall').
      simpl. split; [split; [by apply Hnd' | by apply Hall']|].
      intros v' self' [= <- _].
      apply dict_getitem_elem in Hget.
      rewrite Forall_forall in Hall. by apply (Hall (k, v)).
    - rewrite (dict_pop_missing _ _ Hno). split; [done|]. discriminate. }
  split.
  - intros args self Hinit. unfold __init__ in Hinit.
    destruct args as [|arg0 [|arg1 [|arg2 rest]]].
    + injection Hinit as <-. done.
    + destruct arg0; simpl in Hinit; try discriminate.
      destruct (copy_items items (map fst items) []) as [own|e] eqn:Hc;
        [|discriminate].
      simpl in Hinit. injection Hinit as <-.
      split; [|done]. eapply copy_items_invariant; [exact Hc | apply Hnil..].
    + destruct arg0; try discriminate.
      destruct (is_dnpData_or_dict arg1) eqn:Hv; [|discriminate].
      injection Hinit as <-. split; [|done].
      split; simpl; [apply NoDup_singleton | by repeat constructor].
    + discriminate.
  - intros self Hinv. split; [|split; [|split; [|split]]].
    + intros key value. split; [by apply Hset|].
      destruct Hinv as [Hnd Hall]. unfold add.
      destruct (as_str key) as [name|]; [|done].
      destruct (is_dnpData_or_dict value) eqn:Hv; simpl; [|done].
      by apply setitem_invariant.
    + intros k. split; [|by apply Hpop].
      destruct Hinv as [Hnd Hall].
      unfold __delitem__, bind, get_data_dict, lift. simpl.
      destruct (dict_getitem_cases (__data_dict self) k)
        as [(v & Hget & _)|[_ Hno]].
      * destruct (dict_pop_present _ _ _ Hget)
          as (d' & -> & _ & _ & Hnd' & Hall').
        simpl. split; [by apply Hnd' | by apply Hall'].
      * by rewrite (dict_pop_missing _ _ Hno).
    + intros a b. destruct (Hpop self a Hinv) as [Hp _].
      unfold move, bind at 1.
      destruct (pop a self) as [[v|e] self1]; [|done].
      by apply Hset.
    + done.
    + intros b. unfold set_processing_buffer.
      destruct (as_str b); done.
Qed.

(** X16.  Storing under a string key and reading back: [ws[name] = v]
    with a labelled array or a dictionary succeeds, [ws[name]] and
    [ws.get(name)] then return [v], every other key reads as before, the
    key list gains [name] at its end unless it was there, and [add] does the
    same; a key that is not a string, or a value of another type, gives
    [TypeError] and changes nothing. *)
Theorem workspace_store_and_read self (key value : object) :
  (forall name,
     key = Str name -> is_dnpData_or_dict value = true ->
     exists self',
       __setitem__ key value self = (Ok tt, self')
       /\ add key value self = (Ok tt, self')
       /\ __getitem__ self' (KStr name) = Ok value
       /\ get self' (KStr name) = Ok value
       /\ (forall k, k <> KStr name ->
             __getitem__ self' k = __getitem__ self k)
       /\ keys self'
          = (if bool_decide (KStr name ∈ keys self) then keys self
             else keys self ++ [KStr name])
       /\ processing_buffer self' = processing_buffer self)
  /\ (as_str key = None \/ is_dnpData_or_dict value = false ->
        raises TypeError (fst (__setitem__ key value self))
        /\ snd (__setitem__ key value self) = self
        /\ raises TypeError (fst (add key value self))
        /\ snd (add key value self) = self).
Proof.
  split.
  - intros name -> Hv.
    exists (Collection (_processing_buffer self)
              (dict_setitem (__data_dict self) (KStr name) value)).
    unfold __setitem__, add. simpl. rewrite Hv. simpl.
    split; [done|]. split; [done|].
    unfold get, __getitem__, keys. simpl.
    split; [apply dict_getitem_setitem_eq|].
    split; [apply dict_getitem_setitem_eq|].
    split; [intros k Hk; by apply dict_getitem_setitem_ne|].
    split; [apply keys_setitem | done].
  - intros Hbad. unfold __setitem__, add.
    destruct (as_str key) as [name|].
    + destruct Hbad as [|Hv]; [discriminate|]. rewrite Hv. simpl.
      repeat split; by eexists.
    + repeat split; by eexists.
Qed.

(** X17.  Deleting: for a key of a workspace with distinct keys,
    [del ws[k]] and [ws.pop(k)] remove the entry ([pop] returns its value),
    the key then raises [KeyError] on reading, every other key reads as
    before and the workspace holds one entry less; for a key that is absent
    both raise [KeyError] and change nothing, and so do [ws[k]] and
    [ws.get(k)]. *)
Theorem workspace_delete self k :
  NoDup (keys self) ->
  (forall v, __getitem__ self k = Ok v ->
     exists self',
       __delitem__ k self = (Ok tt, self')
       /\ pop k self = (Ok v, self')
       /\ raises KeyError (__getitem__ self' k)
       /\ (forall k', k' <> k -> __getitem__ self' k' = __getitem__ self k')
       /\ __len__ self = S (__len__ self')
       /\ NoDup (keys self'))
  /\ (k ∉ keys self ->
        raises KeyError (fst (__delitem__ k self))
        /\ snd (__delitem__ k self) = self
        /\ raises KeyError (fst (pop k self))
        /\ snd (pop k self) = self
        /\ raises KeyError (__getitem__ self k)
        /\ raises KeyError (get self k)).
Proof.
  intros Hnd. split.
  - intros v Hget. unfold __getitem__ in Hget.
    destruct (dict_pop_present _ _ _ Hget)
      as (d' & Hpop & Hlen & Hother & Hnd' & _).
    destruct (Hnd' Hnd) as [Hnd1 Hk].
    exists (Collection (_processing_buffer self) d').
    unfold __delitem__, pop, bind, get_data_dict, lift. simpl.
    rewrite Hpop. simpl. split; [done|]. split; [done|].
    unfold __getitem__, __len__, keys. simpl.
    split; [|auto].
    apply dict_getitem_missing in Hk. rewrite Hk. by eexists.
  - intros Hk. unfold keys in Hk.
    unfold __delitem__, pop, get, __getitem__, bind, get_data_dict, lift.
    simpl. rewrite (dict_pop_missing _ _ Hk).
    apply dict_getitem_missing in Hk. rewrite Hk.
    repeat split; by eexists.
Qed.

(** X18.  Moving: [ws.move(a, b)] pops [a] before it stores under [b].
    With a string [b] the value is then found under [b], and [a] is gone
    unless it is [b]; with a [b] that is not a string the call raises
    [TypeError] after the entry of [a] has been removed, so the value is
    lost; for an absent [a] it raises [KeyError] and changes nothing. *)
Theorem workspace_move self (a : key) (b : object) :
  workspace_invariant self ->
  (forall v, __getitem__ self a = Ok v ->
     (forall name, b = Str name ->
        exists self',
          move a b self = (Ok tt, self')
          /\ __getitem__ self' (KStr name) = Ok v
          /\ (a <> KStr name -> raises KeyError (__getitem__ self' a))
          /\ (forall k, k <> a -> k <> KStr name ->
                __getitem__ self' k = __getitem__ self k))
     /\ (as_str b = None ->
           exists self',
             raises TypeError (fst (move a b self))
             /\ snd (move a b self) = self'
             /\ raises KeyError (__getitem__ self' a)
             /\ __len__ self = S (__len__ self')))
  /\ (a ∉ keys self ->
        raises KeyError (fst (move a b self)) /\ snd (move a b self) = self).
Proof.
  intros [Hnd Hall]. split.
  - intros v Hget. unfold __getitem__ in Hget.
    destruct (dict_pop_present _ _ _ Hget)
      as (d' & Hpop & Hlen & Hother & Hnd' & _).
    destruct (Hnd' Hnd) as [Hnd1 Hk].
    assert (Hv : is_dnpData_or_dict v = true).
    { apply dict_getitem_elem in Hget.
      rewrite Forall_forall in Hall. by apply (Hall (a, v)). }
    assert (Hrun : pop a self = (Ok v, Collection (_processing_buffer self) d')).
    { unfold pop, bind, get_data_dict, lift. simpl. by rewrite Hpop. }
    split.
    + intros name ->.
      exists (Collection (_processing_buffer self)
                (dict_setitem d' (KStr name) v)).
      unfold move. rewrite (bind_ok _ _ _ _ _ Hrun).
      unfold __setitem__. simpl. rewrite Hv. simpl.
      split; [done|]. unfold __getitem__. simpl.
      split; [apply dict_getitem_setitem_eq|]. split.
      * intros Hne. rewrite dict_getitem_setitem_ne by done.
        apply dict_getitem_missing in Hk. rewrite Hk. by eexists.
      * intros k Hka Hkb. rewrite dict_getitem_setitem_ne by done. auto.
    + intros Hb. exists (Collection (_processing_buffer self) d').
      unfold move. rewrite (bind_ok _ _ _ _ _ Hrun).
      unfold __setitem__. rewrite Hb. simpl.
      split; [by eexists|]. split; [done|].
      unfold __getitem__, __len__. simpl. split; [|done].
      apply dict_getitem_missing in Hk. rewrite Hk. by eexists.
  - intros Hk. unfold keys in Hk.
    unfold move, pop, bind, get_data_dict, lift. simpl.
    rewrite (dict_pop_missing _ _ Hk). split; [by eexists | done].
Qed.

End workspaces.

Lemma workspace_invariant_kept_witness :
  workspace_invariant
    (snd (dnpdata_collection.move (dnpdata_collection.KStr "raw")
            (dnpdata_collection.Num 3) sample_workspace)).
Proof.
  apply (proj2 workspace_invariant_kept sample_workspace).
  split; [by_deciding|]. repeat constructor.
Defined.

Lemma workspace_store_and_read_witness :
  exists self',
    dnpdata_collection.__setitem__ (dnpdata_collection.Str "fit")
      (dnpdata_collection.DnpData 1) sample_workspace = (Ok tt, self')
    /\ dnpdata_collection.add (dnpdata_collection.Str "fit")
         (dnpdata_collection.DnpData 1) sample_workspace = (Ok tt, self')
    /\ dnpdata_collection.__getitem__ self' (dnpdata_collection.KStr "fit")
       = Ok (dnpdata_collection.DnpData 1)
    /\ dnpdata_collection.get self' (dnpdata_collection.KStr "fit")
       = Ok (dnpdata_collection.DnpData 1)
    /\ (forall k, k <> dnpdata_collection.KStr "fit" ->
          dnpdata_collection.__getitem__ self' k
          = dnpdata_collection.__getitem__ sample_workspace k)
    /\ dnpdata_collection.keys self'
       = (if bool_decide (dnpdata_collection.KStr "fit"
                          ∈ dnpdata_collection.keys sample_workspace)
          then dnpdata_collection.keys sample_workspace
          else dnpdata_collection.keys sample_workspace
               ++ [dnpdata_collection.KStr "fit"])
    /\ dnpdata_collection.processing_buffer self'
       = dnpdata_collection.processing_buffer sample_workspace.
Proof.
  apply (proj1 (workspace_store_and_read sample_workspace
                  (dnpdata_collection.Str "fit")
                  (dnpdata_collection.DnpData 1)) "fit");
    reflexivity.
Defined.

Lemma workspace_delete_witness :
  exists self',
    dnpdata_collection.__delitem__ (dnpdata_collection.KStr "raw")
      sample_workspace = (Ok tt, self')
    /\ dnpdata_collection.pop (dnpdata_collection.KStr "raw") sample_workspace
       = (Ok (dnpdata_collection.DnpData 0), self')
    /\ raises KeyError
         (dnpdata_collection.__getitem__ self' (dnpdata_collection.KStr "raw"))
    /\ (forall k', k' <> dnpdata_collection.KStr "raw" ->
          dnpdata_collection.__getitem__ self' k'
          = dnpdata_collection.__getitem__ sample_workspace k')
    /\ dnpdata_collection.__len__ sample_workspace
       = S (dnpdata_collection.__len__ self')
    /\ NoDup (dnpdata_collection.keys self').
Proof.
  assert (Hnd : NoDup (dnpdata_collection.keys sample_workspace))
    by by_deciding.
  apply (proj1 (workspace_delete sample_workspace
                  (dnpdata_collection.KStr "raw") Hnd)
               (dnpdata_collection.DnpData 0)).
  reflexivity.
Defined.

Lemma workspace_move_witness :
  exists self',
    raises TypeError
      (fst (dnpdata_collection.move (dnpdata_collection.KStr "raw")
              (dnpdata_collection.Num 3) sample_workspace))
    /\ snd (dnpdata_collection.move (dnpdata_collection.KStr "raw")
              (dnpdata_collection.Num 3) sample_workspace) = self'
    /\ raises KeyError
         (dnpdata_collection.__getitem__ self' (dnpdata_collection.KStr "raw"))
    /\ dnpdata_collection.__len__ sample_workspace
       = S (dnpdata_collection.__len__ self').
Proof.
  assert (Hinv : workspace_invariant sample_workspace).
  { split; [by_deciding | repeat constructor]. }
  apply (proj2 (proj1 (workspace_move sample_workspace
                         (dnpdata_collection.KStr "raw")
                         (dnpdata_collection.Num 3) Hinv)
                      (dnpdata_collection.DnpData 0) eq_refl)).
  reflexivity.
Defined.

(** A move to a key that is not a string loses the entry. *)
Example move_to_bad_key_scenario :
  dnpdata_collection.move (dnpdata_collection.KStr "raw")
    (dnpdata_collection.Num 3) sample_workspace
  = (Raise (Exn TypeError
              "Key must be string and value must be dnpdata or dict"),
     dnpdata_collection.Collection "proc"
       [(dnpdata_collection.KStr "proc", dnpdata_collection.Dict [])]).
Proof. reflexivity. Qed.

(** ** Arithmetic on axes *)

Section axis_arithmetic.
Import nddata_axis.

Lemma number_binary_value (op : operator) (a b : value)
    (f1 n1 f2 n2 : bool) (x y : Q) :
  op <> TrueDiv ->
  as_number a = Some (f1, n1, x) -> as_number b = Some (f2, n2, y) ->
  exists v q,
    number_binary op a b = Ok v
    /\ as_number v = Some (f1 || f2, n1 || n2, q)
    /\ (q == match op with
             | Add => x + y
             | Sub => x - y
             | _ => x * y
             end)%Q.
Proof.
  intros Hop Ha Hb.
  destruct a as [| za | qa | [|] qa | | | |]; try discriminate;
    destruct b as [| zb | qb | [|] qb | | | |]; try discriminate;
    simpl in Ha, Hb; injection Ha as <- <- <-; injection Hb as <- <- <-;
    destruct op; try contradiction; simpl;
    eexists _, _; (split; [reflexivity|]); (split; [reflexivity|]);
    try reflexivity; unfold Qeq; simpl; lia.
Qed.

Lemma r_slice_numbers (a b c : value) (f1 n1 f2 n2 f3 n3 : bool)
    (x y z : Q) :
  as_number a = Some (f1, n1, x) -> as_number b = Some (f2, n2, y) ->
  as_number c = Some (f3, n3, z) -> ~ (z == 0)%Q ->
  r_slice a b c
  = Ok (VArray (if f1 || f2 || f3 then float64 else int64)
               (progression x z (sample_count x y z))).
Proof.
  intros Ha Hb Hc Hz. unfold r_slice.
  assert (Hq : Qeq_bool z 0 = false).
  { destruct (Qeq_bool z 0) eqn:E; [|done].
    apply Qeq_bool_iff in E. contradiction. }
  destruct a as [| ? | ? | [|] ? | | | |]; try discriminate;
    destruct b as [| ? | ? | [|] ? | | | |]; try discriminate;
    destruct c as [| ? | ? | [|] ? | | | |]; try discriminate;
    simpl in Ha, Hb, Hc;
    injection Ha as <- <- <-; injection Hb as <- <- <-;
    injection Hc as <- <- <-; simpl; rewrite Hq; reflexivity.
Qed.

Lemma drop_array_run (ax : nddata_axis.t) :
  drop_array ax = (Ok tt, delete "_array" ax).
Proof.
  unfold drop_array, hasattr, delattr.
  destruct (ax !! "_array") as [v|] eqn:E.
  - rewrite bool_decide_eq_true_2 by eauto. by rewrite E.
  - rewrite bool_decide_eq_false_2 by (by intros [? ?]).
    unfold ret. by rewrite delete_id.
Qed.

Lemma init_slice (name : string) (a b c : value) :
  __init__ (VStr name) [VSlice a b c] = Ok (axis_of_triple name a b c).
Proof. reflexivity. Qed.

Lemma axis_of_triple_array (name : string) (a b c v : value) :
  r_slice a b c = Ok v ->
  fst (array (axis_of_triple name a b c)) = Ok v.
Proof.
  intros Hv. by rewrite (array_run_fresh _ a b c v).
Qed.

(** The new axis an operator builds from the triple it computed, and what
    is left of the receiver. *)
Lemma axis_result (ax : nddata_axis.t) (name : string) (a b c : value) :
  ax !! "_nddata_axis__dim" = Some (VStr name) ->
  bind drop_array (fun _ => bind get_dim (fun dim =>
    lift (__init__ dim [VSlice a b c]))) ax
  = (Ok (axis_of_triple name a b c), delete "_array" ax).
Proof.
  intros Hdim. rewrite (bind_ok _ _ _ _ _ (drop_array_run ax)).
  assert (Hd : get_dim (delete "_array" ax)
               = (Ok (VStr name), delete "_array" ax)).
  { apply getattr_run. by rewrite lookup_delete_ne. }
  by rewrite (bind_ok _ _ _ _ _ Hd).
Qed.

Lemma progression_Forall2 (a a' c c' : Q) (n : nat) :
  (a == a')%Q -> (c == c')%Q ->
  Forall2 Qeq (progression a c n) (progression a' c' n).
Proof.
  intros Ha Hc. unfold progression.
  apply Forall2_fmap, Forall_Forall2_diag, Forall_forall.
  intros i _. by rewrite Ha, Hc.
Qed.

(** The stop of a progression is not one of its samples. *)
Lemma stop_not_sample (x y z : Q) (v : Q) :
  ~ (z == 0)%Q -> v ∈ progression x z (sample_count x y z) -> ~ (v == y)%Q.
Proof.
  intros Hz Hv Heq. unfold progression in Hv.
  apply list_elem_of_fmap in Hv as (i & -> & Hi).
  apply list_elem_of_In, in_seq in Hi. unfold sample_count in Hi.
  assert (Hq : ((y - x) / z == inject_Z (Z.of_nat i))%Q).
  { rewrite <- Heq. field. exact Hz. }
  rewrite Hq, Qceiling_Z in Hi. lia.
Qed.

End axis_arithmetic.

Section axis_operators.
Import nddata_axis.

Lemma sample_count_proper (a a' b b' c c' : Q) :
  (a == a')%Q -> (b == b')%Q -> (c == c')%Q ->
  sample_count a b c = sample_count a' b' c'.
Proof. intros Ha Hb Hc. unfold sample_count. by rewrite Ha, Hb, Hc. Qed.

Lemma samples_Forall2 (f : Q -> Q) (a b c x y z : Q) :
  (forall i, a + inject_Z i * c == f (x + inject_Z i * z))%Q ->
  sample_count a b c = sample_count x y z ->
  Forall2 Qeq (samples a b c) (map f (samples x y z)).
Proof.
  intros Hf Hn. unfold samples, progression. rewrite Hn, map_map.
  apply Forall2_fmap, Forall_Forall2_diag, Forall_forall.
  intros i _. apply Hf.
Qed.

(** The samples of the axis an operator returns. *)
Lemma axis_of_numbers (name : string) (a b c : value) (x y z : Q) :
  number_value a x -> number_value b y -> number_value c z ->
  ~ (z == 0)%Q ->
  holds_triple (axis_of_triple name a b c) name x y z
  /\ exists dt elems,
       fst (array (axis_of_triple name a b c)) = Ok (VArray dt elems)
       /\ Forall2 Qeq elems (samples x y z).
Proof.
  intros Ha Hb Hc Hz. split.
  { split; [reflexivity|]. exists a, b, c. by repeat split. }
  destruct Ha as (f1 & n1 & qa & Ha & Ea), Hb as (f2 & n2 & qb & Hb & Eb),
    Hc as (f3 & n3 & qc & Hc & Ec).
  eexists _, _. split.
  - apply axis_of_triple_array.
    apply (r_slice_numbers _ _ _ _ _ _ _ _ _ _ _ _ Ha Hb Hc).
    by rewrite Ec.
  - rewrite <- (map_id (samples x y z)).
    apply (samples_Forall2 (fun v => v)).
    + intros i. by rewrite Ea, Ec.
    + by apply sample_count_proper.
Qed.

Variable binary : operator -> value -> value -> result value.
Hypothesis binary_numbers : numeric_operators binary.

Lemma binary_number (op : operator) (a b : value) (x y : Q) :
  op <> TrueDiv -> number_value a x -> number_value b y ->
  small_integer x -> small_integer y ->
  exists v,
    binary op a b = Ok v
    /\ number_value v (match op with
                       | Add => x + y
                       | Sub => x - y
                       | _ => x * y
                       end).
Proof.
  intros Hop Na Nb Sx Sy.
  rewrite (binary_numbers op a b x y Hop Na Nb Sx Sy).
  destruct Na as (f1 & n1 & qa & Ha & Ea), Nb as (f2 & n2 & qb & Hb & Eb).
  destruct (number_binary_value op a b _ _ _ _ _ _ Hop Ha Hb)
    as (v & q & Hv & Hn & Eq).
  exists v. split; [done|]. eexists _, _, q. split; [done|].
  rewrite Eq. destruct op; by rewrite Ea, Eb.
Qed.

(** X19.  Adding a number to an axis, or subtracting it, shifts the
    samples: for an axis that holds a triple of whole numbers of moderate
    size with a step other than 0, and such a number [s], [ax + s] (and
    [s + ax]) is a new axis of the same name whose samples are those of the
    triple plus [s], [ax - s] likewise with minus; the receiver keeps its
    triple and loses its cached samples. *)
Theorem axis_shift (ax : nddata_axis.t) (name : string) (x y z : Q)
    (b : value) (s : Q) :
  holds_triple ax name x y z -> number_value b s -> ~ (z == 0)%Q ->
  small_integer x -> small_integer y -> small_integer z ->
  small_integer s ->
  (exists ax' dt elems,
     __add__ binary b ax = (Ok ax', delete "_array" ax)
     /\ __radd__ binary b ax = (Ok ax', delete "_array" ax)
     /\ holds_triple ax' name (x + s) (y + s) z
     /\ fst (array ax') = Ok (VArray dt elems)
     /\ Forall2 Qeq elems (map (fun v => v + s) (samples x y z)))%Q
  /\ (exists ax' dt elems,
        __sub__ binary b ax = (Ok ax', delete "_array" ax)
        /\ holds_triple ax' name (x - s) (y - s) z
        /\ fst (array ax') = Ok (VArray dt elems)
        /\ Forall2 Qeq elems (map (fun v => v - s) (samples x y z)))%Q.
Proof.
  intros (Hdim & a0 & b0 & c0 & Ha & Hb & Hc & Na & Nb & Nc) Ns Hz
    Sx Sy Sz Ss.
  split.
  - destruct (binary_number Add a0 b x s) as (a1 & Ra & Na1); [done..|].
    destruct (binary_number Add b0 b y s) as (b1 & Rb & Nb1); [done..|].
    destruct (axis_of_numbers name a1 b1 c0 _ _ _ Na1 Nb1 Nc Hz)
      as (Htr & dt & elems & Harr & Hel).
    assert (Hrun : __add__ binary b ax
                   = (Ok (axis_of_triple name a1 b1 c0), delete "_array" ax)).
    { unfold __add__, get_start, get_stop, get_step.
      rewrite (bind_ok _ _ _ _ _ (getattr_run ax _ _ Ha)).
      rewrite (bind_lift_ok _ _ _ _ Ra).
      rewrite (bind_ok _ _ _ _ _ (getattr_run ax _ _ Hb)).
      rewrite (bind_lift_ok _ _ _ _ Rb).
      rewrite (bind_ok _ _ _ _ _ (getattr_run ax _ _ Hc)).
      by apply axis_result. }
    exists (axis_of_triple name a1 b1 c0), dt, elems.
    split; [done|]. split; [done|]. split; [done|]. split; [done|].
    etransitivity; [exact Hel|].
    apply samples_Forall2.
    + intros i. ring.
    + apply sample_count_wd. field. exact Hz.
  - destruct (binary_number Sub a0 b x s) as (a1 & Ra & Na1); [done..|].
    destruct (binary_number Sub b0 b y s) as (b1 & Rb & Nb1); [done..|].
    destruct (axis_of_numbers name a1 b1 c0 _ _ _ Na1 Nb1 Nc Hz)
      as (Htr & dt & elems & Harr & Hel).
    assert (Hrun : __sub__ binary b ax
                   = (Ok (axis_of_triple name a1 b1 c0), delete "_array" ax)).
    { unfold __sub__, get_start, get_stop, get_step.
      rewrite (bind_ok _ _ _ _ _ (getattr_run ax _ _ Ha)).
      rewrite (bind_lift_ok _ _ _ _ Ra).
      rewrite (bind_ok _ _ _ _ _ (getattr_run ax _ _ Hb)).
      rewrite (bind_lift_ok _ _ _ _ Rb).
      rewrite (bind_ok _ _ _ _ _ (getattr_run ax _ _ Hc)).
      by apply axis_result. }
    exists (axis_of_triple name a1 b1 c0), dt, elems.
    split; [done|]. split; [done|]. split; [done|].
    etransitivity; [exact Hel|].
    apply samples_Forall2.
    + intros i. ring.
    + apply sample_count_wd. field. exact Hz.
Qed.

(** X20.  Multiplying an axis by a number other than 0 scales the samples:
    for whole numbers of moderate size, [ax * s] (and [s * ax]) is a new
    axis of the same name that holds the triple multiplied by [s], and its
    samples are those of the triple times [s]; the receiver keeps its triple
    and loses its cached samples. *)
Theorem axis_scale (ax : nddata_axis.t) (name : string) (x y z : Q)
    (b : value) (s : Q) :
  holds_triple ax name x y z -> number_value b s ->
  ~ (z == 0)%Q -> ~ (s == 0)%Q ->
  small_integer x -> small_integer y -> small_integer z ->
  small_integer s ->
  (exists ax' dt elems,
     __mul__ binary b ax = (Ok ax', delete "_array" ax)
     /\ __rmul__ binary b ax = (Ok ax', delete "_array" ax)
     /\ holds_triple ax' name (s * x) (s * y) (s * z)
     /\ fst (array ax') = Ok (VArray dt elems)
     /\ Forall2 Qeq elems (map (fun v => s * v) (samples x y z)))%Q.
Proof.
  intros (Hdim & a0 & b0 & c0 & Ha & Hb & Hc & Na & Nb & Nc) Ns Hz Hs
    Sx Sy Sz Ss.
  destruct (binary_number Mul b a0 s x) as (a1 & Ra & Na1); [done..|].
  destruct (binary_number Mul b b0 s y) as (b1 & Rb & Nb1); [done..|].
  destruct (binary_number Mul b c0 s z) as (c1 & Rc & Nc1); [done..|].
  assert (Hsz : ~ (s * z == 0)%Q).
  { intros H0. apply Qmult_integral in H0 as [?|?]; contradiction. }
  destruct (axis_of_numbers name a1 b1 c1 _ _ _ Na1 Nb1 Nc1 Hsz)
    as (Htr & dt & elems & Harr & Hel).
  assert (Hrun : __mul__ binary b ax
                 = (Ok (axis_of_triple name a1 b1 c1), delete "_array" ax)).
  { unfold __mul__, get_start, get_stop, get_step.
    rewrite (bind_ok _ _ _ _ _ (getattr_run ax _ _ Ha)).
    rewrite (bind_lift_ok _ _ _ _ Ra).
    rewrite (bind_ok _ _ _ _ _ (getattr_run ax _ _ Hb)).
    rewrite (bind_lift_ok _ _ _ _ Rb).
    rewrite (bind_ok _ _ _ _ _ (getattr_run ax _ _ Hc)).
    rewrite (bind_lift_ok _ _ _ _ Rc).
    by apply axis_result. }
  exists (axis_of_triple name a1 b1 c1), dt, elems.
  split; [done|]. split; [done|]. split; [done|]. split; [done|].
  etransitivity; [exact Hel|].
  apply samples_Forall2.
  - intros i. ring.
  - apply sample_count_wd. field. auto.
Qed.

(** X21.  Subtracting an axis from a number does not mirror it: for whole
    numbers of moderate size, [s - ax] is a new axis of the same name with
    the triple ([s - stop], [s - start], [step]), so its samples are those
    of the receiver shifted by [s - start - stop]; they start at
    [s - stop], which is [s - v] for no sample [v] of the receiver. *)
Theorem axis_rsub_shifts (ax : nddata_axis.t) (name : string) (x y z : Q)
    (b : value) (s : Q) :
  holds_triple ax name x y z -> number_value b s -> ~ (z == 0)%Q ->
  small_integer x -> small_integer y -> small_integer z ->
  small_integer s ->
  (exists ax' dt elems,
     __rsub__ binary b ax = (Ok ax', delete "_array" ax)
     /\ holds_triple ax' name (s - y) (s - x) z
     /\ fst (array ax') = Ok (VArray dt elems)
     /\ Forall2 Qeq elems (map (fun v => v + (s - x - y)) (samples x y z))
     /\ (samples x y z <> [] ->
         exists e0, elems !! 0%nat = Some e0 /\ e0 == s - y)
     /\ (forall e0 v, elems !! 0%nat = Some e0 -> v ∈ samples x y z ->
           ~ (e0 == s - v)))%Q.
Proof.
  intros (Hdim & a0 & b0 & c0 & Ha & Hb & Hc & Na & Nb & Nc) Ns Hz
    Sx Sy Sz Ss.
  destruct (binary_number Sub b b0 s y) as (a1 & Ra & Na1); [done..|].
  destruct (binary_number Sub b a0 s x) as (b1 & Rb & Nb1); [done..|].
  destruct (axis_of_numbers name a1 b1 c0 _ _ _ Na1 Nb1 Nc Hz)
    as (Htr & dt & elems & Harr & Hel).
  assert (Hrun : __rsub__ binary b ax
                 = (Ok (axis_of_triple name a1 b1 c0), delete "_array" ax)).
  { unfold __rsub__, get_start, get_stop, get_step.
    rewrite (bind_ok _ _ _ _ _ (getattr_run ax _ _ Hb)).
    rewrite (bind_lift_ok _ _ _ _ Ra).
    rewrite (bind_ok _ _ _ _ _ (getattr_run ax _ _ Ha)).
    rewrite (bind_lift_ok _ _ _ _ Rb).
    rewrite (bind_ok _ _ _ _ _ (getattr_run ax _ _ Hc)).
    by apply axis_result. }
  assert (Hn : sample_count (s - y) (s - x) z = sample_count x y z).
  { apply sample_count_wd. field. exact Hz. }
  assert (Hhead : forall e0, elems !! 0 = Some e0 -> (e0 == s - y)%Q).
  { intros e0 He0.
    destruct (Forall2_lookup_l _ _ _ _ _ Hel He0) as (p0 & Hp0 & Heq).
    unfold samples in Hp0. pose proof (lookup_lt_Some _ _ _ Hp0) as Hlt.
    rewrite progression_length in Hlt.
    rewrite progression_lookup in Hp0 by done. injection Hp0 as <-.
    rewrite Heq. simpl. ring. }
  exists (axis_of_triple name a1 b1 c0), dt, elems.
  split; [done|]. split; [done|]. split; [done|]. split; [|split].
  - etransitivity; [exact Hel|].
    apply samples_Forall2; [|done]. intros i. ring.
  - intros Hne.
    destruct elems as [|e0 elems].
    + exfalso. apply Hne. apply Forall2_length in Hel.
      unfold samples in *. rewrite progression_length in Hel.
      rewrite <- Hn, <- Hel. done.
    + exists e0. split; [done|]. by apply Hhead.
  - intros e0 v He0 Hv Heq. rewrite (Hhead e0 He0) in Heq.
    apply (stop_not_sample x y z v Hz Hv).
    assert (Hd : (v == s - (s - v))%Q) by ring.
    rewrite Hd, <- Heq. ring.
Qed.

End axis_operators.

(** ** The forms of the axis constructor *)

Section axis_construction.
Import nddata_axis.

Lemma classic_accept (a : value) :
  accepted_axis_arguments [a] \/ ~ accepted_axis_arguments [a].
Proof.
  unfold accepted_axis_arguments.
  destruct a as [| z | q | [|] q | dt elems | a0 b0 c0 | s |];
    try (left; right; right; reflexivity);
    try (left; left; by eexists _, _);
    try (left; right; left; by eexists _, _, _);
    right; intros [(? & ? & ?)|[(? & ? & ? & ?)|?]]; discriminate.
Qed.

(** X22.  The constructor of an axis: with a string name it returns an
    axis exactly for no argument, for one array, slice or number, and for
    two or three numbers, and also for four arguments or more, which it
    ignores: the axis then holds its name only and its samples cannot be
    read.  One argument of another type gives [ValueError], two or three
    arguments that are not all numbers give [TypeError], and so does a name
    that is not a string. *)
Theorem axis_constructor_forms (name : string) (args : list value) :
  ((exists ax, __init__ (VStr name) args = Ok ax)
   <-> accepted_axis_arguments args)
  /\ (~ accepted_axis_arguments args ->
        raises (if length args =? 1 then ValueError else TypeError)
               (__init__ (VStr name) args))
  /\ (4 <= length args ->
        __init__ (VStr name) args
        = Ok {[ "_nddata_axis__dim" := VStr name ]}
        /\ raises AttributeError
             (fst (array {[ "_nddata_axis__dim" := VStr name ]}))
        /\ raises AttributeError
             (fst (__len__ {[ "_nddata_axis__dim" := VStr name ]})))
  /\ (forall dim, (forall s, dim <> VStr s) ->
        raises TypeError (__init__ dim args)).
Proof.
  assert (Hpair : forall a b,
            __init__ (VStr name) [a; b]
            = if is_int_or_float a && is_int_or_float b then
                Ok (axis_of_triple name a b VNone)
              else raise TypeError "coord not understood").
  { intros a b. unfold __init__, init_body. cbn [length Nat.eqb].
    by destruct (is_int_or_float a), (is_int_or_float b). }
  assert (Htriple : forall a b c,
            __init__ (VStr name) [a; b; c]
            = if is_int_or_float a && is_int_or_float b && is_int_or_float c
              then Ok (axis_of_triple name a b c)
              else raise TypeError "coord not understood").
  { intros a b c. unfold __init__, init_body. cbn [length Nat.eqb].
    by destruct (is_int_or_float a), (is_int_or_float b),
         (is_int_or_float c). }
  assert (Hone : forall a,
            (accepted_axis_arguments [a] ->
             exists ax, __init__ (VStr name) [a] = Ok ax)
            /\ (~ accepted_axis_arguments [a] ->
                __init__ (VStr name) [a]
                = raise ValueError "coord not understood")).
  { intros a. unfold accepted_axis_arguments.
    destruct a as [| z | q | [|] q | dt elems | a0 b0 c0 | s |].
    - split; [intros [(? & ? & ?)|[(? & ? & ? & ?)|?]]; discriminate|].
      intros _. vm_compute. reflexivity.
    - split; [|intros Hno; exfalso; apply Hno; auto].
      intros _. eexists. vm_compute. reflexivity.
    - split; [|intros Hno; exfalso; apply Hno; auto].
      intros _. eexists. vm_compute. reflexivity.
    - split; [intros [(? & ? & ?)|[(? & ? & ? & ?)|?]]; discriminate|].
      intros _. vm_compute. reflexivity.
    - split; [|intros Hno; exfalso; apply Hno; auto].
      intros _. eexists. vm_compute. reflexivity.
    - split; [|intros Hno; exfalso; apply Hno; eauto].
      intros _. eexists. vm_compute. reflexivity.
    - split; [|intros Hno; exfalso; apply Hno; eauto 10].
      intros _. eexists. vm_compute. reflexivity.
    - split; [intros [(? & ? & ?)|[(? & ? & ? & ?)|?]]; discriminate|].
      intros _. vm_compute. reflexivity.
    - split; [intros [(? & ? & ?)|[(? & ? & ? & ?)|?]]; discriminate|].
      intros _. vm_compute. reflexivity. }
  assert (Hmany : forall a b c d rest,
            __init__ (VStr name) (a :: b :: c :: d :: rest)
            = Ok {[ "_nddata_axis__dim" := VStr name ]}).
  { intros. reflexivity. }
  split; [|split; [|split]].
  - destruct args as [|a [|b [|c [|d rest]]]].
    + split; [done|]. intros _. eexists. vm_compute. reflexivity.
    + split; [|apply Hone]. intros [ax Hax].
      destruct (classic_accept a) as [?|Hno]; [done|].
      apply (proj2 (Hone a)) in Hno. rewrite Hno in Hax. discriminate.
    + rewrite Hpair. unfold accepted_axis_arguments.
      destruct (is_int_or_float a), (is_int_or_float b); simpl;
        split; try (intros [? ?]; discriminate); eauto; intros [? ?]; done.
    + rewrite Htriple. unfold accepted_axis_arguments.
      destruct (is_int_or_float a), (is_int_or_float b),
        (is_int_or_float c); simpl;
        split; try (intros [? ?]; discriminate); eauto;
        intros (? & ? & ?); done.
    + rewrite Hmany. split; [done | eauto].
  - destruct args as [|a [|b [|c [|d rest]]]]; intros Hno;
      try (exfalso; by apply Hno).
    + rewrite (proj2 (Hone a) Hno). by eexists.
    + rewrite Hpair. unfold accepted_axis_arguments in Hno.
      destruct (is_int_or_float a), (is_int_or_float b); simpl;
        try (by eexists). exfalso. by apply Hno.
    + rewrite Htriple. unfold accepted_axis_arguments in Hno.
      destruct (is_int_or_float a), (is_int_or_float b),
        (is_int_or_float c); simpl; try (by eexists).
      exfalso. by apply Hno.
  - intros Hlen. destruct args as [|a [|b [|c [|d rest]]]];
      simpl in Hlen; try lia.
    split; [apply Hmany|]. split; vm_compute; by eexists.
  - intros dim Hdim. unfold __init__, init_body.
    destruct dim; try (by eexists). exfalso. by eapply Hdim.
Qed.


Lemma array_caches (ax ax1 : nddata_axis.t) (v : value) :
  array ax = (Ok v, ax1) -> ax1 !! "_array" = Some v.
Proof.
  unfold array, hasattr.
  destruct (ax !! "_array") as [v0|] eqn:E.
  - rewrite bool_decide_eq_true_2 by eauto.
    unfold getattr. rewrite E. by intros [= <- <-].
  - rewrite bool_decide_eq_false_2 by (by intros [? ?]).
    unfold get_start, get_stop, get_step, bind, getattr, lift, setattr.
    destruct (ax !! "_nddata_axis__start"); [|discriminate].
    destruct (ax !! "_nddata_axis__stop"); [|discriminate].
    destruct (ax !! "_nddata_axis__step"); [|discriminate].
    destruct (r_slice _ _ _) as [a|e]; [|discriminate].
    rewrite lookup_insert_eq. intros [= <- <-]. apply lookup_insert_eq.
Qed.

Lemma array_cached (ax : nddata_axis.t) (v : value) :
  ax !! "_array" = Some v -> array ax = (Ok v, ax).
Proof.
  intros Hv. unfold array, hasattr.
  rewrite bool_decide_eq_true_2 by eauto. by apply getattr_run.
Qed.

(** X24.  The samples are cached and the setters do not drop the cache:
    once [array] has been read, assigning to [start], [stop] or [step]
    does not change what [array] and [len] return, while an operator such
    as [+] does drop the cache of its receiver. *)
Theorem axis_cache_outlives_setters (ax : nddata_axis.t) (v b : value) :
  fst (array ax) = Ok v ->
  let ax1 := snd (array ax) in
  fst (array (snd (set_start b ax1))) = Ok v
  /\ fst (array (snd (set_stop b ax1))) = Ok v
  /\ fst (array (snd (set_step b ax1))) = Ok v
  /\ (is_int_or_float b = true ->
        snd (set_start b ax1) !! "_nddata_axis__start" = Some b
        /\ snd (set_stop b ax1) !! "_nddata_axis__stop" = Some b
        /\ snd (set_step b ax1) !! "_nddata_axis__step" = Some b)
  /\ snd (drop_array ax1) !! "_array" = None.
Proof.
  intros Harr ax1.
  assert (Hc : ax1 !! "_array" = Some v).
  { apply (array_caches ax). unfold ax1.
    destruct (array ax) as [r s]. simpl in *. by subst. }
  assert (Hset : forall name,
            name <> "_array" ->
            fst (array (snd ((if is_int_or_float b then setattr name b
                              else ret tt) ax1))) = Ok v).
  { intros name Hne. destruct (is_int_or_float b); simpl.
    - rewrite (array_cached _ v); [done|]. by rewrite lookup_insert_ne.
    - by rewrite (array_cached _ v). }
  split; [by apply Hset|]. split; [by apply Hset|]. split; [by apply Hset|].
  split.
  - intros Hb. unfold set_start, set_stop, set_step. rewrite Hb. simpl.
    by rewrite !lookup_insert_eq.
  - rewrite drop_array_run. simpl. apply lookup_delete_eq.
Qed.

End axis_construction.

(** ** Operands are matched by position *)

Lemma zip_with_nth {A B C} (f : A -> B -> C) (l1 : list A) (l2 : list B)
    (d1 : A) (d2 : B) :
  length l1 = length l2 ->
  map (fun i => f (nth i l1 d1) (nth i l2 d2)) (seq 0 (length l1))
  = zip_with f l1 l2.
Proof.
  revert l2. induction l1 as [|x l1 IH]; intros [|y l2] Hlen;
    try discriminate; [done|].
  simpl. f_equal. rewrite <- seq_shift, map_map. simpl.
  apply IH. simpl in Hlen. lia.
Qed.

Section positional.
Context {T : Type} `{Numeric T}.
Implicit Types (w : dnpData.world T) (o : dnpData.t T) (self : dnpData.loc).

Lemma broadcast_rev_same (r : list nat) : Np.broadcast_rev r r = Some r.
Proof.
  induction r as [|n r IH]; [done|]. simpl.
  by rewrite Nat.eqb_refl, IH.
Qed.

Lemma unravel_clip (s : list nat) (off : nat) :
  off < Np.size_of s ->
  zip_with (fun n i => if n =? 1 then 0 else i) s (Np.unravel s off)
  = Np.unravel s off.
Proof.
  revert off. induction s as [|n s IH]; intros off; [done|]. simpl.
  change (foldr Nat.mul 1 s) with (Np.size_of s).
  intros Hlt. assert (Hk : Np.size_of s <> 0) by lia. f_equal.
  - destruct (Nat.eqb_spec n 1) as [->|]; [|done].
    symmetry. apply Nat.div_small. lia.
  - apply IH. by apply Nat.mod_upper_bound.
Qed.

Lemma broadcast_entry_same (a : Np.ndarray T) (off : nat) :
  off < Np.size_of (Np.shape a) ->
  Np.broadcast_entry a (Np.shape a) (Np.unravel (Np.shape a) off)
  = nth off (Np.data a) num_zero.
Proof.
  intros Hlt. unfold Np.broadcast_entry, Np.ndim, Np.entry.
  rewrite Nat.sub_diag, drop_0.
  by rewrite unravel_clip, ravel_unravel.
Qed.

Lemma binop_same_shape (f : T -> T -> T) (a b : Np.ndarray T) :
  whole a -> whole b -> Np.shape a = Np.shape b ->
  Np.binop f a b
  = Ok (Np.Array (Np.shape a) (zip_with f (Np.data a) (Np.data b))).
Proof.
  intros Ha Hb Hs. unfold Np.binop.
  rewrite <- Hs, broadcast_rev_same, rev_involutive. do 2 f_equal.
  rewrite <- (zip_with_nth f _ _ num_zero num_zero)
    by (unfold whole in *; congruence).
  rewrite Ha. apply map_ext_in. intros off Hoff. apply in_seq in Hoff.
  rewrite broadcast_entry_same by lia.
  destruct b as [sb db]. simpl in Hs. subst sb.
  by rewrite (broadcast_entry_same (Np.Array (Np.shape a) db)) by (simpl; lia).
Qed.

(** X25.  Binary operators match their operands by position, not by
    name: when the buffers of two arrays are whole and have the same shape,
    the sum, difference and product of a labelled array with another one
    (or with its bare buffer) combine the entries at the same offsets
    and carry the names and coordinate vectors of the left operand,
    whatever the names of the right one are; nothing on the heap changes. *)
Theorem labeled_operands_by_position w self (d : dnpData.loc) A B :
  dnpData.heap w !! self = Some A ->
  dnpData.heap w !! d = Some B ->
  whole (dnpData.values A) -> whole (dnpData.values B) ->
  Np.shape (dnpData.values A) = Np.shape (dnpData.values B) ->
  let combined f :=
    Some (dnpData.with_values
            (Np.Array (Np.shape (dnpData.values A))
                      (zip_with f (Np.data (dnpData.values A))
                                  (Np.data (dnpData.values B)))) A) in
  dnpData.__add__ self (dnpData.Labeled d) w = (Ok (combined num_add), w)
  /\ dnpData.__sub__ self (dnpData.Labeled d) w = (Ok (combined num_sub), w)
  /\ dnpData.__mul__ self (dnpData.Labeled d) w = (Ok (combined num_mul), w)
  /\ dnpData.__add__ self (dnpData.Buffer (dnpData.values B)) w
     = (Ok (combined num_add), w)
  /\ dnpData.__radd__ self (dnpData.Labeled d) w = (Ok (combined num_add), w)
  /\ dnpData.__rmul__ self (dnpData.Labeled d) w = (Ok (combined num_mul), w).
Proof.
  intros Hself Hd HA HB Hs combined.
  assert (Hread : dnpData.deepcopy self w = (Ok A, w)).
  { unfold dnpData.deepcopy, dnpData.read. by rewrite Hself. }
  unfold dnpData.__radd__, dnpData.__rmul__, dnpData.__add__,
    dnpData.__sub__, dnpData.__mul__.
  rewrite !(bind_ok _ _ _ _ _ Hread).
  rewrite !(bind_ok _ _ _ _ _ (get_run d dnpData.values w B Hd)).
  rewrite !(bind_lift_ok _ _ _ _ (binop_same_shape _ _ _ HA HB Hs)).
  repeat split.
Qed.

End positional.

(** X26.  Adding a scalar and subtracting it again, on an array of 64-bit
    integers whose entries, like the scalar, lie between [-2^62] and
    [2^62]: [A + s] is a new array with the names and coordinate vectors of
    [A], the receiver is not changed, and [(A + s) - s] has the contents of
    [A]. *)
Theorem scalar_add_then_sub (w : dnpData.world Z) (self other : dnpData.loc)
    (o : dnpData.t Z) (s : Z) :
  dnpData.heap w !! self = Some o ->
  Forall (fun v => - 2 ^ 62 <= v < 2 ^ 62)%Z (Np.data (dnpData.values o)) ->
  (- 2 ^ 62 <= s < 2 ^ 62)%Z ->
  exists o1,
    dnpData.__add__ self (dnpData.Scalar s) w = (Ok (Some o1), w)
    /\ dnpData.__radd__ self (dnpData.Scalar s) w = (Ok (Some o1), w)
    /\ dnpData.dims o1 = dnpData.dims o
    /\ dnpData.coords o1 = dnpData.coords o
    /\ dnpData.consistent o1 = dnpData.consistent o
    /\ dnpData.__sub__ other (dnpData.Scalar s) (upd other o1 w)
       = (Ok (Some o), upd other o1 w).
Proof.
  intros Hself _ _.
  assert (Hread : dnpData.deepcopy self w = (Ok o, w)).
  { unfold dnpData.deepcopy, dnpData.read. by rewrite Hself. }
  eexists. unfold dnpData.__radd__, dnpData.__add__.
  rewrite !(bind_ok _ _ _ _ _ Hread). split; [reflexivity|].
  split; [reflexivity|]. split; [done|]. split; [done|]. split; [done|].
  unfold dnpData.__sub__.
  assert (Hread1 : forall o1, dnpData.deepcopy other (upd other o1 w)
                              = (Ok o1, upd other o1 w)).
  { intros o1. unfold dnpData.deepcopy, dnpData.read.
    by rewrite heap_upd_eq. }
  rewrite (bind_ok _ _ _ _ _ (Hread1 _)). unfold ret. do 3 f_equal.
  destruct o as [ve [sh da] co di at' pr]. unfold dnpData.with_values,
    Np.scalar_op. simpl. do 2 f_equal.
  rewrite map_map. rewrite <- (map_id da) at 2.
  apply map_ext. intros v. simpl. lia.
Qed.

Lemma axis_shift_witness :
  (exists ax' dt elems,
     nddata_axis.__add__ number_binary (nddata_axis.VInt 10) sample_axis
     = (Ok ax', delete "_array" sample_axis)
     /\ nddata_axis.__radd__ number_binary (nddata_axis.VInt 10) sample_axis
        = (Ok ax', delete "_array" sample_axis)
     /\ holds_triple ax' "t" (0 + 10) (3 + 10) 1
     /\ fst (nddata_axis.array ax') = Ok (nddata_axis.VArray dt elems)
     /\ Forall2 Qeq elems (map (fun v => v + 10) (samples 0 3 1)))%Q.
Proof.
  assert (Hops : numeric_operators number_binary)
    by (intros ? ? ? ? ? ? ? ? ? ?; reflexivity).
  assert (Hax : holds_triple sample_axis "t" 0 3 1).
  { split; [reflexivity|]. eexists _, _, _.
    repeat split; try reflexivity; eexists _, _, _; split; reflexivity. }
  assert (Hb : number_value (nddata_axis.VInt 10) 10).
  { eexists _, _, _. split; reflexivity. }
  apply (proj1 (axis_shift number_binary Hops sample_axis "t" 0 3 1
                  (nddata_axis.VInt 10) 10 Hax Hb ltac:(discriminate)
                  (small_integer_Z 0 ltac:(simpl; lia))
                  (small_integer_Z 3 ltac:(simpl; lia))
                  (small_integer_Z 1 ltac:(simpl; lia))
                  (small_integer_Z 10 ltac:(simpl; lia)))).
Defined.

Lemma axis_scale_witness :
  (exists ax' dt elems,
     nddata_axis.__mul__ number_binary (nddata_axis.VInt 2) sample_axis
     = (Ok ax', delete "_array" sample_axis)
     /\ nddata_axis.__rmul__ number_binary (nddata_axis.VInt 2) sample_axis
        = (Ok ax', delete "_array" sample_axis)
     /\ holds_triple ax' "t" (2 * 0) (2 * 3) (2 * 1)
     /\ fst (nddata_axis.array ax') = Ok (nddata_axis.VArray dt elems)
     /\ Forall2 Qeq elems (map (fun v => 2 * v) (samples 0 3 1)))%Q.
Proof.
  assert (Hops : numeric_operators number_binary)
    by (intros ? ? ? ? ? ? ? ? ? ?; reflexivity).
  assert (Hax : holds_triple sample_axis "t" 0 3 1).
  { split; [reflexivity|]. eexists _, _, _.
    repeat split; try reflexivity; eexists _, _, _; split; reflexivity. }
  assert (Hb : number_value (nddata_axis.VInt 2) 2).
  { eexists _, _, _. split; reflexivity. }
  apply (axis_scale number_binary Hops sample_axis "t" 0 3 1
           (nddata_axis.VInt 2) 2 Hax Hb ltac:(discriminate)
           ltac:(discriminate)
           (small_integer_Z 0 ltac:(simpl; lia))
           (small_integer_Z 3 ltac:(simpl; lia))
           (small_integer_Z 1 ltac:(simpl; lia))
           (small_integer_Z 2 ltac:(simpl; lia))).
Defined.

Lemma axis_rsub_shifts_witness :
  (exists ax' dt elems,
     nddata_axis.__rsub__ number_binary (nddata_axis.VInt 10) sample_axis
     = (Ok ax', delete "_array" sample_axis)
     /\ holds_triple ax' "t" (10 - 3) (10 - 0) 1
     /\ fst (nddata_axis.array ax') = Ok (nddata_axis.VArray dt elems)
     /\ Forall2 Qeq elems (map (fun v => v + (10 - 0 - 3)) (samples 0 3 1))
     /\ (samples 0 3 1 <> [] ->
         exists e0, elems !! 0%nat = Some e0 /\ e0 == 10 - 3)
     /\ (forall e0 v, elems !! 0%nat = Some e0 -> v ∈ samples 0 3 1 ->
           ~ (e0 == 10 - v)))%Q.
Proof.
  assert (Hops : numeric_operators number_binary)
    by (intros ? ? ? ? ? ? ? ? ? ?; reflexivity).
  assert (Hax : holds_triple sample_axis "t" 0 3 1).
  { split; [reflexivity|]. eexists _, _, _.
    repeat split; try reflexivity; eexists _, _, _; split; reflexivity. }
  assert (Hb : number_value (nddata_axis.VInt 10) 10).
  { eexists _, _, _. split; reflexivity. }
  apply (axis_rsub_shifts number_binary Hops sample_axis "t" 0 3 1
           (nddata_axis.VInt 10) 10 Hax Hb ltac:(discriminate)
           (small_integer_Z 0 ltac:(simpl; lia))
           (small_integer_Z 3 ltac:(simpl; lia))
           (small_integer_Z 1 ltac:(simpl; lia))
           (small_integer_Z 10 ltac:(simpl; lia))).
Defined.

(** [10 - ax] for the axis 0, 1, 2: the samples are 7, 8, 9, where the
    differences are 10, 9, 8. *)
Example axis_rsub_scenario :
  exists ax',
    fst (nddata_axis.__rsub__ number_binary (nddata_axis.VInt 10) sample_axis)
    = Ok ax'
    /\ fst (nddata_axis.array ax')
       = Ok (nddata_axis.VArray nddata_axis.int64 [7; 8; 9]%Q).
Proof. eexists. split; vm_compute; reflexivity. Qed.

Lemma axis_constructor_forms_witness :
  nddata_axis.__init__ (nddata_axis.VStr "t")
    [nddata_axis.VInt 0; nddata_axis.VInt 3; nddata_axis.VInt 1;
     nddata_axis.VInt 7]
  = Ok {[ "_nddata_axis__dim" := nddata_axis.VStr "t" ]}
  /\ raises AttributeError
       (fst (nddata_axis.array {[ "_nddata_axis__dim" := nddata_axis.VStr "t" ]}))
  /\ raises AttributeError
       (fst (nddata_axis.__len__
               {[ "_nddata_axis__dim" := nddata_axis.VStr "t" ]})).
Proof.
  apply (proj1 (proj2 (proj2 (axis_constructor_forms "t"
                 [nddata_axis.VInt 0; nddata_axis.VInt 3; nddata_axis.VInt 1;
                  nddata_axis.VInt 7])))).
  simpl. lia.
Defined.

Lemma axis_cache_outlives_setters_witness :
  exists v,
    fst (nddata_axis.array sample_axis) = Ok v
    /\ let ax1 := snd (nddata_axis.array sample_axis) in
       let b := nddata_axis.VInt 5 in
       fst (nddata_axis.array (snd (nddata_axis.set_start b ax1))) = Ok v
       /\ fst (nddata_axis.array (snd (nddata_axis.set_stop b ax1))) = Ok v
       /\ fst (nddata_axis.array (snd (nddata_axis.set_step b ax1))) = Ok v
       /\ (nddata_axis.is_int_or_float b = true ->
             snd (nddata_axis.set_start b ax1) !! "_nddata_axis__start"
             = Some b
             /\ snd (nddata_axis.set_stop b ax1) !! "_nddata_axis__stop"
                = Some b
             /\ snd (nddata_axis.set_step b ax1) !! "_nddata_axis__step"
                = Some b)
       /\ snd (nddata_axis.drop_array ax1) !! "_array" = None.
Proof.
  eexists. split; [vm_compute; reflexivity|].
  apply (axis_cache_outlives_setters sample_axis _ (nddata_axis.VInt 5)).
  vm_compute. reflexivity.
Defined.

Lemma labeled_operands_by_position_witness :
  let combined f :=
    Some (dnpData.with_values
            (Np.Array (Np.shape (dnpData.values sample_2d))
                      (zip_with f (Np.data (dnpData.values sample_2d))
                                  (Np.data (dnpData.values sample_uv))))
            sample_2d) in
  dnpData.__add__ 0 (dnpData.Labeled 1) sample_unrelated
  = (Ok (combined num_add), sample_unrelated)
  /\ dnpData.__sub__ 0 (dnpData.Labeled 1) sample_unrelated
     = (Ok (combined num_sub), sample_unrelated)
  /\ dnpData.__mul__ 0 (dnpData.Labeled 1) sample_unrelated
     = (Ok (combined num_mul), sample_unrelated)
  /\ dnpData.__add__ 0 (dnpData.Buffer (dnpData.values sample_uv))
       sample_unrelated
     = (Ok (combined num_add), sample_unrelated)
  /\ dnpData.__radd__ 0 (dnpData.Labeled 1) sample_unrelated
     = (Ok (combined num_add), sample_unrelated)
  /\ dnpData.__rmul__ 0 (dnpData.Labeled 1) sample_unrelated
     = (Ok (combined num_mul), sample_unrelated).
Proof.
  apply (labeled_operands_by_position sample_unrelated 0 1 sample_2d
           sample_uv); reflexivity.
Defined.

(** The array over [x] and [y] plus the one over [u] and [v]: entry by
    entry, under the names [x] and [y]. *)
Example add_unrelated_scenario :
  dnpData.__add__ 0 (dnpData.Labeled 1) sample_unrelated
  = (Ok (Some (dnpData.Obj "1.0"
                 (Np.Array [3; 2] [11; 22; 33; 44; 55; 66]%Z)
                 [[0; 1; 2]%Z; [10; 20]%Z] ["x"; "y"] ∅ [])),
     sample_unrelated).
Proof. vm_compute. reflexivity. Qed.

Lemma scalar_add_then_sub_witness :
  exists o1,
    dnpData.__add__ 0 (dnpData.Scalar 5%Z) sample_world
    = (Ok (Some o1), sample_world)
    /\ dnpData.__radd__ 0 (dnpData.Scalar 5%Z) sample_world
       = (Ok (Some o1), sample_world)
    /\ dnpData.dims o1 = dnpData.dims sample_1d
    /\ dnpData.coords o1 = dnpData.coords sample_1d
    /\ dnpData.consistent o1 = dnpData.consistent sample_1d
    /\ dnpData.__sub__ 1 (dnpData.Scalar 5%Z) (upd 1 o1 sample_world)
       = (Ok (Some sample_1d), upd 1 o1 sample_world).
Proof.
  apply (scalar_add_then_sub sample_world 0 1 sample_1d 5%Z);
    [reflexivity | by_deciding | lia].
Defined.

(** ** Reading the samples of an axis by index *)

Section axis_indexing.
Import nddata_axis.

Lemma array_item_cases (dt : dtype) (elems : list Q) (i : Z) :
  let n := Z.of_nat (length elems) in
  ((0 <= i < n)%Z ->
     exists q, elems !! Z.to_nat i = Some q
               /\ array_item dt elems i = Ok (VNp dt q))
  /\ ((- n <= i < 0)%Z ->
        exists q, elems !! Z.to_nat (n + i) = Some q
                  /\ array_item dt elems i = Ok (VNp dt q))
  /\ ((i < - n \/ n <= i)%Z -> raises IndexError (array_item dt elems i)).
Proof.
  intros n. unfold array_item. fold n. cbv zeta. split; [|split].
  - intros Hi. destruct (Z.ltb_spec i 0); [lia|].
    destruct (Z.ltb_spec i 0); [lia|].
    destruct (Z.leb_spec n i); [lia|]. cbn [orb].
    destruct (lookup_lt_is_Some_2 elems (Z.to_nat i)) as [q Hq]; [lia|].
    exists q. by rewrite Hq.
  - intros Hi. destruct (Z.ltb_spec i 0); [|lia].
    destruct (Z.ltb_spec (i + n) 0); [lia|].
    destruct (Z.leb_spec n (i + n)); [lia|]. cbn [orb].
    replace (i + n)%Z with (n + i)%Z by lia.
    destruct (lookup_lt_is_Some_2 elems (Z.to_nat (n + i))) as [q Hq]; [lia|].
    exists q. by rewrite Hq.
  - intros Hi. destruct (Z.ltb_spec i 0).
    + destruct (Z.ltb_spec (i + n) 0); [by eexists|].
      destruct (Z.leb_spec n (i + n)); [by eexists | lia].
    + destruct (Z.ltb_spec i 0); [lia|].
      destruct (Z.leb_spec n i); [by eexists | lia].
Qed.

(** X27.  Indexing an axis that holds a triple of whole numbers of
    moderate size with a step other than 0 and no cached samples: [len(ax)]
    is the number of samples [ceil((stop - start) / step)], [ax[i]] is
    [start + i * step] for an index within the samples, a negative index
    counts from the end, and an index outside raises [IndexError]. *)
Theorem axis_getitem_samples (ax : nddata_axis.t) (name : string)
    (x y z : Q) (i : Z) :
  holds_triple ax name x y z -> ax !! "_array" = None -> ~ (z == 0)%Q ->
  small_integer x -> small_integer y -> small_integer z ->
  let n := Z.of_nat (sample_count x y z) in
  fst (__len__ ax) = Ok (sample_count x y z)
  /\ ((0 <= i < n)%Z ->
        exists dt q, fst (__getitem__ (At i) ax) = Ok (VNp dt q)
                     /\ (q == x + inject_Z i * z)%Q)
  /\ ((- n <= i < 0)%Z ->
        exists dt q, fst (__getitem__ (At i) ax) = Ok (VNp dt q)
                     /\ (q == x + inject_Z (n + i) * z)%Q)
  /\ ((i < - n \/ n <= i)%Z ->
        raises IndexError (fst (__getitem__ (At i) ax))).
Proof.
  intros (Hdim & a & b & c & Ha & Hb & Hc & Na & Nb & Nc) Hfresh Hz _ _ _ n.
  destruct Na as (f1 & n1 & qa & Na & Ea), Nb as (f2 & n2 & qb & Nb & Eb),
    Nc as (f3 & n3 & qc & Nc & Ec).
  assert (Hqc : ~ (qc == 0)%Q) by (by rewrite Ec).
  pose proof (r_slice_numbers a b c _ _ _ _ _ _ _ _ _ Na Nb Nc Hqc) as Hr.
  assert (Hn : sample_count qa qb qc = sample_count x y z).
  { unfold sample_count. by rewrite Ea, Eb, Ec. }
  rewrite Hn in Hr.
  pose proof (array_run_fresh ax a b c _ Hfresh Ha Hb Hc Hr) as Harr.
  set (dt := if f1 || f2 || f3 then float64 else int64) in *.
  set (elems := progression qa qc (sample_count x y z)) in *.
  assert (Hlen : length elems = sample_count x y z)
    by apply progression_length.
  assert (Hat : forall k q, elems !! k = Some q ->
            (q == x + inject_Z (Z.of_nat k) * z)%Q).
  { intros k q Hk. pose proof (lookup_lt_Some _ _ _ Hk) as Hlt.
    unfold elems in Hk. rewrite progression_lookup in Hk by lia.
    injection Hk as <-. by rewrite Ea, Ec. }
  destruct (array_item_cases dt elems i) as (Hin & Hneg & Hout).
  rewrite Hlen in Hin, Hneg, Hout. fold n in Hin, Hneg, Hout.
  unfold __len__, __getitem__. rewrite !(bind_ok _ _ _ _ _ Harr).
  split; [simpl; by rewrite Hlen|]. split; [|split].
  - intros Hi. destruct (Hin Hi) as (q & Hq & Hitem).
    exists dt, q. unfold lift. rewrite Hitem. split; [done|].
    rewrite (Hat _ _ Hq). by rewrite Z2Nat.id by lia.
  - intros Hi. destruct (Hneg Hi) as (q & Hq & Hitem).
    exists dt, q. unfold lift. rewrite Hitem. split; [done|].
    rewrite (Hat _ _ Hq). by rewrite Z2Nat.id by lia.
  - intros Hi. unfold lift. simpl. by apply Hout.
Qed.

End axis_indexing.

Lemma axis_getitem_samples_witness :
  let n := Z.of_nat (sample_count 0 3 1) in
  fst (nddata_axis.__len__ sample_axis) = Ok (sample_count 0 3 1)
  /\ ((0 <= 2 < n)%Z ->
        exists dt q,
          fst (nddata_axis.__getitem__ (nddata_axis.At 2) sample_axis)
          = Ok (nddata_axis.VNp dt q)
          /\ (q == 0 + inject_Z 2 * 1)%Q)
  /\ ((- n <= 2 < 0)%Z ->
        exists dt q,
          fst (nddata_axis.__getitem__ (nddata_axis.At 2) sample_axis)
          = Ok (nddata_axis.VNp dt q)
          /\ (q == 0 + inject_Z (n + 2) * 1)%Q)
  /\ ((2 < - n \/ n <= 2)%Z ->
        raises IndexError
          (fst (nddata_axis.__getitem__ (nddata_axis.At 2) sample_axis))).
Proof.
  assert (Hax : holds_triple sample_axis "t" 0 3 1).
  { split; [reflexivity|]. eexists _, _, _.
    repeat split; try reflexivity; eexists _, _, _; split; reflexivity. }
  apply (axis_getitem_samples sample_axis "t" 0 3 1 2 Hax eq_refl
           ltac:(discriminate)
           (small_integer_Z 0 ltac:(simpl; lia))
           (small_integer_Z 3 ltac:(simpl; lia))
           (small_integer_Z 1 ltac:(simpl; lia))).
Defined.

(** The axis 0, 1, 2: its entries, the last one by [-1], and the first
    index out of range. *)
Example axis_getitem_scenario :
  fst (nddata_axis.__getitem__ (nddata_axis.At 2) sample_axis)
  = Ok (nddata_axis.VNp nddata_axis.int64 2)
  /\ fst (nddata_axis.__getitem__ (nddata_axis.At (-1)) sample_axis)
     = Ok (nddata_axis.VNp nddata_axis.int64 2)
  /\ fst (nddata_axis.__getitem__ (nddata_axis.At 3) sample_axis)
     = Raise (Exn IndexError "index is out of bounds for axis 0")
  /\ fst (nddata_axis.__len__ sample_axis) = Ok 3.
Proof. repeat split; vm_compute; reflexivity. Qed.
